(** * LunaTV live-watch statistics: heartbeat tracking, settlement, report

    A shallow embedding of the three route handlers that make up the
    live-statistics engine:

    - [src/app/api/live/heartbeat/route.ts]      (module [Heartbeat])
    - the heartbeat-end handler                  (module [HeartbeatEnd])
    - the admin live-stats handler               (module [LiveStats])

    JavaScript numbers that the handlers only ever use as integer counters
    and millisecond timestamps are [Z].  The key-value store behind
    [db.getCache / db.setCache / db.deleteCache] is a record of finite maps,
    one per key prefix; every store operation succeeds (the development
    covers the runs without storage failures). *)

From stdpp Require Import gmap strings list pretty.
From Stdlib Require Import ZArith Lia Ascii Sorted Permutation.

Local Open Scope Z_scope.

(** ** Data model *)

(** Modelled from the spec: [LiveHeartbeatRequest] of [@/lib/types], which
    is not among the sources.  The fields are the ones [POST] destructures
    from the body; a missing field and an empty one are both the empty
    string (both are falsy in the validation). *)
Record LiveHeartbeatRequest := mkLiveHeartbeatRequest {
  hb_sessionId : string;
  hb_channelId : string;
  hb_channelName : string;
  hb_channelGroup : string;
  hb_channelLogo : string;
  hb_sourceKey : string;
  hb_sourceName : string;
}.

(** Modelled from the spec: [LiveWatchState] of [@/lib/types] (section 3,
    WatchState); the fields are the ones the heartbeat handler writes. *)
Record LiveWatchState := mkLiveWatchState {
  ws_channelId : string;
  ws_channelName : string;
  ws_channelGroup : string;
  ws_channelLogo : string;
  ws_sourceKey : string;
  ws_sourceName : string;
  ws_startTime : Z;
  ws_lastHeartbeat : Z;
  ws_heartbeatCount : Z;
}.

(** Modelled from the spec: [LiveWatchSession] of [@/lib/types] (section 3,
    WatchSession); the fields are the ones [settleWatchSession] writes. *)
Record LiveWatchSession := mkLiveWatchSession {
  se_channelId : string;
  se_channelName : string;
  se_channelGroup : string;
  se_channelLogo : string;
  se_sourceKey : string;
  se_sourceName : string;
  se_startTime : Z;
  se_endTime : Z;
  se_duration : Z;
  se_heartbeatCount : Z;
}.

(** Value stored under [live:stats:{username}]. *)
Record UserStats := mkUserStats {
  us_totalWatchTime : Z;
  us_totalSessions : Z;
  us_lastWatchTime : Z;
}.

(** Value stored under [live:daily:{YYYY-MM-DD}]; [users] is a JS array. *)
Record DailyStats := mkDailyStats {
  ds_watchTime : Z;
  ds_sessions : Z;
  ds_users : list string;
}.

(** Value stored under [live:channel:{channelId}]. *)
Record ChannelStats := mkChannelStats {
  cs_channelId : string;
  cs_channelName : string;
  cs_channelGroup : string;
  cs_totalWatchTime : Z;
  cs_totalSessions : Z;
  cs_users : list string;
}.

(** Value type of the per-user [channelWatchMap] of the report. *)
Record FavoriteChannel := mkFavoriteChannel {
  fc_channelId : string;
  fc_channelName : string;
  fc_channelGroup : string;
  fc_watchTime : Z;
  fc_watchCount : Z;
}.

(** Modelled from the spec: [UserLiveStats] of [@/lib/types]; the fields are
    the ones the report handler writes. *)
Record UserLiveStats := mkUserLiveStats {
  ul_username : string;
  ul_totalWatchTime : Z;
  ul_totalSessions : Z;
  ul_lastWatchTime : Z;
  ul_favoriteChannels : list FavoriteChannel;
  ul_recentSessions : list LiveWatchSession;
}.

(** Value of the [channelStatsMap] accumulator of the report; [users] is a
    JS [Set], kept as the duplicate-free list of its insertion order. *)
Record GlobalChannel := mkGlobalChannel {
  gc_channelId : string;
  gc_channelName : string;
  gc_channelGroup : string;
  gc_totalWatchTime : Z;
  gc_totalSessions : Z;
  gc_users : list string;
}.

Record HotChannel := mkHotChannel {
  hc_channelId : string;
  hc_channelName : string;
  hc_channelGroup : string;
  hc_totalWatchTime : Z;
  hc_totalUsers : Z;
  hc_totalSessions : Z;
}.

Record DailyTrend := mkDailyTrend {
  dt_date : string;
  dt_watchTime : Z;
  dt_sessions : Z;
  dt_users : Z;
}.

(** Modelled from the spec: [GlobalLiveStats] of [@/lib/types]; the fields
    are the ones the report handler writes. *)
Record GlobalLiveStats := mkGlobalLiveStats {
  gs_totalUsers : Z;
  gs_totalWatchTime : Z;
  gs_totalSessions : Z;
  gs_todayActiveUsers : Z;
  gs_hotChannels : list HotChannel;
  gs_dailyTrend : list DailyTrend;
  gs_userStats : list UserLiveStats;
}.

(** ** The store *)

(** Modelled from the spec: the Counter Store behind [db] of [@/lib/db],
    which is not among the sources (section 6: [get] returns the value last
    set under the key or nothing, [set] overwrites, [delete] removes).  TTLs
    are not kept with the values: a key running out of time is a step of
    its own ([EvExpire] below for a watch state, [expireGlobalStats] for
    the cached report).

    One finite map per key prefix, indexed by the variable part of the key:

    - [watching]    [live:watching:{username}:{sessionId}]  (TTL 60 s)
    - [sessions]    [live:sessions:{username}]
    - [stats]       [live:stats:{username}]
    - [daily]       [live:daily:{YYYY-MM-DD}]               (TTL 7 days)
    - [channel]     [live:channel:{channelId}]
    - [globalStats] [live:global-stats]                     (TTL 5 min)

    The prefixes are pairwise incomparable (lemma [key_prefixes_disjoint]
    below), so a write under one prefix never reaches a key of another. *)
Record Store := mkStore {
  watching : gmap string LiveWatchState;
  sessions : gmap string (list LiveWatchSession);
  stats : gmap string UserStats;
  daily : gmap string DailyStats;
  channel : gmap string ChannelStats;
  globalStats : option GlobalLiveStats;
}.

Definition emptyStore : Store :=
  mkStore ∅ ∅ ∅ ∅ ∅ None.

(** Modelled from the spec: [db.setCache] on a [live:watching:] key. *)
Definition setWatching (k : string) (v : LiveWatchState) (db : Store) : Store :=
  mkStore (<[k:=v]> (watching db)) (sessions db) (stats db) (daily db)
          (channel db) (globalStats db).

(** Modelled from the spec: [db.deleteCache] on a [live:watching:] key. *)
Definition deleteWatching (k : string) (db : Store) : Store :=
  mkStore (delete k (watching db)) (sessions db) (stats db) (daily db)
          (channel db) (globalStats db).

(** Modelled from the spec: [db.setCache] on a [live:sessions:] key. *)
Definition setSessions (k : string) (v : list LiveWatchSession) (db : Store) : Store :=
  mkStore (watching db) (<[k:=v]> (sessions db)) (stats db) (daily db)
          (channel db) (globalStats db).

(** Modelled from the spec: [db.setCache] on a [live:stats:] key. *)
Definition setStats (k : string) (v : UserStats) (db : Store) : Store :=
  mkStore (watching db) (sessions db) (<[k:=v]> (stats db)) (daily db)
          (channel db) (globalStats db).

(** Modelled from the spec: [db.setCache] on a [live:daily:] key. *)
Definition setDaily (k : string) (v : DailyStats) (db : Store) : Store :=
  mkStore (watching db) (sessions db) (stats db) (<[k:=v]> (daily db))
          (channel db) (globalStats db).

(** Modelled from the spec: [db.setCache] on a [live:channel:] key. *)
Definition setChannel (k : string) (v : ChannelStats) (db : Store) : Store :=
  mkStore (watching db) (sessions db) (stats db) (daily db)
          (<[k:=v]> (channel db)) (globalStats db).

(** Modelled from the spec: [db.setCache] on the [live:global-stats] key.
    The [STATS_CACHE_TTL] passed with the report is not stored; the key
    running out of time is the step [expireGlobalStats] below. *)
Definition setGlobalStats (v : GlobalLiveStats) (db : Store) : Store :=
  mkStore (watching db) (sessions db) (stats db) (daily db)
          (channel db) (Some v).

(** The literal keys of the handlers, kept to show that the prefixes cannot
    collide. *)
Definition watchKeyFull (username sessionId : string) : string :=
  String.append "live:watching:" (String.append username (String.append ":" sessionId)).
Definition sessionsKeyFull (username : string) : string :=
  String.append "live:sessions:" username.
Definition statsKeyFull (username : string) : string :=
  String.append "live:stats:" username.
Definition dailyKeyFull (today : string) : string :=
  String.append "live:daily:" today.
Definition channelStatsKeyFull (channelId : string) : string :=
  String.append "live:channel:" channelId.
Definition cacheKeyFull : string := "live:global-stats".

(** Variable part of the watch-state key: [`${username}:${sessionId}`]. *)
Definition watchKey (username sessionId : string) : string :=
  String.append username (String.append ":" sessionId).

(** ** [Date.prototype.toISOString().split('T')[0]]

    The UTC calendar date of a millisecond timestamp, as the ECMAScript
    built-in prints it: proleptic Gregorian calendar, [YYYY-MM-DD], with the
    expanded-year form [±YYYYYY] outside years 0..9999. *)

Definition msPerDay : Z := 24 * 60 * 60 * 1000.

(** Number of the UTC day that contains timestamp [ms] (day 0 = 1970-01-01). *)
Definition utcDay (ms : Z) : Z := ms / msPerDay.

(** Year, month, day of a day number. *)
Definition civilFromDays (days : Z) : Z * Z * Z :=
  let z := days + 719468 in
  let era := z / 146097 in
  let doe := z - era * 146097 in
  let yoe := (doe - doe / 1460 + doe / 36524 - doe / 146096) / 365 in
  let doy := doe - (365 * yoe + yoe / 4 - yoe / 100) in
  let mp := (5 * doy + 2) / 153 in
  let d := doy - (153 * mp + 2) / 5 + 1 in
  let m := if mp <? 10 then mp + 3 else mp - 9 in
  let y := yoe + era * 400 + (if m <=? 2 then 1 else 0) in
  (y, m, d).

Definition digit (n : Z) : string :=
  String (ascii_of_nat (48 + Z.to_nat (n mod 10))) EmptyString.

Fixpoint padDigits (width : nat) (n : Z) : string :=
  match width with
  | O => EmptyString
  | S w => String.append (padDigits w (n / 10)) (digit n)
  end.

Definition isoYear (y : Z) : string :=
  if (0 <=? y) && (y <=? 9999) then padDigits 4 y
  else if y <? 0 then String.append "-" (padDigits 6 (- y))
  else String.append "+" (padDigits 6 y).

Definition isoDateOfDay (days : Z) : string :=
  let '(y, m, d) := civilFromDays days in
  String.append (isoYear y)
    (String.append "-" (String.append (padDigits 2 m)
       (String.append "-" (padDigits 2 d)))).

Definition toISODate (ms : Z) : string := isoDateOfDay (utcDay ms).

(** ** Responses of the handlers (status codes only). *)
Inductive Response :=
  | Success          (* 200 { success: true } *)
  | BadRequest       (* 400 *).

(** ** [src/app/api/live/heartbeat/route.ts] *)
Module Heartbeat.

Definition HEARTBEAT_INTERVAL : Z := 30.
Definition WATCH_STATE_TTL : Z := 60.
Definition MAX_SESSION_DURATION : Z := 8 * 60 * 60.
Definition MIN_SESSION_DURATION : Z := 30.

(** The record built at "构建会话记录". *)
Definition mkSession (state : LiveWatchState) (endTime duration : Z) : LiveWatchSession :=
  {| se_channelId := ws_channelId state;
     se_channelName := ws_channelName state;
     se_channelGroup := ws_channelGroup state;
     se_channelLogo := ws_channelLogo state;
     se_sourceKey := ws_sourceKey state;
     se_sourceName := ws_sourceName state;
     se_startTime := ws_startTime state;
     se_endTime := endTime;
     se_duration := duration;
     se_heartbeatCount := ws_heartbeatCount state |}.

(** [existingSessions.unshift(session); if (length > 100) length = 100]. *)
Definition pushSession (session : LiveWatchSession)
    (existingSessions : list LiveWatchSession) : list LiveWatchSession :=
  let existingSessions := session :: existingSessions in
  if (100 <? length existingSessions)%nat then take 100 existingSessions
  else existingSessions.

(** [if (!users.includes(username)) users.push(username)]. *)
Definition addUser (username : string) (users : list string) : list string :=
  if bool_decide (username ∈ users) then users else users ++ [username].

(** [settleWatchSession(username, state, endTime)].  [clock] is the value
    [new Date()] has when the daily statistics are updated; it is read
    inside the function, independently of [endTime]. *)
Definition settleWatchSession (username : string) (state : LiveWatchState)
    (endTime : Z) (clock : Z) (db : Store) : Store :=
  let duration := ws_heartbeatCount state * HEARTBEAT_INTERVAL in
  if duration <? MIN_SESSION_DURATION then db
  else if MAX_SESSION_DURATION <? duration then db
  else
    let session := mkSession state endTime duration in
    (* session list *)
    let existingSessions := default [] (sessions db !! username) in
    let db := setSessions username (pushSession session existingSessions) db in
    (* user totals *)
    let st := default (mkUserStats 0 0 0) (stats db !! username) in
    let db := setStats username
                {| us_totalWatchTime := us_totalWatchTime st + duration;
                   us_totalSessions := us_totalSessions st + 1;
                   us_lastWatchTime := endTime |} db in
    (* daily totals *)
    let today := toISODate clock in
    let dailyStats := default (mkDailyStats 0 0 []) (daily db !! today) in
    let db := setDaily today
                {| ds_watchTime := ds_watchTime dailyStats + duration;
                   ds_sessions := ds_sessions dailyStats + 1;
                   ds_users := addUser username (ds_users dailyStats) |} db in
    (* channel totals *)
    let channelStats :=
      default (mkChannelStats (ws_channelId state) (ws_channelName state)
                 (ws_channelGroup state) 0 0 [])
              (channel db !! ws_channelId state) in
    setChannel (ws_channelId state)
      {| cs_channelId := cs_channelId channelStats;
         cs_channelName := cs_channelName channelStats;
         cs_channelGroup := cs_channelGroup channelStats;
         cs_totalWatchTime := cs_totalWatchTime channelStats + duration;
         cs_totalSessions := cs_totalSessions channelStats + 1;
         cs_users := addUser username (cs_users channelStats) |} db.

(** JS truthiness of a string: [!s] holds exactly for the empty string. *)
Definition falsy (s : string) : bool := bool_decide (s = EmptyString).

(** The fresh state written on a first heartbeat and on a channel switch. *)
Definition newState (body : LiveHeartbeatRequest) (now : Z) : LiveWatchState :=
  {| ws_channelId := hb_channelId body;
     ws_channelName := hb_channelName body;
     ws_channelGroup := hb_channelGroup body;
     ws_channelLogo := hb_channelLogo body;
     ws_sourceKey := hb_sourceKey body;
     ws_sourceName := hb_sourceName body;
     ws_startTime := now;
     ws_lastHeartbeat := now;
     ws_heartbeatCount := 1 |}.

(** [{ ...lastState, lastHeartbeat: now, heartbeatCount: count + 1 }]. *)
Definition updatedState (lastState : LiveWatchState) (now : Z) : LiveWatchState :=
  {| ws_channelId := ws_channelId lastState;
     ws_channelName := ws_channelName lastState;
     ws_channelGroup := ws_channelGroup lastState;
     ws_channelLogo := ws_channelLogo lastState;
     ws_sourceKey := ws_sourceKey lastState;
     ws_sourceName := ws_sourceName lastState;
     ws_startTime := ws_startTime lastState;
     ws_lastHeartbeat := now;
     ws_heartbeatCount := ws_heartbeatCount lastState + 1 |}.

(** [POST], from the point where the caller is authenticated as
    [username].  [now] is [Date.now()]; [clock] is the later clock reading
    of a settlement, should one happen. *)
Definition POST (username : string) (body : LiveHeartbeatRequest)
    (now clock : Z) (db : Store) : Response * Store :=
  if falsy (hb_sessionId body) || falsy (hb_channelId body)
     || falsy (hb_channelName body) || falsy (hb_sourceKey body)
  then (BadRequest, db)
  else
    let watchKey := watchKey username (hb_sessionId body) in
    match watching db !! watchKey with
    | Some lastState =>
        if bool_decide (ws_channelId lastState ≠ hb_channelId body) then
          let db := settleWatchSession username lastState now clock db in
          (Success, setWatching watchKey (newState body now) db)
        else
          (Success, setWatching watchKey (updatedState lastState now) db)
    | None =>
        (Success, setWatching watchKey (newState body now) db)
    end.

End Heartbeat.

(** ** The heartbeat-end handler ([POST /api/live/heartbeat/end]) *)
Module HeartbeatEnd.

Definition HEARTBEAT_INTERVAL : Z := 30.
Definition MAX_SESSION_DURATION : Z := 8 * 60 * 60.
Definition MIN_SESSION_DURATION : Z := 30.

(** The handler carries its own copy of [settleWatchSession]. *)
Definition settleWatchSession (username : string) (state : LiveWatchState)
    (endTime : Z) (clock : Z) (db : Store) : Store :=
  let duration := ws_heartbeatCount state * HEARTBEAT_INTERVAL in
  if duration <? MIN_SESSION_DURATION then db
  else if MAX_SESSION_DURATION <? duration then db
  else
    let session := Heartbeat.mkSession state endTime duration in
    let existingSessions := default [] (sessions db !! username) in
    let db := setSessions username (Heartbeat.pushSession session existingSessions) db in
    let st := default (mkUserStats 0 0 0) (stats db !! username) in
    let db := setStats username
                {| us_totalWatchTime := us_totalWatchTime st + duration;
                   us_totalSessions := us_totalSessions st + 1;
                   us_lastWatchTime := endTime |} db in
    let today := toISODate clock in
    let dailyStats := default (mkDailyStats 0 0 []) (daily db !! today) in
    let db := setDaily today
                {| ds_watchTime := ds_watchTime dailyStats + duration;
                   ds_sessions := ds_sessions dailyStats + 1;
                   ds_users := Heartbeat.addUser username (ds_users dailyStats) |} db in
    let channelStats :=
      default (mkChannelStats (ws_channelId state) (ws_channelName state)
                 (ws_channelGroup state) 0 0 [])
              (channel db !! ws_channelId state) in
    setChannel (ws_channelId state)
      {| cs_channelId := cs_channelId channelStats;
         cs_channelName := cs_channelName channelStats;
         cs_channelGroup := cs_channelGroup channelStats;
         cs_totalWatchTime := cs_totalWatchTime channelStats + duration;
         cs_totalSessions := cs_totalSessions channelStats + 1;
         cs_users := Heartbeat.addUser username (cs_users channelStats) |} db.

(** [POST], from the point where the caller is authenticated as
    [username]; the body carries [sessionId] only. *)
Definition POST (username : string) (sessionId : string)
    (now clock : Z) (db : Store) : Response * Store :=
  if Heartbeat.falsy sessionId then (BadRequest, db)
  else
    let watchKey := watchKey username sessionId in
    match watching db !! watchKey with
    | Some state =>
        let db := settleWatchSession username state now clock db in
        (Success, deleteWatching watchKey db)
    | None => (Success, db)
    end.

End HeartbeatEnd.


(** ** The admin live-stats handler ([GET /api/admin/live-stats]) *)
Module LiveStats.

Definition STATS_CACHE_TTL : Z := 5 * 60.

(** A JS [Map<string, V>]: iteration follows insertion order, which the
    rankings depend on, so it is an association list.  [set] on a present
    key keeps the entry's position, [set] on a new key appends. *)
Section JsMap.
Context {V : Type}.

Fixpoint mapGet (k : string) (m : list (string * V)) : option V :=
  match m with
  | [] => None
  | (k', v) :: m' => if bool_decide (k' = k) then Some v else mapGet k m'
  end.

Fixpoint mapSet (k : string) (v : V) (m : list (string * V)) : list (string * V) :=
  match m with
  | [] => [(k, v)]
  | (k', v') :: m' =>
      if bool_decide (k' = k) then (k', v) :: m' else (k', v') :: mapSet k v m'
  end.

Definition mapValues (m : list (string * V)) : list V := m.*2.
End JsMap.

(** [Array.prototype.sort(cmp)]: a stable sort (ECMAScript 2019); [cmp a b]
    negative or zero leaves [a] before [b].  Written as insertion from the
    right, which is stable. *)
Section JsSort.
Context {A : Type} (cmp : A → A → Z).

Fixpoint sortInsert (x : A) (l : list A) : list A :=
  match l with
  | [] => [x]
  | y :: l' => if cmp x y <=? 0 then x :: y :: l' else y :: sortInsert x l'
  end.

Fixpoint jsSort (l : list A) : list A :=
  match l with
  | [] => []
  | x :: l' => sortInsert x (jsSort l')
  end.
End JsSort.

(** [Set.prototype.add] on a set kept as the list of its members in
    insertion order. *)
Definition setAdd (x : string) (s : list string) : list string :=
  if bool_decide (x ∈ s) then s else s ++ [x].

(** Body of [for (const session of sessions)], first half: the user's
    [channelWatchMap]. *)
Definition watchStep (channelWatchMap : list (string * FavoriteChannel))
    (session : LiveWatchSession) : list (string * FavoriteChannel) :=
  match mapGet (se_channelId session) channelWatchMap with
  | Some existing =>
      mapSet (se_channelId session)
        {| fc_channelId := fc_channelId existing;
           fc_channelName := fc_channelName existing;
           fc_channelGroup := fc_channelGroup existing;
           fc_watchTime := fc_watchTime existing + se_duration session;
           fc_watchCount := fc_watchCount existing + 1 |} channelWatchMap
  | None =>
      mapSet (se_channelId session)
        {| fc_channelId := se_channelId session;
           fc_channelName := se_channelName session;
           fc_channelGroup := se_channelGroup session;
           fc_watchTime := se_duration session;
           fc_watchCount := 1 |} channelWatchMap
  end.

(** Second half: the site-wide [channelStatsMap]. *)
Definition globalStep (username : string)
    (channelStatsMap : list (string * GlobalChannel))
    (session : LiveWatchSession) : list (string * GlobalChannel) :=
  match mapGet (se_channelId session) channelStatsMap with
  | Some globalChannel =>
      mapSet (se_channelId session)
        {| gc_channelId := gc_channelId globalChannel;
           gc_channelName := gc_channelName globalChannel;
           gc_channelGroup := gc_channelGroup globalChannel;
           gc_totalWatchTime := gc_totalWatchTime globalChannel + se_duration session;
           gc_totalSessions := gc_totalSessions globalChannel + 1;
           gc_users := setAdd username (gc_users globalChannel) |}
        channelStatsMap
  | None =>
      mapSet (se_channelId session)
        {| gc_channelId := se_channelId session;
           gc_channelName := se_channelName session;
           gc_channelGroup := se_channelGroup session;
           gc_totalWatchTime := se_duration session;
           gc_totalSessions := 1;
           gc_users := [username] |} channelStatsMap
  end.

(** The whole [for (const session of sessions)] loop. *)
Definition sessionLoop (username : string) (sessions : list LiveWatchSession)
    (channelStatsMap : list (string * GlobalChannel))
    : list (string * FavoriteChannel) * list (string * GlobalChannel) :=
  fold_left (λ acc session,
               (watchStep acc.1 session, globalStep username acc.2 session))
            sessions ([], channelStatsMap).

(** [Array.from(map.values()).sort((a, b) => b.watchTime - a.watchTime).slice(0, 5)] *)
Definition favoriteChannels (channelWatchMap : list (string * FavoriteChannel))
    : list FavoriteChannel :=
  take 5 (jsSort (λ a b, fc_watchTime b - fc_watchTime a) (mapValues channelWatchMap)).

(** State of the loop over [allUsers]. *)
Record Scan := mkScan {
  sc_userStats : list UserLiveStats;
  sc_totalWatchTime : Z;
  sc_totalSessions : Z;
  sc_channelStatsMap : list (string * GlobalChannel);
}.

(** Body of [for (const user of allUsers)]. *)
Definition userStep (db : Store) (acc : Scan) (username : string) : Scan :=
  let stats := stats db !! username in
  let sessions := default [] (sessions db !! username) in
  if bool_decide (stats = None) && bool_decide (length sessions = 0%nat) then acc
  else
    let '(channelWatchMap, channelStatsMap) :=
      sessionLoop username sessions (sc_channelStatsMap acc) in
    let userStat :=
      {| ul_username := username;
         ul_totalWatchTime := from_option us_totalWatchTime 0 stats;
         ul_totalSessions := from_option us_totalSessions 0 stats;
         ul_lastWatchTime := from_option us_lastWatchTime 0 stats;
         ul_favoriteChannels := favoriteChannels channelWatchMap;
         ul_recentSessions := take 10 sessions |} in
    {| sc_userStats := sc_userStats acc ++ [userStat];
       sc_totalWatchTime := sc_totalWatchTime acc + ul_totalWatchTime userStat;
       sc_totalSessions := sc_totalSessions acc + ul_totalSessions userStat;
       sc_channelStatsMap := channelStatsMap |}.

Definition scanUsers (db : Store) (allUsers : list string) : Scan :=
  fold_left (userStep db) allUsers (mkScan [] 0 0 []).

Definition toHotChannel (c : GlobalChannel) : HotChannel :=
  {| hc_channelId := gc_channelId c;
     hc_channelName := gc_channelName c;
     hc_channelGroup := gc_channelGroup c;
     hc_totalWatchTime := gc_totalWatchTime c;
     hc_totalUsers := Z.of_nat (length (gc_users c));
     hc_totalSessions := gc_totalSessions c |}.

Definition hotChannels (channelStatsMap : list (string * GlobalChannel)) : list HotChannel :=
  take 10 (jsSort (λ a b, hc_totalWatchTime b - hc_totalWatchTime a)
             (toHotChannel <$> mapValues channelStatsMap)).

(** One iteration of [for (let i = 6; i >= 0; i--)]. *)
Definition trendEntry (db : Store) (now : Z) (i : Z) : DailyTrend :=
  let date := now - i * 24 * 60 * 60 * 1000 in
  let dateKey := toISODate date in
  let dailyStats := daily db !! dateKey in
  {| dt_date := dateKey;
     dt_watchTime := from_option ds_watchTime 0 dailyStats;
     dt_sessions := from_option ds_sessions 0 dailyStats;
     dt_users := from_option (λ d, Z.of_nat (length (ds_users d))) 0 dailyStats |}.

(** The iterations [i, i-1, ..., 0], pushed in that order. *)
Fixpoint trendLoop (db : Store) (now : Z) (i : nat) : list DailyTrend :=
  trendEntry db now (Z.of_nat i) ::
  match i with
  | O => []
  | S j => trendLoop db now j
  end.

(** The report computed when the cache is bypassed or empty.  [now] is the
    [new Date()] read before the trend loop. *)
Definition buildReport (db : Store) (allUsers : list string) (now : Z) : GlobalLiveStats :=
  let scan := scanUsers db allUsers in
  let userStats :=
    jsSort (λ a b, ul_totalWatchTime b - ul_totalWatchTime a) (sc_userStats scan) in
  let todayStats := daily db !! toISODate now in
  {| gs_totalUsers := Z.of_nat (length userStats);
     gs_totalWatchTime := sc_totalWatchTime scan;
     gs_totalSessions := sc_totalSessions scan;
     gs_todayActiveUsers := from_option (λ d, Z.of_nat (length (ds_users d))) 0 todayStats;
     gs_hotChannels := hotChannels (sc_channelStatsMap scan);
     gs_dailyTrend := trendLoop db now 6;
     gs_userStats := userStats |}.

(** [GET], from the point where the caller is known to be an administrator. *)
Definition GET (allUsers : list string) (forceRefresh : bool) (now : Z)
    (db : Store) : GlobalLiveStats * Store :=
  match (if forceRefresh then None else globalStats db) with
  | Some cachedStats => (cachedStats, db)
  | None =>
      let result := buildReport db allUsers now in
      (result, setGlobalStats result db)
  end.

End LiveStats.

(** ** Event traces

    The three things that can happen to the store between two reads: a
    heartbeat request, an end request, and the store dropping a watch state
    whose TTL ran out (no handler runs then, so nothing is settled). *)
Inductive Event :=
  | EvHeartbeat (username : string) (body : LiveHeartbeatRequest) (now clock : Z)
  | EvEndWatch (username sessionId : string) (now clock : Z)
  | EvExpire (key : string).

Definition step (db : Store) (ev : Event) : Store :=
  match ev with
  | EvHeartbeat username body now clock => (Heartbeat.POST username body now clock db).2
  | EvEndWatch username sessionId now clock =>
      (HeartbeatEnd.POST username sessionId now clock db).2
  | EvExpire key => deleteWatching key db
  end.

Definition run (trace : list Event) (db : Store) : Store := fold_left step trace db.

(** The watch-state key an event reads or writes. *)
Definition eventKey (ev : Event) : string :=
  match ev with
  | EvHeartbeat username body _ _ => watchKey username (hb_sessionId body)
  | EvEndWatch username sessionId _ _ => watchKey username sessionId
  | EvExpire key => key
  end.

(** A well-formed heartbeat of [username] in tab [sessionId] for channel
    [channelId]. *)
Definition beatOn (username sessionId channelId : string) (ev : Event) : Prop :=
  match ev with
  | EvHeartbeat u body _ _ =>
      u = username ∧ hb_sessionId body = sessionId ∧ hb_channelId body = channelId
      ∧ sessionId ≠ EmptyString ∧ channelId ≠ EmptyString
      ∧ hb_channelName body ≠ EmptyString ∧ hb_sourceKey body ≠ EmptyString
  | _ => False
  end.

(** A direct call of the settlement function. *)
Record Settlement := mkSettlement {
  st_username : string;
  st_state : LiveWatchState;
  st_endTime : Z;
  st_clock : Z;
}.

Definition settle (db : Store) (s : Settlement) : Store :=
  Heartbeat.settleWatchSession (st_username s) (st_state s) (st_endTime s) (st_clock s) db.

Definition settleAll (l : list Settlement) (db : Store) : Store := fold_left settle l db.

(** ** Reading the aggregates *)
Definition sessionsOf (db : Store) (username : string) : list LiveWatchSession :=
  default [] (sessions db !! username).
Definition totalWatchTimeOf (db : Store) (username : string) : Z :=
  from_option us_totalWatchTime 0 (stats db !! username).
Definition totalSessionsOf (db : Store) (username : string) : Z :=
  from_option us_totalSessions 0 (stats db !! username).
Definition dailyWatchTimeOf (db : Store) (day : string) : Z :=
  from_option ds_watchTime 0 (daily db !! day).
Definition channelWatchTimeOf (db : Store) (channelId : string) : Z :=
  from_option cs_totalWatchTime 0 (channel db !! channelId).

Definition sumDurations (l : list LiveWatchSession) : Z :=
  foldr (λ s acc, se_duration s + acc) 0 l.

(** The duration window of a settlement. *)
Definition inWindow (duration : Z) : Prop :=
  Heartbeat.MIN_SESSION_DURATION ≤ duration ≤ Heartbeat.MAX_SESSION_DURATION.

(** ** The ranking rule of the report, in the words of the specification

    "summing per-channel duration and count across the session list, sorted
    descending by total watch time, ties broken by original order, first n".
    These definitions do not come from the handler; the handler's loops are
    compared with them below. *)

(** Channel ids in the order in which they first occur. *)
Fixpoint firstOccurrences (l : list string) : list string :=
  match l with
  | [] => []
  | x :: l' => x :: filter (λ y, y ≠ x) (firstOccurrences l')
  end.

Definition onChannel (channelId : string) (l : list LiveWatchSession) : list LiveWatchSession :=
  filter (λ s, se_channelId s = channelId) l.

(** Per-channel sum and count over one user's session list; name and group
    are those of the first session of the channel. *)
Definition channelTotal (l : list LiveWatchSession) (channelId : string) : FavoriteChannel :=
  let ss := onChannel channelId l in
  {| fc_channelId := channelId;
     fc_channelName := from_option se_channelName EmptyString (head ss);
     fc_channelGroup := from_option se_channelGroup EmptyString (head ss);
     fc_watchTime := sumDurations ss;
     fc_watchCount := Z.of_nat (length ss) |}.

Definition channelTotals (l : list LiveWatchSession) : list FavoriteChannel :=
  channelTotal l <$> firstOccurrences (se_channelId <$> l).

(** Every session the report scans, with the user it belongs to, in scan
    order. *)
Definition scannedSessions (db : Store) (allUsers : list string)
    : list (string * LiveWatchSession) :=
  allUsers ≫= λ u, (λ s, (u, s)) <$> sessionsOf db u.

Definition onChannel2 (channelId : string) (l : list (string * LiveWatchSession))
    : list (string * LiveWatchSession) :=
  filter (λ us, se_channelId us.2 = channelId) l.

(** Per-channel sum, count and number of distinct users over all scanned
    sessions. *)
Definition hotTotal (l : list (string * LiveWatchSession)) (channelId : string) : HotChannel :=
  let ss := onChannel2 channelId l in
  {| hc_channelId := channelId;
     hc_channelName := from_option (λ us, se_channelName us.2) EmptyString (head ss);
     hc_channelGroup := from_option (λ us, se_channelGroup us.2) EmptyString (head ss);
     hc_totalWatchTime := sumDurations (ss.*2);
     hc_totalUsers := Z.of_nat (size (list_to_set (ss.*1) : gset string));
     hc_totalSessions := Z.of_nat (length ss) |}.

Definition hotTotals (l : list (string * LiveWatchSession)) : list HotChannel :=
  hotTotal l <$> firstOccurrences ((λ us, se_channelId us.2) <$> l).

(** [output] is [input] reordered by descending [key], equal keys keeping
    their relative order. *)
Definition RankedDesc {A : Type} (key : A → Z) (input output : list A) : Prop :=
  output ≡ₚ input
  ∧ StronglySorted (λ a b, key b ≤ key a) output
  ∧ ∀ t, filter (λ a, key a = t) output = filter (λ a, key a = t) input.

(** [result] is the first [n] entries of that ranking. *)
Definition TopRanked {A : Type} (n : nat) (key : A → Z) (input result : list A) : Prop :=
  ∃ ranked, RankedDesc key input ranked ∧ result = take n ranked.

(** ** Sample data used to run the handlers on concrete inputs *)
Definition newsBody : LiveHeartbeatRequest :=
  mkLiveHeartbeatRequest "tab1" "c1" "News" "" "" "s1" "".
Definition sportBody : LiveHeartbeatRequest :=
  mkLiveHeartbeatRequest "tab1" "c2" "Sport" "" "" "s1" "".
Definition newsState (heartbeats : Z) : LiveWatchState :=
  mkLiveWatchState "c1" "News" "" "" "s1" "" 0 0 heartbeats.
(** A store in which alice has been watching News in tab1 for 4 heartbeats. *)
Definition watchingNews : Store :=
  setWatching (watchKey "alice" "tab1") (newsState 4) emptyStore.

(** One-heartbeat settlements of alice on News, [n] of them in a row. *)
Definition shortSettlements (n : nat) : list Settlement :=
  replicate n (mkSettlement "alice" (newsState 1) 0 0).

(** Four heartbeats of alice on News in tab1, 30 s apart, with bob's
    traffic in between. *)
Definition newsTrace : list Event :=
  [ EvHeartbeat "alice" newsBody 0 0;
    EvHeartbeat "bob" sportBody 10 10;
    EvHeartbeat "alice" newsBody 30000 30000;
    EvHeartbeat "alice" newsBody 60000 60000;
    EvExpire (watchKey "bob" "tab1");
    EvHeartbeat "alice" newsBody 90000 90000 ].

(** ** What the session list and the user totals have in common

    The relation every store reachable from the empty one satisfies. *)
Definition Consistent (db : Store) : Prop :=
  ∀ u,
    Forall (λ s, inWindow (se_duration s)
                 ∧ se_duration s = se_heartbeatCount s * Heartbeat.HEARTBEAT_INTERVAL)
           (sessionsOf db u)
    ∧ (length (sessionsOf db u) ≤ 100)%nat
    ∧ sumDurations (sessionsOf db u) ≤ totalWatchTimeOf db u
    ∧ (totalSessionsOf db u ≤ 100 →
       sumDurations (sessionsOf db u) = totalWatchTimeOf db u
       ∧ Z.of_nat (length (sessionsOf db u)) = totalSessionsOf db u).

(** ** The accumulation pattern of the report's two maps

    Both halves of the session loop have the shape "look the channel up; if
    present update the entry, else insert a first entry".  [accStep] names
    that shape so that one induction serves both; [watchStep_acc] and
    [globalStep_acc] below show the handler's steps are instances of it. *)
Definition accStep {E V : Type} (key : E → string) (init : E → V) (upd : V → E → V)
    (m : list (string * V)) (e : E) : list (string * V) :=
  match LiveStats.mapGet (key e) m with
  | Some v => LiveStats.mapSet (key e) (upd v e) m
  | None => LiveStats.mapSet (key e) (init e) m
  end.

Definition watchInit (session : LiveWatchSession) : FavoriteChannel :=
  {| fc_channelId := se_channelId session;
     fc_channelName := se_channelName session;
     fc_channelGroup := se_channelGroup session;
     fc_watchTime := se_duration session;
     fc_watchCount := 1 |}.

Definition watchUpd (existing : FavoriteChannel) (session : LiveWatchSession) : FavoriteChannel :=
  {| fc_channelId := fc_channelId existing;
     fc_channelName := fc_channelName existing;
     fc_channelGroup := fc_channelGroup existing;
     fc_watchTime := fc_watchTime existing + se_duration session;
     fc_watchCount := fc_watchCount existing + 1 |}.

Definition globalInit (us : string * LiveWatchSession) : GlobalChannel :=
  {| gc_channelId := se_channelId us.2;
     gc_channelName := se_channelName us.2;
     gc_channelGroup := se_channelGroup us.2;
     gc_totalWatchTime := se_duration us.2;
     gc_totalSessions := 1;
     gc_users := [us.1] |}.

Definition globalUpd (globalChannel : GlobalChannel) (us : string * LiveWatchSession)
    : GlobalChannel :=
  {| gc_channelId := gc_channelId globalChannel;
     gc_channelName := gc_channelName globalChannel;
     gc_channelGroup := gc_channelGroup globalChannel;
     gc_totalWatchTime := gc_totalWatchTime globalChannel + se_duration us.2;
     gc_totalSessions := gc_totalSessions globalChannel + 1;
     gc_users := LiveStats.setAdd us.1 (gc_users globalChannel) |}.

(** The users the report does not skip, and the entry it builds for one. *)
Definition reported (db : Store) (username : string) : Prop :=
  ¬ (stats db !! username = None ∧ length (sessionsOf db username) = 0%nat).

Definition userEntry (db : Store) (username : string) : UserLiveStats :=
  {| ul_username := username;
     ul_totalWatchTime := totalWatchTimeOf db username;
     ul_totalSessions := totalSessionsOf db username;
     ul_lastWatchTime := from_option us_lastWatchTime 0 (stats db !! username);
     ul_favoriteChannels :=
       LiveStats.favoriteChannels (fold_left LiveStats.watchStep (sessionsOf db username) []);
     ul_recentSessions := take 10 (sessionsOf db username) |}.

#[global] Instance reported_dec (db : Store) (username : string) :
  Decision (reported db username).
Proof. unfold reported. apply _. Defined.

Definition sumOver (f : string → Z) (l : list string) : Z :=
  foldr (λ u acc, f u + acc) 0 l.

(** A store in which alice has a session list but no UserStats record. *)
Definition sessionsOnly : Store :=
  setSessions "alice" [Heartbeat.mkSession (newsState 4) 100 120] emptyStore.

Definition sportState (heartbeats : Z) : LiveWatchState :=
  mkLiveWatchState "c2" "Sport" "" "" "s1" "" 0 0 heartbeats.

(** alice: News 120 s, Sport 60 s, News 30 s; bob: Sport 150 s. *)
Definition rankStore : Store :=
  settleAll [ mkSettlement "alice" (newsState 4) 100 100;
              mkSettlement "alice" (sportState 2) 200 200;
              mkSettlement "alice" (newsState 1) 300 300;
              mkSettlement "bob" (sportState 5) 400 400 ] emptyStore.

(** ** The route handlers from their first line

    [Heartbeat.POST], [HeartbeatEnd.POST] and [LiveStats.GET] above start
    where the caller is authenticated; the definitions here put the checks
    of the exported handlers in front of them. *)

Inductive HttpStatus :=
  | Http200
  | Http400
  | Http401
  | Http403.

(** Modelled from the spec: the value of [getAuthInfoFromCookie] of
    [@/lib/auth], which is not among the sources; the handlers read its
    [username] only (empty when missing).  [None] is a [null] result. *)
Record AuthInfo := mkAuthInfo {
  ai_username : string;
}.

(** Modelled from the spec: an entry of [config.UserConfig.Users] of
    [@/lib/config], which is not among the sources; the fields are the ones
    the report handler reads ([banned] missing reads as [false]). *)
Record UserEntry := mkUserEntry {
  ue_username : string;
  ue_role : string;
  ue_banned : bool;
}.

Module Route.

(** [process.env.NEXT_PUBLIC_STORAGE_TYPE || 'localstorage']; an unset
    variable is [None]. *)
Definition storageType (env : option string) : string :=
  match env with
  | Some s => if Heartbeat.falsy s then "localstorage" else s
  | None => "localstorage"
  end.

Definition statusOf (r : Response) : HttpStatus :=
  match r with
  | Success => Http200
  | BadRequest => Http400
  end.

(** [POST] of [src/app/api/live/heartbeat/route.ts]. *)
Definition heartbeatPOST (storageEnv : option string) (authInfo : option AuthInfo)
    (body : LiveHeartbeatRequest) (now clock : Z) (db : Store) : HttpStatus * Store :=
  if bool_decide (storageType storageEnv = "localstorage") then (Http400, db)
  else
    match authInfo with
    | None => (Http401, db)
    | Some info =>
        if Heartbeat.falsy (ai_username info) then (Http401, db)
        else
          let out := Heartbeat.POST (ai_username info) body now clock db in
          (statusOf out.1, out.2)
    end.

(** [POST] of the heartbeat-end handler. *)
Definition heartbeatEndPOST (storageEnv : option string) (authInfo : option AuthInfo)
    (sessionId : string) (now clock : Z) (db : Store) : HttpStatus * Store :=
  if bool_decide (storageType storageEnv = "localstorage") then (Http400, db)
  else
    match authInfo with
    | None => (Http401, db)
    | Some info =>
        if Heartbeat.falsy (ai_username info) then (Http401, db)
        else
          let out := HeartbeatEnd.POST (ai_username info) sessionId now clock db in
          (statusOf out.1, out.2)
    end.

(** The administrator test of the report handler: the account named by
    [process.env.USERNAME], or the first directory entry of that name when
    it has role [admin] and is not banned. *)
Definition isAdmin (ownerEnv : option string) (users : list UserEntry)
    (username : string) : bool :=
  if bool_decide (ownerEnv = Some username) then true
  else
    match list_find (λ u, ue_username u = username) users with
    | Some (_, userEntry) =>
        bool_decide (ue_role userEntry = "admin") && negb (ue_banned userEntry)
    | None => false
    end.

(** [GET] of the admin live-stats handler.  [refresh] is the value of the
    [refresh] query parameter. *)
Definition liveStatsGET (storageEnv ownerEnv : option string)
    (authInfo : option AuthInfo) (users : list UserEntry) (refresh : option string)
    (now : Z) (db : Store) : HttpStatus * option GlobalLiveStats * Store :=
  if bool_decide (storageType storageEnv = "localstorage") then (Http400, None, db)
  else
    match authInfo with
    | None => (Http401, None, db)
    | Some info =>
        if Heartbeat.falsy (ai_username info) then (Http401, None, db)
        else if negb (isAdmin ownerEnv users (ai_username info)) then (Http403, None, db)
        else
          let forceRefresh := bool_decide (refresh = Some "true") in
          let out := LiveStats.GET (ue_username <$> users) forceRefresh now db in
          (Http200, Some out.1, out.2)
    end.

End Route.

(** ** [src/app/admin/live-stats/page.tsx]

    The pure helpers of the dashboard page.  Texts are the UTF-8 bytes of
    the JavaScript strings; numbers are integers and print in decimal. *)
Module Page.

(** [formatDuration(seconds)]. *)
Definition formatDuration (seconds : Z) : string :=
  if seconds <? 60 then String.append (pretty seconds) "秒"
  else if seconds <? 3600 then
    let minutes := seconds / 60 in
    let secs := seconds mod 60 in
    if 0 <? secs
    then String.append (pretty minutes)
           (String.append "分" (String.append (pretty secs) "秒"))
    else String.append (pretty minutes) "分钟"
  else
    let hours := seconds / 3600 in
    let minutes := (seconds mod 3600) / 60 in
    if 0 <? minutes
    then String.append (pretty hours)
           (String.append "小时" (String.append (pretty minutes) "分"))
    else String.append (pretty hours) "小时".

(** [Math.max(...data.map((d) => d.watchTime), 1)] of [TrendChart]. *)
Definition maxWatchTime (data : list DailyTrend) : Z :=
  foldr Z.max 1 (dt_watchTime <$> data).

(** [String.prototype.slice(n)] for [0 <= n]. *)
Fixpoint slice (n : nat) (s : string) : string :=
  match n, s with
  | O, _ => s
  | S n', EmptyString => EmptyString
  | S n', String _ s' => slice n' s'
  end.

(** [item.date.slice(5)] of [TrendChart]. *)
Definition dayLabel (item : DailyTrend) : string := slice 5 (dt_date item).

End Page.

(** ** Sums over the aggregates *)
Definition mapSum {V : Type} (f : V → Z) (m : gmap string V) : Z :=
  map_fold (λ _ v acc, f v + acc) 0 m.

(** ** Further relations kept by every store reachable from the empty one *)

(** Watch states come from validated heartbeats. *)
Definition WatchOK (db : Store) : Prop :=
  ∀ k st, watching db !! k = Some st →
    1 ≤ ws_heartbeatCount st
    ∧ ws_channelId st ≠ EmptyString
    ∧ ws_channelName st ≠ EmptyString
    ∧ ws_sourceKey st ≠ EmptyString.

(** Sessions come from such watch states. *)
Definition SessionsOK (db : Store) : Prop :=
  ∀ u s, s ∈ sessionsOf db u →
    1 ≤ se_heartbeatCount s ≤ 960
    ∧ se_channelId s ≠ EmptyString
    ∧ se_channelName s ≠ EmptyString
    ∧ se_sourceKey s ≠ EmptyString.

(** A user has a UserStats record exactly when the session list is not
    empty, and the record agrees with the newest session. *)
Definition StatsOK (db : Store) : Prop :=
  ∀ u,
    match stats db !! u with
    | None => sessions db !! u = None
    | Some st =>
        (∃ s rest, sessions db !! u = Some (s :: rest)
                   ∧ us_lastWatchTime st = se_endTime s)
        ∧ 1 ≤ us_totalSessions st
        ∧ Heartbeat.MIN_SESSION_DURATION * us_totalSessions st ≤ us_totalWatchTime st
        ∧ us_totalWatchTime st ≤ Heartbeat.MAX_SESSION_DURATION * us_totalSessions st
    end.

(** Daily and channel records: distinct users, at least one and at most as
    many as sessions, every one of them a user with a UserStats record. *)
Definition DailyOK (db : Store) : Prop :=
  ∀ day d, daily db !! day = Some d →
    NoDup (ds_users d)
    ∧ (1 ≤ length (ds_users d))%nat
    ∧ Z.of_nat (length (ds_users d)) ≤ ds_sessions d
    ∧ Heartbeat.MIN_SESSION_DURATION * ds_sessions d ≤ ds_watchTime d
    ∧ ds_watchTime d ≤ Heartbeat.MAX_SESSION_DURATION * ds_sessions d
    ∧ ∀ u, u ∈ ds_users d → is_Some (stats db !! u).

Definition ChannelOK (db : Store) : Prop :=
  ∀ cid c, channel db !! cid = Some c →
    cs_channelId c = cid
    ∧ NoDup (cs_users c)
    ∧ (1 ≤ length (cs_users c))%nat
    ∧ Z.of_nat (length (cs_users c)) ≤ cs_totalSessions c
    ∧ Heartbeat.MIN_SESSION_DURATION * cs_totalSessions c ≤ cs_totalWatchTime c
    ∧ cs_totalWatchTime c ≤ Heartbeat.MAX_SESSION_DURATION * cs_totalSessions c
    ∧ ∀ u, u ∈ cs_users c → is_Some (stats db !! u).

(** The three aggregates have booked the same totals. *)
Definition Balanced (db : Store) : Prop :=
  mapSum us_totalWatchTime (stats db) = mapSum ds_watchTime (daily db)
  ∧ mapSum us_totalWatchTime (stats db) = mapSum cs_totalWatchTime (channel db)
  ∧ mapSum us_totalSessions (stats db) = mapSum ds_sessions (daily db)
  ∧ mapSum us_totalSessions (stats db) = mapSum cs_totalSessions (channel db).

(** A well-formed heartbeat of [username] in tab [sessionId], whatever its
    channel. *)
Definition tabBeat (username sessionId : string) (ev : Event) : Prop :=
  match ev with
  | EvHeartbeat u body _ _ =>
      u = username ∧ hb_sessionId body = sessionId
      ∧ sessionId ≠ EmptyString ∧ hb_channelId body ≠ EmptyString
      ∧ hb_channelName body ≠ EmptyString ∧ hb_sourceKey body ≠ EmptyString
  | _ => False
  end.

(** The character [:] does not occur in a string. *)
Fixpoint noColon (s : string) : Prop :=
  match s with
  | EmptyString => True
  | String c s' => c ≠ ":"%char ∧ noColon s'
  end.

(** Further sample data. *)
Definition adminDirectory : list UserEntry :=
  [ mkUserEntry "alice" "admin" false;
    mkUserEntry "bob" "user" false;
    mkUserEntry "carol" "admin" true ].

(** alice watches News for two heartbeats, Sport for three, News for one,
    all in tab1. *)
Definition zapTrace : list Event :=
  [ EvHeartbeat "alice" newsBody 0 0;
    EvHeartbeat "alice" newsBody 30000 30000;
    EvHeartbeat "alice" sportBody 60000 60001;
    EvHeartbeat "alice" sportBody 90000 90000;
    EvHeartbeat "alice" sportBody 120000 120000;
    EvHeartbeat "alice" newsBody 150000 150001 ].

(** A boolean test for pairwise distinct strings, used to settle a finite
    case analysis by computation. *)
Fixpoint distinctb (l : list string) : bool :=
  match l with
  | [] => true
  | x :: l' => negb (existsb (String.eqb x) l') && distinctb l'
  end.

(** [Date.now()] of a request; an expiry reads no clock. *)
Definition eventNow (ev : Event) : option Z :=
  match ev with
  | EvHeartbeat _ _ now _ => Some now
  | EvEndWatch _ _ now _ => Some now
  | EvExpire _ => None
  end.

(** The requests of a trace read clock values that never go back, starting
    at or after [t]. *)
Fixpoint clockOrdered (t : Z) (trace : list Event) : Prop :=
  match trace with
  | [] => True
  | ev :: rest =>
      match eventNow ev with
      | Some now => t ≤ now ∧ clockOrdered now rest
      | None => clockOrdered t rest
      end
  end.

(** ** Channel identity, in the words of the specification

    Section 3 calls the six channel fields of a watch state its channel
    identity.  The handler itself compares [channelId] only; these two
    definitions do not come from it. *)
Definition stateIdentity (st : LiveWatchState)
    : string * string * string * string * string * string :=
  (ws_channelId st, ws_channelName st, ws_channelGroup st, ws_channelLogo st,
   ws_sourceKey st, ws_sourceName st).

Definition bodyIdentity (body : LiveHeartbeatRequest)
    : string * string * string * string * string * string :=
  (hb_channelId body, hb_channelName body, hb_channelGroup body, hb_channelLogo body,
   hb_sourceKey body, hb_sourceName body).

(** The News channel again, under another name and from another source. *)
Definition mirrorBody : LiveHeartbeatRequest :=
  mkLiveHeartbeatRequest "tab1" "c1" "News (mirror)" "" "" "s2" "".

(** Modelled from the spec: the store dropping the [live:global-stats] key
    once the [STATS_CACHE_TTL] seconds given to [db.setCache] have run out
    ([@/lib/db] is not among the sources).  [setGlobalStats] keeps no expiry
    time with the report; the key running out of time is this step. *)
Definition expireGlobalStats (db : Store) : Store :=
  mkStore (watching db) (sessions db) (stats db) (daily db) (channel db) None.

(** * Properties *)

(** ** Key prefixes *)

(** Keys built under two different prefixes are never the same string. *)
Lemma key_prefixes_disjoint (a b : string) :
  sessionsKeyFull a ≠ statsKeyFull b
  ∧ sessionsKeyFull a ≠ dailyKeyFull b
  ∧ sessionsKeyFull a ≠ channelStatsKeyFull b
  ∧ sessionsKeyFull a ≠ cacheKeyFull
  ∧ statsKeyFull a ≠ dailyKeyFull b
  ∧ statsKeyFull a ≠ channelStatsKeyFull b
  ∧ statsKeyFull a ≠ cacheKeyFull
  ∧ dailyKeyFull a ≠ channelStatsKeyFull b
  ∧ dailyKeyFull a ≠ cacheKeyFull
  ∧ channelStatsKeyFull a ≠ cacheKeyFull.
Proof.
  unfold sessionsKeyFull, statsKeyFull, dailyKeyFull, channelStatsKeyFull,
    cacheKeyFull.
  repeat split; simpl; intros H; discriminate H.
Qed.

Lemma watch_key_prefix_disjoint (u s a : string) :
  watchKeyFull u s ≠ sessionsKeyFull a
  ∧ watchKeyFull u s ≠ statsKeyFull a
  ∧ watchKeyFull u s ≠ dailyKeyFull a
  ∧ watchKeyFull u s ≠ channelStatsKeyFull a
  ∧ watchKeyFull u s ≠ cacheKeyFull.
Proof.
  unfold watchKeyFull, sessionsKeyFull, statsKeyFull, dailyKeyFull,
    channelStatsKeyFull, cacheKeyFull.
  repeat split; simpl; intros H; discriminate H.
Qed.

(** Under one prefix, two keys are equal only if their variable parts are. *)
Lemma key_variable_part (a b : string) :
  (sessionsKeyFull a = sessionsKeyFull b → a = b)
  ∧ (statsKeyFull a = statsKeyFull b → a = b)
  ∧ (dailyKeyFull a = dailyKeyFull b → a = b)
  ∧ (channelStatsKeyFull a = channelStatsKeyFull b → a = b).
Proof.
  unfold sessionsKeyFull, statsKeyFull, dailyKeyFull, channelStatsKeyFull.
  simpl. split_and!; intros Heq; by simplify_eq.
Qed.

Lemma watch_key_full (u s u' s' : string) :
  watchKeyFull u s = watchKeyFull u' s' ↔ watchKey u s = watchKey u' s'.
Proof.
  unfold watchKeyFull, watchKey. simpl. split; intros H.
  - by simplify_eq.
  - by rewrite H.
Qed.

(** ** Settlement *)

Lemma HeartbeatEnd_settle_same :
  HeartbeatEnd.settleWatchSession = Heartbeat.settleWatchSession.
Proof. reflexivity. Qed.

Lemma window_tests (d : Z) :
  inWindow d →
  (d <? Heartbeat.MIN_SESSION_DURATION) = false
  ∧ (Heartbeat.MAX_SESSION_DURATION <? d) = false.
Proof. unfold inWindow. intros [H1 H2]. split; lia. Qed.

Lemma settle_out_of_window username state endTime clock db :
  ¬ inWindow (ws_heartbeatCount state * Heartbeat.HEARTBEAT_INTERVAL) →
  Heartbeat.settleWatchSession username state endTime clock db = db.
Proof.
  unfold inWindow, Heartbeat.settleWatchSession. intros H.
  destruct (Z.ltb_spec (ws_heartbeatCount state * Heartbeat.HEARTBEAT_INTERVAL)
              Heartbeat.MIN_SESSION_DURATION); [done|].
  destruct (Z.ltb_spec Heartbeat.MAX_SESSION_DURATION
              (ws_heartbeatCount state * Heartbeat.HEARTBEAT_INTERVAL)); [done|].
  lia.
Qed.

(** The store after a settlement inside the window, field by field. *)
Lemma settle_in_window username state endTime clock db :
  let duration := ws_heartbeatCount state * Heartbeat.HEARTBEAT_INTERVAL in
  inWindow duration →
  Heartbeat.settleWatchSession username state endTime clock db =
  {| watching := watching db;
     sessions :=
       <[username := Heartbeat.pushSession (Heartbeat.mkSession state endTime duration)
                       (sessionsOf db username)]> (sessions db);
     stats :=
       <[username := {| us_totalWatchTime := totalWatchTimeOf db username + duration;
                        us_totalSessions := totalSessionsOf db username + 1;
                        us_lastWatchTime := endTime |}]> (stats db);
     daily :=
       <[toISODate clock :=
           {| ds_watchTime := dailyWatchTimeOf db (toISODate clock) + duration;
              ds_sessions := from_option ds_sessions 0 (daily db !! toISODate clock) + 1;
              ds_users := Heartbeat.addUser username
                            (from_option ds_users [] (daily db !! toISODate clock)) |}]>
         (daily db);
     channel :=
       <[ws_channelId state :=
           {| cs_channelId :=
                from_option cs_channelId (ws_channelId state)
                  (channel db !! ws_channelId state);
              cs_channelName :=
                from_option cs_channelName (ws_channelName state)
                  (channel db !! ws_channelId state);
              cs_channelGroup :=
                from_option cs_channelGroup (ws_channelGroup state)
                  (channel db !! ws_channelId state);
              cs_totalWatchTime := channelWatchTimeOf db (ws_channelId state) + duration;
              cs_totalSessions :=
                from_option cs_totalSessions 0 (channel db !! ws_channelId state) + 1;
              cs_users := Heartbeat.addUser username
                            (from_option cs_users [] (channel db !! ws_channelId state)) |}]>
         (channel db);
     globalStats := globalStats db |}.
Proof.
  intros duration Hw. destruct (window_tests _ Hw) as [H1 H2].
  unfold Heartbeat.settleWatchSession. fold duration. rewrite H1, H2.
  unfold setChannel, setDaily, setStats, setSessions, sessionsOf,
    totalWatchTimeOf, totalSessionsOf, dailyWatchTimeOf, channelWatchTimeOf.
  simpl.
  destruct (stats db !! username), (daily db !! toISODate clock),
    (channel db !! ws_channelId state); reflexivity.
Qed.

Lemma settle_watching username state endTime clock db :
  watching (Heartbeat.settleWatchSession username state endTime clock db) = watching db.
Proof.
  destruct (decide (inWindow (ws_heartbeatCount state * Heartbeat.HEARTBEAT_INTERVAL)))
    as [Hw|Hw].
  - by rewrite settle_in_window.
  - by rewrite settle_out_of_window.
Qed.

Lemma pushSession_eq session (l : list LiveWatchSession) :
  Heartbeat.pushSession session l = session :: take 99 l.
Proof.
  unfold Heartbeat.pushSession. simpl length.
  destruct (Nat.ltb_spec 100 (S (length l))).
  - reflexivity.
  - by rewrite take_ge by lia.
Qed.

Lemma pushSession_length session (l : list LiveWatchSession) :
  (length (Heartbeat.pushSession session l) ≤ 100)%nat.
Proof. rewrite pushSession_eq. simpl. rewrite length_take. lia. Qed.

Lemma take_removelast {A} (l : list A) (n : nat) :
  length l = S n → take n l = removelast l.
Proof.
  revert n. induction l as [|x l IH]; intros n Hl; [done|].
  destruct l as [|y l].
  - simpl in Hl. by simplify_eq.
  - destruct n as [|n]; [simpl in Hl; lia|].
    change (x :: take n (y :: l) = x :: removelast (y :: l)).
    f_equal. apply IH. simpl in *. lia.
Qed.

(** What the aggregates read after a settlement inside the window. *)
Section SettleReads.
Context (username : string) (state : LiveWatchState) (endTime clock : Z) (db : Store).
Let duration := ws_heartbeatCount state * Heartbeat.HEARTBEAT_INTERVAL.
Let db' := Heartbeat.settleWatchSession username state endTime clock db.
Hypothesis Hw : inWindow duration.

Lemma settle_sessionsOf_same :
  sessionsOf db' username
  = Heartbeat.mkSession state endTime duration :: take 99 (sessionsOf db username).
Proof.
  unfold db'. rewrite settle_in_window by exact Hw.
  unfold sessionsOf at 1. simpl. rewrite lookup_insert_eq. simpl.
  apply pushSession_eq.
Qed.

Lemma settle_sessionsOf_other u : u ≠ username → sessionsOf db' u = sessionsOf db u.
Proof.
  intros Hu. unfold db'. rewrite settle_in_window by exact Hw.
  unfold sessionsOf. simpl. by rewrite lookup_insert_ne.
Qed.

Lemma settle_totalWatchTimeOf_same :
  totalWatchTimeOf db' username = totalWatchTimeOf db username + duration.
Proof.
  unfold db'. rewrite settle_in_window by exact Hw.
  unfold totalWatchTimeOf at 1. simpl. by rewrite lookup_insert_eq.
Qed.

Lemma settle_totalSessionsOf_same :
  totalSessionsOf db' username = totalSessionsOf db username + 1.
Proof.
  unfold db'. rewrite settle_in_window by exact Hw.
  unfold totalSessionsOf at 1. simpl. by rewrite lookup_insert_eq.
Qed.

Lemma settle_stats_other u : u ≠ username → stats db' !! u = stats db !! u.
Proof.
  intros Hu. unfold db'. rewrite settle_in_window by exact Hw.
  simpl. by rewrite lookup_insert_ne.
Qed.

Lemma settle_dailyWatchTimeOf_same :
  dailyWatchTimeOf db' (toISODate clock)
  = dailyWatchTimeOf db (toISODate clock) + duration.
Proof.
  unfold db'. rewrite settle_in_window by exact Hw.
  unfold dailyWatchTimeOf at 1. simpl. by rewrite lookup_insert_eq.
Qed.

Lemma settle_channelWatchTimeOf_same :
  channelWatchTimeOf db' (ws_channelId state)
  = channelWatchTimeOf db (ws_channelId state) + duration.
Proof.
  unfold db'. rewrite settle_in_window by exact Hw.
  unfold channelWatchTimeOf at 1. simpl. by rewrite lookup_insert_eq.
Qed.
End SettleReads.

(** ** What every reachable store satisfies *)

Lemma sumDurations_nonneg (l : list LiveWatchSession) :
  Forall (λ s, 0 ≤ se_duration s) l → 0 ≤ sumDurations l.
Proof. induction 1 as [|s l Hs _ IH]; simpl; lia. Qed.

Lemma sumDurations_take (l : list LiveWatchSession) (n : nat) :
  Forall (λ s, 0 ≤ se_duration s) l → sumDurations (take n l) ≤ sumDurations l.
Proof.
  intros Hl. revert n. induction Hl as [|s l Hs Hl IH]; intros [|n]; simpl; try lia.
  - pose proof (sumDurations_nonneg l Hl). lia.
  - specialize (IH n). lia.
Qed.

Lemma consistent_empty : Consistent emptyStore.
Proof.
  intros u. unfold sessionsOf, totalWatchTimeOf, totalSessionsOf. simpl.
  rewrite !lookup_empty. simpl.
  split; [constructor|]. split; [lia|]. split; [lia|]. intros _. split; lia.
Qed.

Lemma settle_consistent username state endTime clock db :
  Consistent db →
  Consistent (Heartbeat.settleWatchSession username state endTime clock db).
Proof.
  intros Hdb.
  destruct (decide (inWindow (ws_heartbeatCount state * Heartbeat.HEARTBEAT_INTERVAL)))
    as [Hw|Hw]; [|by rewrite settle_out_of_window].
  intros u. destruct (Hdb u) as (Hall & Hlen & Hle & Heq).
  destruct (decide (u = username)) as [->|Hu].
  - rewrite settle_sessionsOf_same, settle_totalWatchTimeOf_same,
      settle_totalSessionsOf_same by exact Hw.
    assert (Hnonneg : Forall (λ s, 0 ≤ se_duration s) (sessionsOf db username)).
    { eapply Forall_impl; [exact Hall|]. intros s [[H1 _] _]. simpl in H1.
      unfold Heartbeat.MIN_SESSION_DURATION in H1. lia. }
    pose proof (sumDurations_take (sessionsOf db username) 99 Hnonneg) as Htake.
    split; [|split; [|split]].
    + constructor; [by split|]. by apply Forall_take.
    + simpl. rewrite length_take. lia.
    + simpl. lia.
    + intros Hts. destruct Heq as [Hsum Hcount]; [lia|].
      rewrite take_ge by lia. simpl. lia.
  - rewrite settle_sessionsOf_other by done.
    unfold totalWatchTimeOf, totalSessionsOf.
    rewrite settle_stats_other by done. done.
Qed.

Lemma step_consistent db ev : Consistent db → Consistent (step db ev).
Proof.
  intros Hdb. destruct ev as [u body now clock|u sid now clock|key]; simpl.
  - unfold Heartbeat.POST. destruct (_ || _); [done|].
    destruct (watching db !! _) as [lastState|]; [|done].
    case_bool_decide; [|done]. simpl.
    by apply (settle_consistent u lastState now clock db).
  - unfold HeartbeatEnd.POST. destruct (Heartbeat.falsy sid); [done|].
    destruct (watching db !! _) as [state|]; [|done]. simpl.
    rewrite HeartbeatEnd_settle_same.
    by apply (settle_consistent u state now clock db).
  - done.
Qed.

Lemma run_consistent trace db : Consistent db → Consistent (run trace db).
Proof.
  revert db. induction trace as [|ev trace IH]; intros db Hdb; [done|].
  apply IH. by apply step_consistent.
Qed.

Lemma settleAll_consistent l db : Consistent db → Consistent (settleAll l db).
Proof.
  revert db. induction l as [|s l IH]; intros db Hdb; [done|].
  apply IH. by apply settle_consistent.
Qed.

(** ** Claims about one settlement *)

(** C2.  A settlement persists a session only when [heartbeatCount * 30]
    lies in [[MIN_SESSION_DURATION, MAX_SESSION_DURATION]], both bounds
    included; the session it persists carries exactly that duration, a
    non-negative multiple of the heartbeat interval; outside the window the
    store is returned unchanged (no list, no aggregate is written); one
    heartbeat gives duration 30 and is recorded. *)
Theorem settlement_duration_window username state endTime clock db :
  let duration := ws_heartbeatCount state * Heartbeat.HEARTBEAT_INTERVAL in
  let db' := Heartbeat.settleWatchSession username state endTime clock db in
  (∀ u s, s ∈ sessionsOf db' u → s ∉ sessionsOf db u →
     s = Heartbeat.mkSession state endTime duration
     ∧ se_duration s = se_heartbeatCount s * Heartbeat.HEARTBEAT_INTERVAL
     ∧ 0 ≤ se_duration s
     ∧ se_duration s mod Heartbeat.HEARTBEAT_INTERVAL = 0
     ∧ Heartbeat.MIN_SESSION_DURATION ≤ se_duration s ≤ Heartbeat.MAX_SESSION_DURATION)
  ∧ (inWindow duration →
     head (sessionsOf db' username) = Some (Heartbeat.mkSession state endTime duration))
  ∧ (¬ inWindow duration → db' = db)
  ∧ (ws_heartbeatCount state = 1 →
     duration = Heartbeat.MIN_SESSION_DURATION
     ∧ head (sessionsOf db' username) = Some (Heartbeat.mkSession state endTime 30))
  ∧ (∀ trace u s, s ∈ sessionsOf (run trace emptyStore) u →
       se_duration s = se_heartbeatCount s * Heartbeat.HEARTBEAT_INTERVAL
       ∧ Heartbeat.MIN_SESSION_DURATION ≤ se_duration s ≤ Heartbeat.MAX_SESSION_DURATION).
Proof.
  intros duration db'.
  assert (Hin : inWindow duration →
            sessionsOf db' username
            = Heartbeat.mkSession state endTime duration :: take 99 (sessionsOf db username)).
  { intros Hw. unfold db'. rewrite settle_in_window by exact Hw.
    unfold sessionsOf at 1. simpl. rewrite lookup_insert_eq. simpl.
    apply pushSession_eq. }
  split; [|split; [|split; [|split]]].
  - intros u s Hs Hnot.
    destruct (decide (inWindow duration)) as [Hw|Hw].
    + destruct (decide (u = username)) as [->|Hne].
      * rewrite Hin in Hs by exact Hw.
        apply elem_of_cons in Hs as [->|Hs].
        -- simpl. fold duration. unfold inWindow in Hw.
           unfold Heartbeat.HEARTBEAT_INTERVAL, Heartbeat.MIN_SESSION_DURATION in *.
           repeat split; try lia.
           unfold duration, Heartbeat.HEARTBEAT_INTERVAL. apply Z_mod_mult.
        -- exfalso. apply Hnot. eapply subseteq_take. exact Hs.
      * exfalso. apply Hnot. revert Hs. unfold db'.
        rewrite settle_in_window by exact Hw. unfold sessionsOf. simpl.
        by rewrite lookup_insert_ne.
    + exfalso. apply Hnot. revert Hs. unfold db'.
      by rewrite settle_out_of_window.
  - intros Hw. by rewrite Hin.
  - intros Hw. by apply settle_out_of_window.
  - intros H1.
    assert (Hd : duration = 30) by (unfold duration; rewrite H1; reflexivity).
    split; [by rewrite Hd|].
    rewrite Hin; [by rewrite Hd|]. rewrite Hd. unfold inWindow. done.
  - intros trace u s Hs.
    destruct (run_consistent trace emptyStore consistent_empty u) as (Hall & _).
    rewrite Forall_forall in Hall. destruct (Hall s Hs) as [Hwin Hdur]. done.
Qed.

Lemma settlement_duration_window_witness :
  head (sessionsOf (Heartbeat.settleWatchSession "alice" (newsState 1) 100 100 emptyStore)
          "alice")
  = Some (Heartbeat.mkSession (newsState 1) 100 30)
  ∧ Heartbeat.settleWatchSession "alice" (newsState 0) 100 100 emptyStore = emptyStore
  ∧ Heartbeat.settleWatchSession "alice" (newsState 961) 100 100 emptyStore = emptyStore.
Proof.
  pose proof (settlement_duration_window "alice" (newsState 1) 100 100 emptyStore)
    as (_ & _ & _ & H1 & _).
  pose proof (settlement_duration_window "alice" (newsState 0) 100 100 emptyStore)
    as (_ & _ & H0 & _).
  pose proof (settlement_duration_window "alice" (newsState 961) 100 100 emptyStore)
    as (_ & _ & H961 & _).
  split; [apply H1; reflexivity|].
  split; [apply H0|apply H961]; unfold inWindow; simpl; vm_compute;
    intros [Ha Hb]; try (by apply Ha); by apply Hb.
Defined.

(** C6.  A settlement inside the window puts the new session at the front
    of the user's list and keeps at most the first 100 entries: the list
    never grows past 100, and on a list of exactly 100 the last (oldest)
    entry is dropped while the length stays 100. *)
Theorem settlement_prepends_bounded username state endTime clock db :
  let duration := ws_heartbeatCount state * Heartbeat.HEARTBEAT_INTERVAL in
  let session := Heartbeat.mkSession state endTime duration in
  let old := sessionsOf db username in
  let new := sessionsOf (Heartbeat.settleWatchSession username state endTime clock db)
               username in
  inWindow duration →
  new = session :: take 99 old
  ∧ (length new ≤ 100)%nat
  ∧ ((length old < 100)%nat → new = session :: old)
  ∧ (length old = 100%nat → length new = 100%nat ∧ new = session :: removelast old)
  ∧ (∀ trace u, (length (sessionsOf (run trace emptyStore) u) ≤ 100)%nat).
Proof.
  intros duration session old new Hw.
  assert (Hnew : new = session :: take 99 old).
  { unfold new. rewrite settle_in_window by exact Hw.
    unfold sessionsOf at 1. simpl. rewrite lookup_insert_eq. simpl.
    apply pushSession_eq. }
  split; [exact Hnew|]. rewrite Hnew. simpl. rewrite length_take.
  split; [lia|]. split; [|split].
  - intros Hlt. by rewrite take_ge by lia.
  - intros H100. split; [lia|]. f_equal. by apply take_removelast.
  - intros trace u.
    by destruct (run_consistent trace emptyStore consistent_empty u) as (_ & Hlen & _).
Qed.

Lemma settlement_prepends_bounded_witness :
  let db := settleAll (shortSettlements 100) emptyStore in
  let session := Heartbeat.mkSession (newsState 4) 500 120 in
  let new := sessionsOf (Heartbeat.settleWatchSession "alice" (newsState 4) 500 500 db)
               "alice" in
  length (sessionsOf db "alice") = 100%nat
  ∧ length new = 100%nat
  ∧ new = session :: removelast (sessionsOf db "alice").
Proof.
  intros db session new.
  assert (Hw : inWindow (ws_heartbeatCount (newsState 4) * Heartbeat.HEARTBEAT_INTERVAL)).
  { unfold inWindow. vm_compute. split; discriminate. }
  destruct (settlement_prepends_bounded "alice" (newsState 4) 500 500 db Hw)
    as (_ & _ & _ & H100 & _).
  assert (Hlen : length (sessionsOf db "alice") = 100%nat) by (vm_compute; reflexivity).
  split; [exact Hlen|]. exact (H100 Hlen).
Defined.

(** C4 as written does not hold: the daily key is not computed from
    [endTime].  A settlement with [endTime] one millisecond before midnight
    whose clock reading falls after midnight books the session under the
    next day, and nothing under the day of [endTime]. *)
Lemma daily_key_not_from_endTime :
  let db' := Heartbeat.settleWatchSession "alice" (newsState 1) 86399999 86400000 emptyStore in
  toISODate 86399999 = "1970-01-01"
  ∧ daily db' !! toISODate 86399999 = None
  ∧ daily db' !! "1970-01-02" = Some (mkDailyStats 30 1 ["alice"])
  ∧ ¬ (dailyWatchTimeOf db' (toISODate 86399999)
       = dailyWatchTimeOf emptyStore (toISODate 86399999) + 30).
Proof. vm_compute. repeat split; discriminate. Qed.

Lemma utcDay_toISODate (a b : Z) : utcDay a = utcDay b → toISODate a = toISODate b.
Proof. unfold toISODate. by intros ->. Qed.

(** C4, amended.  The four updates of one settlement add the same
    [duration]; the daily record that is updated is the one of the UTC day
    of the clock reading taken inside the settlement, and no other daily
    record changes; that day is the day of [endTime] whenever the reading
    and [endTime] fall on the same UTC day. *)
Theorem settlement_same_duration_clock_day username state endTime clock db :
  let duration := ws_heartbeatCount state * Heartbeat.HEARTBEAT_INTERVAL in
  let db' := Heartbeat.settleWatchSession username state endTime clock db in
  inWindow duration →
  (se_duration <$> head (sessionsOf db' username)) = Some duration
  ∧ totalWatchTimeOf db' username = totalWatchTimeOf db username + duration
  ∧ dailyWatchTimeOf db' (toISODate clock) = dailyWatchTimeOf db (toISODate clock) + duration
  ∧ channelWatchTimeOf db' (ws_channelId state)
    = channelWatchTimeOf db (ws_channelId state) + duration
  ∧ (∀ day, day ≠ toISODate clock → daily db' !! day = daily db !! day)
  ∧ (utcDay clock = utcDay endTime → toISODate clock = toISODate endTime).
Proof.
  intros duration db' Hw. unfold db'. split_and!.
  - by rewrite settle_sessionsOf_same.
  - by apply settle_totalWatchTimeOf_same.
  - by apply settle_dailyWatchTimeOf_same.
  - by apply settle_channelWatchTimeOf_same.
  - intros day Hday. rewrite settle_in_window by exact Hw. simpl.
    by rewrite lookup_insert_ne.
  - apply utcDay_toISODate.
Qed.

Lemma settlement_same_duration_clock_day_witness :
  let db' := Heartbeat.settleWatchSession "alice" (newsState 4) 100 130 emptyStore in
  totalWatchTimeOf db' "alice" = 120
  ∧ dailyWatchTimeOf db' "1970-01-01" = 120
  ∧ channelWatchTimeOf db' "c1" = 120.
Proof.
  assert (Hw : inWindow (ws_heartbeatCount (newsState 4) * Heartbeat.HEARTBEAT_INTERVAL)).
  { unfold inWindow. vm_compute. split; discriminate. }
  destruct (settlement_same_duration_clock_day "alice" (newsState 4) 100 130 emptyStore Hw)
    as (_ & H2 & H3 & H4 & _).
  intros db'. split; [exact H2|]. split; [exact H3|exact H4].
Defined.

(** ** Claims about the two request handlers *)

Lemma valid_body_tests (body : LiveHeartbeatRequest) :
  hb_sessionId body ≠ EmptyString → hb_channelId body ≠ EmptyString →
  hb_channelName body ≠ EmptyString → hb_sourceKey body ≠ EmptyString →
  Heartbeat.falsy (hb_sessionId body) || Heartbeat.falsy (hb_channelId body)
  || Heartbeat.falsy (hb_channelName body) || Heartbeat.falsy (hb_sourceKey body) = false.
Proof.
  intros H1 H2 H3 H4. unfold Heartbeat.falsy.
  by rewrite !bool_decide_eq_false_2.
Qed.

(** C1 as written does not hold: the handler takes a heartbeat for a switch
    only when the [channelId] differs.  A heartbeat whose channel identity
    differs from the stored one in name and source but not in [channelId]
    (stored: 4 heartbeats, inside the window) is counted as a fifth
    heartbeat of the stored channel: nothing is settled, no session and no
    UserStats record appear, and the state under the key is the old one,
    not a fresh one with [heartbeatCount = 1]. *)
Lemma channel_identity_switch_not_settled :
  let key := watchKey "alice" "tab1" in
  let out := Heartbeat.POST "alice" mirrorBody 120000 120001 watchingNews in
  watching watchingNews !! key = Some (newsState 4)
  ∧ bodyIdentity mirrorBody ≠ stateIdentity (newsState 4)
  ∧ inWindow (ws_heartbeatCount (newsState 4) * Heartbeat.HEARTBEAT_INTERVAL)
  ∧ out.1 = Success
  ∧ watching out.2 !! key
    = Some (mkLiveWatchState "c1" "News" "" "" "s1" "" 0 120000 5)
  ∧ sessionsOf out.2 "alice" = []
  ∧ stats out.2 !! "alice" = None
  ∧ ¬ (∃ fresh, watching out.2 !! key = Some fresh ∧ ws_heartbeatCount fresh = 1).
Proof.
  intros key out.
  assert (Hout : watching out.2 !! key
                 = Some (mkLiveWatchState "c1" "News" "" "" "s1" "" 0 120000 5))
    by reflexivity.
  split; [reflexivity|]. split; [discriminate|].
  split; [unfold inWindow; vm_compute; split; discriminate|].
  split; [reflexivity|]. split; [exact Hout|]. split; [reflexivity|].
  split; [reflexivity|].
  intros (fresh & Hfresh & Hone). rewrite Hout in Hfresh.
  injection Hfresh as <-. discriminate Hone.
Qed.

(** C1, amended.  A heartbeat whose [channelId] B differs from the
    [channelId] A of the live state (N heartbeats) found under the same key
    settles that state once with [endTime = now] and stores a fresh state
    for B with [heartbeatCount = 1] and [startTime = lastHeartbeat = now];
    when [N * 30] is inside the window the user's list gains exactly one
    session, for A, of duration [N * HEARTBEAT_INTERVAL]. *)
Theorem heartbeat_channel_switch username body now clock db lastState :
  let key := watchKey username (hb_sessionId body) in
  let N := ws_heartbeatCount lastState in
  let settled := Heartbeat.settleWatchSession username lastState now clock db in
  let out := Heartbeat.POST username body now clock db in
  hb_sessionId body ≠ EmptyString → hb_channelId body ≠ EmptyString →
  hb_channelName body ≠ EmptyString → hb_sourceKey body ≠ EmptyString →
  watching db !! key = Some lastState →
  ws_channelId lastState ≠ hb_channelId body →
  out = (Success, setWatching key (Heartbeat.newState body now) settled)
  ∧ (∃ fresh, watching out.2 !! key = Some fresh
       ∧ ws_channelId fresh = hb_channelId body
       ∧ ws_heartbeatCount fresh = 1
       ∧ ws_startTime fresh = now ∧ ws_lastHeartbeat fresh = now)
  ∧ (inWindow (N * Heartbeat.HEARTBEAT_INTERVAL) →
       ∃ session,
         sessionsOf out.2 username = session :: take 99 (sessionsOf db username)
         ∧ se_channelId session = ws_channelId lastState
         ∧ se_duration session = N * Heartbeat.HEARTBEAT_INTERVAL
         ∧ se_endTime session = now
         ∧ totalSessionsOf out.2 username = totalSessionsOf db username + 1)
  ∧ (¬ inWindow (N * Heartbeat.HEARTBEAT_INTERVAL) →
       sessionsOf out.2 username = sessionsOf db username)
  ∧ (∀ u, u ≠ username → sessionsOf out.2 u = sessionsOf db u).
Proof.
  intros key N settled out V1 V2 V3 V4 Hlast Hswitch.
  assert (Hout : out = (Success, setWatching key (Heartbeat.newState body now) settled)).
  { unfold out, Heartbeat.POST. rewrite valid_body_tests by assumption.
    fold key. rewrite Hlast. by rewrite bool_decide_eq_true_2. }
  rewrite Hout. simpl. split; [reflexivity|]. split; [|split; [|split]].
  - eexists. rewrite lookup_insert_eq. by repeat split.
  - intros Hw. exists (Heartbeat.mkSession lastState now (N * Heartbeat.HEARTBEAT_INTERVAL)).
    unfold settled, sessionsOf at 1, totalSessionsOf at 1. simpl.
    rewrite settle_in_window by exact Hw. simpl. rewrite !lookup_insert_eq. simpl.
    rewrite pushSession_eq. by repeat split.
  - intros Hw. unfold settled. unfold sessionsOf at 1. simpl.
    by rewrite settle_out_of_window.
  - intros u Hu. unfold sessionsOf at 1. simpl. unfold settled.
    destruct (decide (inWindow (N * Heartbeat.HEARTBEAT_INTERVAL))) as [Hw|Hw].
    + rewrite settle_in_window by exact Hw. simpl. by rewrite lookup_insert_ne.
    + by rewrite settle_out_of_window.
Qed.

Lemma heartbeat_channel_switch_witness :
  let out := Heartbeat.POST "alice" sportBody 100 101 watchingNews in
  out.1 = Success
  ∧ (ws_heartbeatCount <$> watching out.2 !! watchKey "alice" "tab1") = Some 1
  ∧ (se_duration <$> sessionsOf out.2 "alice") = [120].
Proof.
  destruct (heartbeat_channel_switch "alice" sportBody 100 101 watchingNews (newsState 4))
    as (H1 & (fresh & Hf & _ & Hc & _) & H3 & _);
    [discriminate|discriminate|discriminate|discriminate|reflexivity|discriminate|].
  split; [by rewrite H1|]. split.
  { etrans; [exact (f_equal (fmap ws_heartbeatCount) Hf)|]. simpl. by rewrite Hc. }
  destruct H3 as (session & Hs & _ & Hd & _).
  - unfold inWindow. vm_compute. split; discriminate.
  - rewrite Hs. simpl. by rewrite Hd.
Defined.

(** A heartbeat with the stored [channelId] counts as the same channel
    whatever its other fields say: the count goes up and the stored name,
    group, logo and source stay those of the first heartbeat. *)
Lemma heartbeat_same_channel_id username body now clock db lastState :
  hb_sessionId body ≠ EmptyString → hb_channelId body ≠ EmptyString →
  hb_channelName body ≠ EmptyString → hb_sourceKey body ≠ EmptyString →
  watching db !! watchKey username (hb_sessionId body) = Some lastState →
  ws_channelId lastState = hb_channelId body →
  Heartbeat.POST username body now clock db
  = (Success, setWatching (watchKey username (hb_sessionId body))
                (Heartbeat.updatedState lastState now) db).
Proof.
  intros V1 V2 V3 V4 Hlast Hsame. unfold Heartbeat.POST.
  rewrite valid_body_tests by assumption. rewrite Hlast.
  by rewrite bool_decide_eq_false_2 by (intros Hne; by apply Hne).
Qed.

(** A request that fails validation changes nothing. *)
Lemma heartbeat_invalid_body username body now clock db :
  hb_sessionId body = EmptyString ∨ hb_channelId body = EmptyString
  ∨ hb_channelName body = EmptyString ∨ hb_sourceKey body = EmptyString →
  Heartbeat.POST username body now clock db = (BadRequest, db).
Proof.
  intros Hbad. unfold Heartbeat.POST, Heartbeat.falsy.
  destruct Hbad as [Hb|[Hb|[Hb|Hb]]]; rewrite Hb;
    repeat (case_bool_decide; simpl; try done).
Qed.

(** C5.  An end request that finds a watch state settles it with
    [endTime = now] and deletes the key, creating no replacement; one that
    finds none leaves the whole store as it is and still answers with
    success; so a second end request on the same key changes nothing. *)
Theorem end_watch_settles_once username sessionId now clock db :
  let key := watchKey username sessionId in
  let out := HeartbeatEnd.POST username sessionId now clock db in
  sessionId ≠ EmptyString →
  (∀ state, watching db !! key = Some state →
     out = (Success,
            deleteWatching key
              (HeartbeatEnd.settleWatchSession username state now clock db))
     ∧ watching out.2 !! key = None)
  ∧ (watching db !! key = None → out = (Success, db))
  ∧ (∀ now' clock',
       HeartbeatEnd.POST username sessionId now' clock' out.2 = (Success, out.2)).
Proof.
  intros key out Hsid.
  assert (Hf : Heartbeat.falsy sessionId = false).
  { unfold Heartbeat.falsy. by rewrite bool_decide_eq_false_2. }
  assert (Hnone : ∀ d n c, watching d !! key = None →
            HeartbeatEnd.POST username sessionId n c d = (Success, d)).
  { intros d n c Hd. unfold HeartbeatEnd.POST. rewrite Hf. fold key. by rewrite Hd. }
  assert (Hgone : watching out.2 !! key = None).
  { unfold out, HeartbeatEnd.POST. rewrite Hf. fold key.
    destruct (watching db !! key) as [state|] eqn:Hk; simpl; [|exact Hk].
    apply lookup_delete_eq. }
  split; [|split].
  - intros state Hstate. split; [|exact Hgone].
    unfold out, HeartbeatEnd.POST. rewrite Hf. fold key. by rewrite Hstate.
  - apply Hnone.
  - intros now' clock'. by apply Hnone.
Qed.

Lemma end_watch_settles_once_witness :
  let out := HeartbeatEnd.POST "alice" "tab1" 100 101 watchingNews in
  watching out.2 !! watchKey "alice" "tab1" = None
  ∧ totalWatchTimeOf out.2 "alice" = 120
  ∧ HeartbeatEnd.POST "alice" "tab1" 200 201 out.2 = (Success, out.2)
  ∧ HeartbeatEnd.POST "alice" "tab1" 100 101 emptyStore = (Success, emptyStore).
Proof.
  destruct (end_watch_settles_once "alice" "tab1" 100 101 watchingNews)
    as (H1 & _ & H3); [discriminate|].
  destruct (end_watch_settles_once "alice" "tab1" 100 101 emptyStore)
    as (_ & H2 & _); [discriminate|].
  destruct (H1 (newsState 4)) as (Hout & Hgone); [reflexivity|].
  split; [exact Hgone|]. split; [by rewrite Hout|].
  split; [apply H3|]. apply H2. reflexivity.
Defined.

(** ** Heartbeat sequences *)

Lemma step_other_key (k : string) (db : Store) (ev : Event) :
  eventKey ev ≠ k → watching (step db ev) !! k = watching db !! k.
Proof.
  intros Hk. destruct ev as [u body now clock|u sid now clock|key]; simpl in *.
  - unfold Heartbeat.POST.
    destruct (_ || _); [done|].
    destruct (watching db !! watchKey u (hb_sessionId body)) as [lastState|]; simpl.
    + case_bool_decide; simpl; rewrite lookup_insert_ne by done;
        [by rewrite settle_watching|done].
    + by rewrite lookup_insert_ne.
  - unfold HeartbeatEnd.POST.
    destruct (Heartbeat.falsy sid); [done|].
    destruct (watching db !! watchKey u sid) as [state|]; simpl; [|done].
    rewrite lookup_delete_ne by done. by rewrite HeartbeatEnd_settle_same, settle_watching.
  - by apply lookup_delete_ne.
Qed.

Lemma step_beat_first (u sid cid : string) (db : Store) (ev : Event) :
  beatOn u sid cid ev →
  watching db !! watchKey u sid = None →
  ∃ st, watching (step db ev) !! watchKey u sid = Some st
        ∧ ws_channelId st = cid ∧ ws_heartbeatCount st = 1.
Proof.
  destruct ev as [u' body now clock| |]; simpl; [|done..].
  intros (-> & <- & <- & V1 & V2 & V3 & V4) Hnone.
  unfold Heartbeat.POST. rewrite valid_body_tests by assumption.
  rewrite Hnone. simpl. rewrite lookup_insert_eq. by eexists.
Qed.

Lemma step_beat_next (u sid cid : string) (db : Store) (ev : Event) (last : LiveWatchState) :
  beatOn u sid cid ev →
  watching db !! watchKey u sid = Some last →
  ws_channelId last = cid →
  ∃ st, watching (step db ev) !! watchKey u sid = Some st
        ∧ ws_channelId st = cid
        ∧ ws_heartbeatCount st = ws_heartbeatCount last + 1
        ∧ ws_startTime st = ws_startTime last.
Proof.
  destruct ev as [u' body now clock| |]; simpl; [|done..].
  intros (-> & <- & <- & V1 & V2 & V3 & V4) Hlast Hsame.
  unfold Heartbeat.POST. rewrite valid_body_tests by assumption.
  rewrite Hlast. rewrite bool_decide_eq_false_2 by (intros Hne; by apply Hne).
  simpl. rewrite lookup_insert_eq. by eexists.
Qed.

(** Heartbeats of one tab on one channel, interleaved with arbitrary events
    on other keys: the count stored under the key goes up by the number of
    those heartbeats. *)
Lemma run_same_channel (u sid cid : string) (trace : list Event) :
  let k := watchKey u sid in
  Forall (λ ev, eventKey ev = k → beatOn u sid cid ev) trace →
  ∀ db,
    (∀ st, watching db !! k = Some st → ws_channelId st = cid) →
    let n := length (filter (λ ev, eventKey ev = k) trace) in
    (∀ st, watching (run trace db) !! k = Some st → ws_channelId st = cid)
    ∧ from_option ws_heartbeatCount 0 (watching (run trace db) !! k)
      = from_option ws_heartbeatCount 0 (watching db !! k) + Z.of_nat n
    ∧ ((0 < n)%nat → is_Some (watching (run trace db) !! k)).
Proof.
  intros k Htrace. induction Htrace as [|ev trace Hev _ IH]; intros db Hchan.
  - simpl. split; [exact Hchan|]. split; [lia|lia].
  - unfold run. simpl fold_left. fold (run trace (step db ev)).
    rewrite filter_cons. destruct (decide (eventKey ev = k)) as [Hk|Hk].
    + specialize (Hev Hk).
      assert (Hstep : ∃ st, watching (step db ev) !! k = Some st
                ∧ ws_channelId st = cid
                ∧ ws_heartbeatCount st
                  = from_option ws_heartbeatCount 0 (watching db !! k) + 1).
      { destruct (watching db !! k) as [last|] eqn:Hdb.
        - destruct (step_beat_next u sid cid db ev last Hev Hdb (Hchan _ eq_refl))
            as (st & H1 & H2 & H3 & _). by exists st.
        - destruct (step_beat_first u sid cid db ev Hev Hdb) as (st & H1 & H2 & H3).
          by exists st. }
      destruct Hstep as (st & Hst & Hc & Hn).
      destruct (IH (step db ev)) as (IH1 & IH2 & IH3).
      { intros st' Hst'. rewrite Hst in Hst'. by simplify_eq. }
      split; [exact IH1|]. split.
      * rewrite IH2, Hst. simpl. rewrite Hn. lia.
      * intros _. destruct (filter _ trace) as [|e l] eqn:Hf.
        -- simpl in IH2. destruct (watching (run trace (step db ev)) !! k) eqn:Hr;
             [by eexists|].
           simpl in IH2. rewrite Hst in IH2. simpl in IH2.
           exfalso.
           assert (Hrun : watching (run trace (step db ev)) !! k
                          = watching (step db ev) !! k).
           { clear -Hf. revert Hf. generalize (step db ev). clear db.
             induction trace as [|e trace IHt]; intros d Hf; [done|].
             rewrite filter_cons in Hf. destruct (decide (eventKey e = k)); [done|].
             unfold run. simpl. fold (run trace (step d e)).
             rewrite IHt by done. by apply step_other_key. }
           rewrite Hst in Hrun. congruence.
        -- apply IH3. simpl. lia.
    + destruct (IH (step db ev)) as (IH1 & IH2 & IH3).
      { intros st. rewrite step_other_key by done. apply Hchan. }
      rewrite step_other_key in IH2 by done. done.
Qed.

(** C7.  After a trace in which the key of (user, tab) receives N ≥ 1
    well-formed heartbeats, all for one channel, and no end request or
    expiry (events on other keys may be interleaved), starting with no state
    under the key: the key holds one watch state, and its [heartbeatCount]
    is N.  A key holds at most one state at any time. *)
Theorem same_channel_heartbeats_count (u sid cid : string) (trace : list Event) (db : Store) :
  let k := watchKey u sid in
  let N := length (filter (λ ev, eventKey ev = k) trace) in
  Forall (λ ev, eventKey ev = k → beatOn u sid cid ev) trace →
  watching db !! k = None →
  (1 ≤ N)%nat →
  ∃ st, watching (run trace db) !! k = Some st
        ∧ ws_heartbeatCount st = Z.of_nat N
        ∧ ws_channelId st = cid
        ∧ ∀ st', watching (run trace db) !! k = Some st' → st' = st.
Proof.
  intros k N Htrace Hnone HN.
  destruct (run_same_channel u sid cid trace Htrace db) as (H1 & H2 & H3).
  { intros st. fold k. by rewrite Hnone. }
  destruct H3 as [st Hst]; [exact HN|].
  exists st. fold k in H1, H2, Hst. split; [exact Hst|]. split; [|split].
  - rewrite Hst, Hnone in H2. simpl in H2. exact H2.
  - by apply H1.
  - intros st' Hst'. rewrite Hst in Hst'. by simplify_eq.
Qed.

Lemma same_channel_heartbeats_count_witness :
  (ws_heartbeatCount <$> watching (run newsTrace emptyStore) !! watchKey "alice" "tab1")
  = Some 4.
Proof.
  destruct (same_channel_heartbeats_count "alice" "tab1" "c1" newsTrace emptyStore)
    as (st & Hst & Hn & _).
  - unfold newsTrace.
    repeat (apply Forall_cons; split;
            [first [ intros _; simpl; by split_and! | intros Hk; by vm_compute in Hk ]|]).
    apply Forall_nil_2.
  - reflexivity.
  - vm_compute. lia.
  - rewrite Hst. simpl. rewrite Hn. reflexivity.
Defined.

(** The scenario of four heartbeats 30 s apart followed by an end request:
    one session of 120 s, booked once in each aggregate. *)
Example four_heartbeats_then_end :
  let db := run [ EvHeartbeat "alice" newsBody 0 0;
                  EvHeartbeat "alice" newsBody 30000 30000;
                  EvHeartbeat "alice" newsBody 60000 60000;
                  EvHeartbeat "alice" newsBody 90000 90000;
                  EvEndWatch "alice" "tab1" 100000 100001 ] emptyStore in
  watching db !! watchKey "alice" "tab1" = None
  ∧ (se_duration <$> sessionsOf db "alice") = [120]
  ∧ stats db !! "alice" = Some (mkUserStats 120 1 100000)
  ∧ daily db !! "1970-01-01" = Some (mkDailyStats 120 1 ["alice"])
  ∧ channel db !! "c1" = Some (mkChannelStats "c1" "News" "" 120 1 ["alice"]).
Proof. vm_compute. by split_and!. Qed.

(** ** Session list against user totals *)

(** C3 as written does not hold: after 101 one-heartbeat settlements the
    list holds 100 sessions (3000 s) while the user total counts all 101
    (3030 s). *)
Lemma sessions_sum_below_total :
  let db := settleAll (shortSettlements 101) emptyStore in
  sumDurations (sessionsOf db "alice") = 3000
  ∧ totalWatchTimeOf db "alice" = 3030
  ∧ sumDurations (sessionsOf db "alice") ≠ totalWatchTimeOf db "alice".
Proof. vm_compute. split_and!; [reflexivity|reflexivity|discriminate]. Qed.

(** C3, amended.  After any sequence of settlements from the empty store
    (and after any trace of requests and expiries), the durations in a
    user's stored list sum to at most [UserStats.totalWatchTime], and to
    exactly that value as long as the user has had no more than 100 sessions
    persisted, that is, as long as the list has not evicted anything. *)
Theorem sessions_sum_le_total (l : list Settlement) (trace : list Event) (u : string) :
  (let db := settleAll l emptyStore in
   sumDurations (sessionsOf db u) ≤ totalWatchTimeOf db u
   ∧ (totalSessionsOf db u ≤ 100 →
      sumDurations (sessionsOf db u) = totalWatchTimeOf db u))
  ∧ (let db := run trace emptyStore in
     sumDurations (sessionsOf db u) ≤ totalWatchTimeOf db u
     ∧ (totalSessionsOf db u ≤ 100 →
        sumDurations (sessionsOf db u) = totalWatchTimeOf db u)).
Proof.
  split; intros db.
  - destruct (settleAll_consistent l emptyStore consistent_empty u) as (_ & _ & Hle & Heq).
    split; [exact Hle|]. intros H. by apply Heq.
  - destruct (run_consistent trace emptyStore consistent_empty u) as (_ & _ & Hle & Heq).
    split; [exact Hle|]. intros H. by apply Heq.
Qed.

Lemma sessions_sum_le_total_witness :
  let db := settleAll (shortSettlements 100) emptyStore in
  sumDurations (sessionsOf db "alice") = totalWatchTimeOf db "alice".
Proof.
  destruct (sessions_sum_le_total (shortSettlements 100) [] "alice") as ((_ & H) & _).
  apply H. vm_compute. discriminate.
Defined.

(** ** The report: daily trend *)

Example toISODate_epoch : toISODate 0 = "1970-01-01".
Proof. reflexivity. Qed.

Example toISODate_leap_day : toISODate 1709251199999 = "2024-02-29".
Proof. reflexivity. Qed.

Example toISODate_after_leap_day : toISODate 1709251200000 = "2024-03-01".
Proof. reflexivity. Qed.

Example toISODate_before_epoch : toISODate (-1) = "1969-12-31".
Proof. reflexivity. Qed.

(** Going back [i] times 24 hours goes back exactly [i] UTC days. *)
Lemma utcDay_minus_days (now i : Z) :
  utcDay (now - i * 24 * 60 * 60 * 1000) = utcDay now - i.
Proof.
  unfold utcDay, msPerDay.
  replace (now - i * 24 * 60 * 60 * 1000) with (now + (- i) * (24 * 60 * 60 * 1000)) by lia.
  rewrite Z.div_add by lia. lia.
Qed.

Lemma trendEntry_spec db now i :
  let day := utcDay now - i in
  let e := LiveStats.trendEntry db now i in
  dt_date e = isoDateOfDay day
  ∧ (daily db !! isoDateOfDay day = None →
     dt_watchTime e = 0 ∧ dt_sessions e = 0 ∧ dt_users e = 0)
  ∧ (∀ d, daily db !! isoDateOfDay day = Some d →
     dt_watchTime e = ds_watchTime d
     ∧ dt_sessions e = ds_sessions d
     ∧ dt_users e = Z.of_nat (length (ds_users d))).
Proof.
  intros day e. unfold e, LiveStats.trendEntry, toISODate.
  rewrite utcDay_minus_days. fold day. simpl.
  split; [reflexivity|]. split.
  - by intros ->.
  - by intros d ->.
Qed.

(** C9.  The trend of a report has exactly 7 entries; entry [i] (from 0) is
    the entry of the UTC day [today - 6 + i], so the entries run from six
    days ago to today, oldest first; an entry whose day has no stored
    DailyStats reads 0 for watchTime, sessions and users, and otherwise
    repeats the stored record. *)
Theorem daily_trend_seven_days (db : Store) (allUsers : list string) (now : Z) :
  let trend := gs_dailyTrend (LiveStats.buildReport db allUsers now) in
  length trend = 7%nat
  ∧ (dt_date <$> trend) = (λ i, isoDateOfDay (utcDay now - i)) <$> [6; 5; 4; 3; 2; 1; 0]
  ∧ (dt_date <$> last trend) = Some (toISODate now)
  ∧ ∀ (i : nat) (e : DailyTrend),
      trend !! i = Some e →
      let day := utcDay now - (6 - Z.of_nat i) in
      dt_date e = isoDateOfDay day
      ∧ (daily db !! isoDateOfDay day = None →
         dt_watchTime e = 0 ∧ dt_sessions e = 0 ∧ dt_users e = 0)
      ∧ (∀ d, daily db !! isoDateOfDay day = Some d →
         dt_watchTime e = ds_watchTime d
         ∧ dt_sessions e = ds_sessions d
         ∧ dt_users e = Z.of_nat (length (ds_users d))).
Proof.
  intros trend.
  assert (Ht : trend = LiveStats.trendEntry db now <$> [6; 5; 4; 3; 2; 1; 0])
    by reflexivity.
  rewrite Ht. clear Ht trend. split; [reflexivity|]. split; [|split].
  - rewrite <- list_fmap_compose. apply list_fmap_ext.
    intros _ i _. exact (proj1 (trendEntry_spec db now i)).
  - simpl. f_equal. unfold LiveStats.trendEntry. simpl. f_equal. lia.
  - intros i e Hi.
    do 7 (destruct i as [|i];
          [simpl in Hi; injection Hi as <-; apply (trendEntry_spec db now)|]).
    by simpl in Hi.
Qed.

Lemma daily_trend_seven_days_witness :
  let db := Heartbeat.settleWatchSession "alice" (newsState 4) 100 130 emptyStore in
  let trend := gs_dailyTrend (LiveStats.buildReport db ["alice"] (6 * msPerDay + 5)) in
  length trend = 7%nat
  ∧ (dt_date <$> trend)
    = ["1970-01-01"; "1970-01-02"; "1970-01-03"; "1970-01-04"; "1970-01-05";
       "1970-01-06"; "1970-01-07"]
  ∧ (dt_watchTime <$> trend) = [120; 0; 0; 0; 0; 0; 0].
Proof.
  intros db trend.
  pose proof (daily_trend_seven_days db ["alice"] (6 * msPerDay + 5)) as (H1 & H2 & _).
  split; [exact H1|]. split; [|reflexivity].
  etrans; [exact H2|]. reflexivity.
Defined.

(** ** The report: per-channel accumulation *)

Section JsMapFacts.
Context {V : Type}.
Implicit Types (m : list (string * V)) (k : string) (v : V).

Lemma mapGet_None m k : LiveStats.mapGet k m = None ↔ k ∉ m.*1.
Proof.
  induction m as [|[k' v'] m IH]; simpl.
  - split; [intros _; apply not_elem_of_nil|done].
  - case_bool_decide as Hk.
    + subst. split; [done|]. intros []. apply elem_of_cons. by left.
    + rewrite IH, not_elem_of_cons. split; [by intros ?; split; [congruence|]|by intros [_ ?]].
Qed.

Lemma mapGet_Some m k v : LiveStats.mapGet k m = Some v → (k, v) ∈ m.
Proof.
  induction m as [|[k' v'] m IH]; simpl; [done|].
  case_bool_decide as Hk.
  - intros [= ->]. subst. apply elem_of_cons. by left.
  - intros Hg. apply elem_of_cons. right. by apply IH.
Qed.

Lemma mapSet_new m k v : LiveStats.mapGet k m = None → LiveStats.mapSet k v m = m ++ [(k, v)].
Proof.
  induction m as [|[k' v'] m IH]; simpl; [done|].
  case_bool_decide as Hk; [done|]. intros Hg. by rewrite IH.
Qed.

Lemma mapSet_keys m k v v0 :
  LiveStats.mapGet k m = Some v0 → (LiveStats.mapSet k v m).*1 = m.*1.
Proof.
  induction m as [|[k' v'] m IH]; simpl; [done|].
  case_bool_decide as Hk; [done|]. intros Hg. rewrite !fmap_cons. by rewrite IH.
Qed.

Lemma elem_of_mapSet m k v k' v' :
  NoDup (m.*1) → (k', v') ∈ LiveStats.mapSet k v m →
  (k' = k ∧ v' = v) ∨ (k' ≠ k ∧ (k', v') ∈ m).
Proof.
  induction m as [|[k0 v0] m IH]; simpl; intros Hnd Hin.
  - apply list_elem_of_singleton in Hin. left. by simplify_eq.
  - apply NoDup_cons in Hnd as [Hk0 Hnd]. case_bool_decide as Hk.
    + subst k0. apply elem_of_cons in Hin as [Heq|Hin]; [left; by simplify_eq|].
      right. split.
      * intros ->. apply Hk0. apply list_elem_of_fmap. by exists (k, v').
      * apply elem_of_cons. by right.
    + apply elem_of_cons in Hin as [Heq|Hin].
      * simplify_eq. right. split; [done|]. apply elem_of_cons. by left.
      * destruct (IH Hnd Hin) as [?|[? ?]]; [by left|].
        right. split; [done|]. apply elem_of_cons. by right.
Qed.
End JsMapFacts.

Lemma firstOccurrences_elem (l : list string) (x : string) :
  x ∈ firstOccurrences l ↔ x ∈ l.
Proof.
  induction l as [|y l IH]; simpl; [done|].
  rewrite !elem_of_cons, list_elem_of_filter, IH.
  destruct (decide (x = y)) as [->|Hne]; [split; by left|].
  split; (intros [Hxy|Hin]; [by left|right]); [by destruct Hin|by split].
Qed.

Lemma firstOccurrences_NoDup (l : list string) : NoDup (firstOccurrences l).
Proof.
  induction l as [|y l IH]; simpl; [constructor|].
  apply NoDup_cons. split.
  - rewrite list_elem_of_filter. by intros [? _].
  - by apply NoDup_filter.
Qed.

Lemma firstOccurrences_snoc (l : list string) (x : string) :
  firstOccurrences (l ++ [x])
  = if decide (x ∈ l) then firstOccurrences l else firstOccurrences l ++ [x].
Proof.
  induction l as [|y l IH].
  - destruct (decide (x ∈ [])) as [Hin|_]; [|done]. by apply not_elem_of_nil in Hin.
  - change (y :: filter (λ z, z ≠ y) (firstOccurrences (l ++ [x]))
            = if decide (x ∈ y :: l)
              then y :: filter (λ z, z ≠ y) (firstOccurrences l)
              else (y :: filter (λ z, z ≠ y) (firstOccurrences l)) ++ [x]).
    rewrite IH. destruct (decide (x ∈ l)) as [Hin|Hin].
    + destruct (decide (x ∈ y :: l)) as [_|Hn]; [done|].
      exfalso. apply Hn, elem_of_cons. by right.
    + rewrite filter_app. destruct (decide (x = y)) as [->|Hne].
      * destruct (decide (y ∈ y :: l)) as [_|Hn];
          [|exfalso; apply Hn, elem_of_cons; by left].
        rewrite filter_cons, decide_False by (intros Hyy; by apply Hyy).
        by rewrite filter_nil, app_nil_r.
      * destruct (decide (x ∈ y :: l)) as [Hy|_].
        { apply elem_of_cons in Hy as [?|?]; done. }
        by rewrite filter_cons, decide_True by done.
Qed.

Lemma watchStep_acc m session :
  LiveStats.watchStep m session = accStep se_channelId watchInit watchUpd m session.
Proof. reflexivity. Qed.

Lemma globalStep_acc username m session :
  LiveStats.globalStep username m session
  = accStep (λ us, se_channelId us.2) globalInit globalUpd m (username, session).
Proof. reflexivity. Qed.

Lemma filter_none {A} (P : A → Prop) `{∀ x, Decision (P x)} (l : list A) :
  (∀ x, x ∈ l → ¬ P x) → filter P l = [].
Proof.
  induction l as [|x l IH]; intros Hl; [done|].
  rewrite filter_cons, decide_False by (apply Hl, elem_of_cons; by left).
  apply IH. intros y Hy. apply Hl, elem_of_cons. by right.
Qed.

Section AccumulateFacts.
Context {E V : Type} (key : E → string) (init : E → V) (upd : V → E → V).

(** After folding [es] into an empty map: the keys are the channels of
    [es] in first-occurrence order, and the value of a key is its first
    element's [init] updated by the later elements of that key, in order. *)
Lemma accumulate_spec (es : list E) :
  let m := fold_left (accStep key init upd) es [] in
  m.*1 = firstOccurrences (key <$> es)
  ∧ ∀ k v, (k, v) ∈ m →
      ∃ e rest, filter (λ e, key e = k) es = e :: rest
                ∧ v = fold_left upd rest (init e).
Proof.
  induction es as [|e es IH] using rev_ind.
  - simpl. split; [done|]. intros k v Hin. by apply elem_of_nil in Hin.
  - simpl in IH. destruct IH as [Hkeys Hvals].
    rewrite fold_left_app. simpl. set (m := fold_left (accStep key init upd) es []) in *.
    rewrite fmap_app. simpl. rewrite firstOccurrences_snoc.
    assert (Hnd : NoDup (m.*1)) by (rewrite Hkeys; apply firstOccurrences_NoDup).
    assert (Hother : ∀ k, k ≠ key e →
              filter (λ e0, key e0 = k) (es ++ [e]) = filter (λ e0, key e0 = k) es).
    { intros k Hk. rewrite filter_app, filter_cons, decide_False by done.
      by rewrite filter_nil, app_nil_r. }
    unfold accStep. destruct (LiveStats.mapGet (key e) m) as [v0|] eqn:Hget.
    + pose proof (mapGet_Some _ _ _ Hget) as Hin0.
      assert (Hke : key e ∈ key <$> es).
      { apply firstOccurrences_elem. rewrite <- Hkeys.
        apply list_elem_of_fmap. by exists (key e, v0). }
      rewrite decide_True by done. split.
      * by rewrite (mapSet_keys _ _ _ v0).
      * intros k v Hin. apply elem_of_mapSet in Hin; [|done].
        destruct Hin as [[-> ->]|[Hk Hin]].
        -- destruct (Hvals _ _ Hin0) as (e0 & rest & Hf & ->).
           exists e0, (rest ++ [e]). split.
           ++ rewrite filter_app, Hf, filter_cons, decide_True by done.
              by rewrite filter_nil.
           ++ by rewrite fold_left_app.
        -- rewrite Hother by done. by apply Hvals.
    + apply mapGet_None in Hget as Hnk. rewrite Hkeys, firstOccurrences_elem in Hnk.
      rewrite decide_False by done. rewrite mapSet_new by done. split.
      * by rewrite fmap_app, Hkeys.
      * intros k v Hin. apply elem_of_app in Hin as [Hin|Hin].
        -- assert (Hk : k ≠ key e).
           { intros ->. apply Hnk, firstOccurrences_elem. rewrite <- Hkeys.
             apply list_elem_of_fmap. by exists (key e, v). }
           rewrite Hother by done. by apply Hvals.
        -- apply list_elem_of_singleton in Hin. simplify_eq.
           exists e, []. split; [|done].
           rewrite filter_app, filter_cons, decide_True by done.
           rewrite filter_nil.
           assert (Hnil : filter (λ e0, key e0 = key e) es = []); [|by rewrite Hnil].
           apply filter_none. intros e0 He0 Hkey. apply Hnk.
           rewrite <- Hkey. apply list_elem_of_fmap. by exists e0.
Qed.
End AccumulateFacts.

Lemma values_by_key {V : Type} (f : string → V) (m : list (string * V)) :
  (∀ k v, (k, v) ∈ m → v = f k) → m.*2 = f <$> m.*1.
Proof.
  induction m as [|[k v] m IH]; intros Hm; [done|].
  rewrite !fmap_cons. simpl. f_equal.
  - apply Hm, elem_of_cons. by left.
  - apply IH. intros k' v' Hin. apply Hm, elem_of_cons. by right.
Qed.

Lemma filter_head_holds {A} (P : A → Prop) `{∀ x, Decision (P x)} (l : list A) x rest :
  filter P l = x :: rest → P x.
Proof.
  intros Hf. assert (Hx : x ∈ filter P l) by (rewrite Hf; apply elem_of_cons; by left).
  by apply list_elem_of_filter in Hx as [? _].
Qed.

Lemma fold_watchUpd (rest : list LiveWatchSession) (v : FavoriteChannel) :
  fold_left watchUpd rest v
  = {| fc_channelId := fc_channelId v;
       fc_channelName := fc_channelName v;
       fc_channelGroup := fc_channelGroup v;
       fc_watchTime := fc_watchTime v + sumDurations rest;
       fc_watchCount := fc_watchCount v + Z.of_nat (length rest) |}.
Proof.
  revert v. induction rest as [|s rest IH]; intros v.
  - destruct v. simpl. f_equal; lia.
  - simpl fold_left. rewrite IH. simpl. f_equal; lia.
Qed.

(** The user's [channelWatchMap] after the session loop holds, in
    first-occurrence order, the per-channel sums and counts. *)
Lemma watchMap_values (l : list LiveWatchSession) :
  LiveStats.mapValues (fold_left LiveStats.watchStep l []) = channelTotals l.
Proof.
  change (fold_left LiveStats.watchStep l [])
    with (fold_left (accStep se_channelId watchInit watchUpd) l []).
  destruct (accumulate_spec se_channelId watchInit watchUpd l) as [Hkeys Hvals].
  unfold LiveStats.mapValues, channelTotals. rewrite <- Hkeys.
  apply values_by_key. intros k v Hin.
  destruct (Hvals k v Hin) as (e & rest & Hf & ->).
  pose proof (filter_head_holds _ _ _ _ Hf) as Hk. simpl in Hk.
  unfold channelTotal, onChannel. rewrite Hf, fold_watchUpd. simpl.
  rewrite Hk. f_equal. lia.
Qed.

Lemma setAdd_spec (x : string) (users : list string) :
  NoDup users →
  NoDup (LiveStats.setAdd x users)
  ∧ ∀ y, y ∈ LiveStats.setAdd x users ↔ y = x ∨ y ∈ users.
Proof.
  intros Hnd. unfold LiveStats.setAdd. case_bool_decide as Hx.
  - split; [done|]. intros y. split; [by right|]. by intros [->|?].
  - split.
    + apply NoDup_app. split; [done|]. split; [|apply NoDup_singleton].
      intros y Hy Hyx. apply list_elem_of_singleton in Hyx. by subst.
    + intros y. rewrite elem_of_app, list_elem_of_singleton. tauto.
Qed.

Lemma fold_globalUpd (rest : list (string * LiveWatchSession)) (v : GlobalChannel) :
  NoDup (gc_users v) →
  let r := fold_left globalUpd rest v in
  gc_channelId r = gc_channelId v
  ∧ gc_channelName r = gc_channelName v
  ∧ gc_channelGroup r = gc_channelGroup v
  ∧ gc_totalWatchTime r = gc_totalWatchTime v + sumDurations (rest.*2)
  ∧ gc_totalSessions r = gc_totalSessions v + Z.of_nat (length rest)
  ∧ NoDup (gc_users r)
  ∧ ∀ y, y ∈ gc_users r ↔ y ∈ gc_users v ∨ y ∈ rest.*1.
Proof.
  revert v. induction rest as [|[u s] rest IH]; intros v Hnd r; subst r.
  - simpl. split_and!; [done|done|done|lia|lia|done|].
    intros y. rewrite elem_of_nil. tauto.
  - simpl fold_left. destruct (setAdd_spec u (gc_users v) Hnd) as [Hnd' Hin'].
    pose proof (IH (globalUpd v (u, s)) Hnd') as IH'. cbv zeta in IH'.
    destruct IH' as (H1 & H2 & H3 & H4 & H5 & H6 & H7).
    rewrite H1, H2, H3, H4, H5.
    change (sumDurations (((u, s) :: rest).*2))
      with (se_duration s + sumDurations (rest.*2)).
    rewrite length_cons, Nat2Z.inj_succ. simpl.
    split_and!; [done|done|done|lia|lia|done|].
    intros y. rewrite H7. simpl. rewrite Hin', elem_of_cons. tauto.
Qed.

Lemma distinct_count (users names : list string) :
  NoDup users → (∀ y, y ∈ users ↔ y ∈ names) →
  size (list_to_set names : gset string) = length users.
Proof.
  intros Hnd Hsame.
  rewrite <- (size_list_to_set (C:=gset string) users) by done.
  f_equal. apply set_eq. intros y. rewrite !elem_of_list_to_set. by rewrite Hsame.
Qed.

(** The site-wide [channelStatsMap], turned into report entries, holds the
    per-channel sums, session counts and distinct-user counts of the scanned
    sessions, in first-occurrence order. *)
Lemma globalMap_values (l : list (string * LiveWatchSession)) :
  LiveStats.toHotChannel
    <$> LiveStats.mapValues (fold_left (accStep (λ us, se_channelId us.2) globalInit globalUpd) l [])
  = hotTotals l.
Proof.
  destruct (accumulate_spec (λ us, se_channelId us.2) globalInit globalUpd l)
    as [Hkeys Hvals].
  unfold LiveStats.mapValues, hotTotals. rewrite <- Hkeys.
  rewrite (values_by_key
             (λ k, fold_left globalUpd (tail (onChannel2 k l))
                     (from_option globalInit (globalInit (EmptyString, Heartbeat.mkSession (newsState 0) 0 0))
                        (head (onChannel2 k l))))).
  2:{ intros k v Hin. destruct (Hvals k v Hin) as (e & rest & Hf & ->).
      unfold onChannel2. by rewrite Hf. }
  rewrite <- list_fmap_compose. apply list_fmap_ext. intros _ k Hk%list_elem_of_lookup_2.
  simpl.
  assert (Hne : ∃ e rest, onChannel2 k l = e :: rest) .
  { apply list_elem_of_fmap in Hk as [[k' v] [-> Hin]].
    destruct (Hvals _ _ Hin) as (e & rest & Hf & _). by exists e, rest. }
  destruct Hne as (e & rest & Hf). unfold hotTotal. rewrite Hf.
  cbn [tail head from_option].
  pose proof (filter_head_holds _ _ _ _ Hf) as Hke. simpl in Hke.
  pose proof (fold_globalUpd rest (globalInit e)) as Hfold. cbv zeta in Hfold.
  destruct Hfold as (H1 & H2 & H3 & H4 & H5 & H6 & H7).
  { simpl. apply NoDup_singleton. }
  rewrite (distinct_count (gc_users (fold_left globalUpd rest (globalInit e)))
             ((e :: rest).*1)); [|done|].
  2:{ intros y. rewrite H7. simpl. rewrite list_elem_of_singleton, elem_of_cons. tauto. }
  unfold LiveStats.toHotChannel. rewrite H1, H2, H3, H4, H5.
  change (sumDurations ((e :: rest).*2)) with (se_duration e.2 + sumDurations (rest.*2)).
  rewrite length_cons, Nat2Z.inj_succ. simpl. rewrite Hke. f_equal. lia.
Qed.

(** ** The report: ranking *)

Section JsSortFacts.
Context {A : Type} (key : A → Z).
Let cmp : A → A → Z := λ a b, key b - key a.

Lemma sortInsert_perm (x : A) (l : list A) : LiveStats.sortInsert cmp x l ≡ₚ x :: l.
Proof.
  induction l as [|y l IH]; simpl; [done|].
  destruct (cmp x y <=? 0); [done|]. rewrite IH. apply Permutation_swap.
Qed.

Lemma jsSort_perm (l : list A) : LiveStats.jsSort cmp l ≡ₚ l.
Proof.
  induction l as [|x l IH]; simpl; [done|]. by rewrite sortInsert_perm, IH.
Qed.

Lemma sortInsert_sorted (x : A) (l : list A) :
  StronglySorted (λ a b, key b ≤ key a) l →
  StronglySorted (λ a b, key b ≤ key a) (LiveStats.sortInsert cmp x l).
Proof.
  induction 1 as [|y l Hl IH Hy]; simpl.
  - repeat constructor.
  - unfold cmp at 1. destruct (Z.leb_spec (key y - key x) 0) as [Hle|Hgt].
    + constructor; [by constructor|]. constructor; [lia|].
      eapply Forall_impl; [exact Hy|]. intros z Hz. simpl in *. lia.
    + constructor; [exact IH|].
      rewrite sortInsert_perm. constructor; [lia|exact Hy].
Qed.

Lemma jsSort_sorted (l : list A) :
  StronglySorted (λ a b, key b ≤ key a) (LiveStats.jsSort cmp l).
Proof.
  induction l as [|x l IH]; simpl; [constructor|]. by apply sortInsert_sorted.
Qed.

Lemma sortInsert_stable (x : A) (l : list A) (t : Z) :
  filter (λ a, key a = t) (LiveStats.sortInsert cmp x l)
  = filter (λ a, key a = t) (x :: l).
Proof.
  induction l as [|y l IH]; simpl; [done|].
  unfold cmp at 1. destruct (Z.leb_spec (key y - key x) 0) as [Hle|Hgt]; [done|].
  rewrite filter_cons, IH, !filter_cons.
  destruct (decide (key y = t)) as [Hy|Hy]; [|done].
  destruct (decide (key x = t)); [lia|done].
Qed.

Lemma jsSort_stable (l : list A) (t : Z) :
  filter (λ a, key a = t) (LiveStats.jsSort cmp l) = filter (λ a, key a = t) l.
Proof.
  induction l as [|x l IH]; simpl; [done|].
  by rewrite sortInsert_stable, !filter_cons, IH.
Qed.

(** [sort((a, b) => key(b) - key(a))] ranks its input by descending key,
    ties in input order. *)
Lemma jsSort_ranked (l : list A) : RankedDesc key l (LiveStats.jsSort cmp l).
Proof.
  split; [apply jsSort_perm|]. split; [apply jsSort_sorted|apply jsSort_stable].
Qed.

(** The ranking rule leaves no freedom: two rankings of one input agree. *)
Lemma ranked_same (o1 o2 : list A) :
  o1 ≡ₚ o2 →
  StronglySorted (λ a b, key b ≤ key a) o1 →
  StronglySorted (λ a b, key b ≤ key a) o2 →
  (∀ t, filter (λ a, key a = t) o1 = filter (λ a, key a = t) o2) →
  o1 = o2.
Proof.
  revert o2. induction o1 as [|a o1 IH]; intros o2 Hp Hs1 Hs2 Hf.
  - by apply Permutation_nil_l in Hp.
  - destruct o2 as [|b o2]; [by apply Permutation_nil_r in Hp|].
    apply StronglySorted_inv in Hs1 as [Hs1 Ha].
    apply StronglySorted_inv in Hs2 as [Hs2 Hb].
    assert (Hab : key a = key b).
    { assert (Ha2 : a ∈ b :: o2) by (rewrite <- Hp; apply elem_of_cons; by left).
      assert (Hb1 : b ∈ a :: o1) by (rewrite Hp; apply elem_of_cons; by left).
      rewrite Forall_forall in Ha, Hb.
      apply elem_of_cons in Ha2 as [->|Ha2]; [done|].
      apply elem_of_cons in Hb1 as [->|Hb1]; [done|].
      apply Hb in Ha2. apply Ha in Hb1. lia. }
    assert (a = b) as ->.
    { specialize (Hf (key a)). rewrite !filter_cons in Hf.
      rewrite decide_True in Hf by done. rewrite decide_True in Hf by done.
      by injection Hf. }
    f_equal. apply IH; [by apply Permutation_cons_inv in Hp|done|done|].
    intros t. specialize (Hf t). rewrite !filter_cons in Hf.
    destruct (decide (key b = t)); [by injection Hf|done].
Qed.

Lemma ranked_unique (input o1 o2 : list A) :
  RankedDesc key input o1 → RankedDesc key input o2 → o1 = o2.
Proof.
  intros (Hp1 & Hs1 & Hf1) (Hp2 & Hs2 & Hf2).
  apply ranked_same; [by rewrite Hp1, Hp2|done|done|].
  intros t. by rewrite Hf1, Hf2.
Qed.
End JsSortFacts.

Lemma favoriteChannels_top (l : list LiveWatchSession) :
  TopRanked 5 fc_watchTime (channelTotals l)
    (LiveStats.favoriteChannels (fold_left LiveStats.watchStep l [])).
Proof.
  unfold LiveStats.favoriteChannels. rewrite watchMap_values.
  eexists. split; [apply jsSort_ranked|reflexivity].
Qed.

Lemma hotChannels_top (l : list (string * LiveWatchSession)) :
  TopRanked 10 hc_totalWatchTime (hotTotals l)
    (LiveStats.hotChannels
       (fold_left (accStep (λ us, se_channelId us.2) globalInit globalUpd) l [])).
Proof.
  unfold LiveStats.hotChannels. rewrite globalMap_values.
  eexists. split; [apply jsSort_ranked|reflexivity].
Qed.

(** ** The report: the scan over all users *)

Lemma sessionLoop_split username (ss : list LiveWatchSession) m :
  LiveStats.sessionLoop username ss m
  = (fold_left LiveStats.watchStep ss [],
     fold_left (accStep (λ us, se_channelId us.2) globalInit globalUpd)
       ((λ s, (username, s)) <$> ss) m).
Proof.
  unfold LiveStats.sessionLoop. generalize (@nil (string * FavoriteChannel)).
  revert m. induction ss as [|s ss IH]; intros m w; [done|].
  simpl. by rewrite IH.
Qed.

Lemma userStep_spec db acc username :
  LiveStats.userStep db acc username
  = {| LiveStats.sc_userStats :=
         LiveStats.sc_userStats acc
         ++ (if decide (reported db username) then [userEntry db username] else []);
       LiveStats.sc_totalWatchTime :=
         LiveStats.sc_totalWatchTime acc + totalWatchTimeOf db username;
       LiveStats.sc_totalSessions :=
         LiveStats.sc_totalSessions acc + totalSessionsOf db username;
       LiveStats.sc_channelStatsMap :=
         fold_left (accStep (λ us, se_channelId us.2) globalInit globalUpd)
           ((λ s, (username, s)) <$> sessionsOf db username)
           (LiveStats.sc_channelStatsMap acc) |}.
Proof.
  unfold LiveStats.userStep. fold (sessionsOf db username).
  destruct (decide (reported db username)) as [Hr|Hr].
  - assert (Hb : bool_decide (stats db !! username = None)
                 && bool_decide (length (sessionsOf db username) = 0%nat) = false).
    { apply not_true_is_false. intros Hb. apply Hr.
      apply andb_prop in Hb as [H1 H2].
      by apply bool_decide_eq_true in H1, H2. }
    rewrite Hb, sessionLoop_split. reflexivity.
  - assert (Hs : stats db !! username = None ∧ length (sessionsOf db username) = 0%nat).
    { unfold reported in Hr. by apply dec_stable in Hr. }
    destruct Hs as [H1 H2].
    rewrite !bool_decide_eq_true_2 by done. simpl.
    apply nil_length_inv in H2. unfold totalWatchTimeOf, totalSessionsOf.
    rewrite H1, H2. simpl. destruct acc. simpl. f_equal; [by rewrite app_nil_r|lia|lia].
Qed.

Lemma scannedSessions_cons db u us :
  scannedSessions db (u :: us)
  = ((λ s, (u, s)) <$> sessionsOf db u) ++ scannedSessions db us.
Proof. reflexivity. Qed.

Lemma sumOver_cons (f : string → Z) (u : string) (us : list string) :
  sumOver f (u :: us) = f u + sumOver f us.
Proof. reflexivity. Qed.

Lemma scanUsers_from db allUsers acc :
  fold_left (LiveStats.userStep db) allUsers acc
  = {| LiveStats.sc_userStats :=
         LiveStats.sc_userStats acc ++ (userEntry db <$> filter (reported db) allUsers);
       LiveStats.sc_totalWatchTime :=
         LiveStats.sc_totalWatchTime acc + sumOver (totalWatchTimeOf db) allUsers;
       LiveStats.sc_totalSessions :=
         LiveStats.sc_totalSessions acc + sumOver (totalSessionsOf db) allUsers;
       LiveStats.sc_channelStatsMap :=
         fold_left (accStep (λ us, se_channelId us.2) globalInit globalUpd)
           (scannedSessions db allUsers) (LiveStats.sc_channelStatsMap acc) |}.
Proof.
  revert acc. induction allUsers as [|u us IH]; intros acc.
  - destruct acc. simpl. f_equal; [by rewrite app_nil_r|lia|lia].
  - cbn [fold_left]. rewrite IH, userStep_spec.
    rewrite scannedSessions_cons, fold_left_app, filter_cons.
    cbn [LiveStats.sc_userStats LiveStats.sc_totalWatchTime LiveStats.sc_totalSessions
         LiveStats.sc_channelStatsMap].
    rewrite !sumOver_cons. f_equal; [|lia|lia].
    rewrite <- app_assoc. f_equal. by destruct (decide (reported db u)).
Qed.

Lemma scanUsers_spec db allUsers :
  LiveStats.scanUsers db allUsers
  = {| LiveStats.sc_userStats := userEntry db <$> filter (reported db) allUsers;
       LiveStats.sc_totalWatchTime := sumOver (totalWatchTimeOf db) allUsers;
       LiveStats.sc_totalSessions := sumOver (totalSessionsOf db) allUsers;
       LiveStats.sc_channelStatsMap :=
         fold_left (accStep (λ us, se_channelId us.2) globalInit globalUpd)
           (scannedSessions db allUsers) [] |}.
Proof. unfold LiveStats.scanUsers. by rewrite scanUsers_from. Qed.

(** [GET] computes the report when asked to refresh or when nothing is
    cached, and stores it; otherwise it answers from the cache. *)
Lemma GET_fresh allUsers forceRefresh now db :
  forceRefresh = true ∨ globalStats db = None →
  LiveStats.GET allUsers forceRefresh now db
  = (LiveStats.buildReport db allUsers now,
     setGlobalStats (LiveStats.buildReport db allUsers now) db).
Proof.
  unfold LiveStats.GET. intros [->| ->]; [done|]. by destruct forceRefresh.
Qed.

Lemma GET_cached allUsers now db cachedStats :
  globalStats db = Some cachedStats →
  LiveStats.GET allUsers false now db = (cachedStats, db).
Proof. unfold LiveStats.GET. by intros ->. Qed.

(** The entries of the report are those of the users that are not skipped. *)
Lemma report_entries db allUsers now (e : UserLiveStats) :
  e ∈ gs_userStats (LiveStats.buildReport db allUsers now)
  ↔ ∃ u, u ∈ allUsers ∧ reported db u ∧ e = userEntry db u.
Proof.
  unfold LiveStats.buildReport. simpl. rewrite scanUsers_spec. simpl.
  rewrite (jsSort_perm ul_totalWatchTime), list_elem_of_fmap.
  split.
  - intros (u & -> & Hu). apply list_elem_of_filter in Hu as [Hr Hu]. by exists u.
  - intros (u & Hu & Hr & ->). exists u. split; [done|]. by apply list_elem_of_filter.
Qed.

Lemma top_ranked_unique {A} (n : nat) (key : A → Z) (input r1 r2 : list A) :
  TopRanked n key input r1 → TopRanked n key input r2 → r1 = r2.
Proof.
  intros (o1 & H1 & ->) (o2 & H2 & ->). by rewrite (ranked_unique key input o1 o2).
Qed.

Lemma report_hot_top db allUsers now :
  TopRanked 10 hc_totalWatchTime (hotTotals (scannedSessions db allUsers))
    (gs_hotChannels (LiveStats.buildReport db allUsers now)).
Proof.
  unfold LiveStats.buildReport. simpl. rewrite scanUsers_spec. simpl.
  apply hotChannels_top.
Qed.

(** C8.  Every entry of the report belongs to a user of the directory, and
    its favorite channels are the first 5 of that user's per-channel sums
    of duration and count, ranked by descending watch time with ties in
    order of first appearance in the session list; every user that is not
    skipped has an entry; the hot channels are the first 10 of the
    per-channel sums over every scanned session, ranked the same way. *)
Theorem report_rankings (db : Store) (allUsers : list string) (now : Z) :
  let report := LiveStats.buildReport db allUsers now in
  (∀ e, e ∈ gs_userStats report →
     ul_username e ∈ allUsers
     ∧ TopRanked 5 fc_watchTime (channelTotals (sessionsOf db (ul_username e)))
         (ul_favoriteChannels e))
  ∧ (∀ u, u ∈ allUsers → reported db u →
     ∃ e, e ∈ gs_userStats report ∧ ul_username e = u)
  ∧ TopRanked 10 hc_totalWatchTime (hotTotals (scannedSessions db allUsers))
      (gs_hotChannels report).
Proof.
  intros report. split; [|split].
  - intros e He. apply report_entries in He as (u & Hu & _ & ->). simpl.
    split; [done|]. apply favoriteChannels_top.
  - intros u Hu Hr. exists (userEntry db u). split; [|done].
    apply report_entries. by exists u.
  - apply report_hot_top.
Qed.

Lemma report_rankings_witness :
  let report := LiveStats.buildReport rankStore ["alice"; "bob"] 0 in
  (∃ e, e ∈ gs_userStats report ∧ ul_username e = "alice"
        ∧ ((λ c, (fc_channelId c, fc_watchTime c, fc_watchCount c))
             <$> ul_favoriteChannels e)
          = [("c1", 150, 2); ("c2", 60, 1)])
  ∧ ((λ c, (hc_channelId c, hc_totalWatchTime c, hc_totalUsers c)) <$> gs_hotChannels report)
    = [("c2", 210, 2); ("c1", 150, 1)]
  ∧ TopRanked 10 hc_totalWatchTime (hotTotals (scannedSessions rankStore ["alice"; "bob"]))
      (gs_hotChannels report).
Proof.
  intros report.
  destruct (report_rankings rankStore ["alice"; "bob"] 0) as (Hfav & Hall & Hhot).
  split; [|split; [reflexivity|exact Hhot]].
  destruct (Hall "alice") as (e & He & Hname).
  - apply elem_of_cons. by left.
  - intros [Hnone _]. vm_compute in Hnone. discriminate Hnone.
  - exists e. split; [exact He|]. split; [exact Hname|].
    destruct (Hfav e He) as [_ Htop]. rewrite Hname in Htop.
    rewrite (top_ranked_unique _ _ _ _ _ Htop
               (favoriteChannels_top (sessionsOf rankStore "alice"))).
    reflexivity.
Defined.

(** ** The report: a user without a UserStats record *)

Lemma channelTotals_nonempty (l : list LiveWatchSession) : l ≠ [] → channelTotals l ≠ [].
Proof. destruct l as [|s l]; [done|]. intros _. unfold channelTotals. simpl. done. Qed.

Lemma top_ranked_nonempty {A} (n : nat) (key : A → Z) (input result : list A) :
  TopRanked (S n) key input result → input ≠ [] → result ≠ [].
Proof.
  intros (ranked & (Hp & _) & ->) Hne.
  destruct ranked as [|a ranked]; [|done].
  by apply Permutation_nil_l in Hp.
Qed.

(** C10.  A user of the directory with no UserStats record but a non-empty
    session list has an entry in the report; the entry reads 0 for
    totalWatchTime, totalSessions and lastWatchTime, and the user adds 0 to
    the report's totals, while the favorite channels of the entry are
    ranked from the list (and are not empty) and every session of the list
    is among the scanned sessions from which the hot channels are ranked.
    So the report's totalWatchTime can be strictly below the summed
    duration of the sessions it scanned. *)
Theorem absent_stats_user_reported (db : Store) (allUsers : list string) (now : Z)
    (u : string) :
  let report := LiveStats.buildReport db allUsers now in
  u ∈ allUsers → stats db !! u = None → sessionsOf db u ≠ [] →
  (∃ e, e ∈ gs_userStats report ∧ ul_username e = u
        ∧ ul_totalWatchTime e = 0 ∧ ul_totalSessions e = 0 ∧ ul_lastWatchTime e = 0
        ∧ TopRanked 5 fc_watchTime (channelTotals (sessionsOf db u)) (ul_favoriteChannels e)
        ∧ ul_favoriteChannels e ≠ [])
  ∧ gs_totalWatchTime report = sumOver (totalWatchTimeOf db) allUsers
  ∧ gs_totalSessions report = sumOver (totalSessionsOf db) allUsers
  ∧ totalWatchTimeOf db u = 0 ∧ totalSessionsOf db u = 0
  ∧ (∀ s, s ∈ sessionsOf db u → (u, s) ∈ scannedSessions db allUsers)
  ∧ TopRanked 10 hc_totalWatchTime (hotTotals (scannedSessions db allUsers))
      (gs_hotChannels report)
  ∧ ∃ db' allUsers' now',
      gs_totalWatchTime (LiveStats.buildReport db' allUsers' now')
      < sumDurations ((scannedSessions db' allUsers').*2).
Proof.
  intros report Hu Hnone Hsess.
  assert (Hr : reported db u).
  { intros [_ Hlen]. by apply nil_length_inv in Hlen. }
  assert (Htop := favoriteChannels_top (sessionsOf db u)).
  split_and!.
  - exists (userEntry db u). split; [apply report_entries; by exists u|].
    unfold userEntry, totalWatchTimeOf, totalSessionsOf. simpl. rewrite Hnone. simpl.
    split_and!; try done.
    eapply top_ranked_nonempty; [exact Htop|]. by apply channelTotals_nonempty.
  - unfold report, LiveStats.buildReport. simpl. by rewrite scanUsers_spec.
  - unfold report, LiveStats.buildReport. simpl. by rewrite scanUsers_spec.
  - unfold totalWatchTimeOf. by rewrite Hnone.
  - unfold totalSessionsOf. by rewrite Hnone.
  - intros s Hs. unfold scannedSessions. apply list_elem_of_bind.
    exists u. split; [|done]. apply list_elem_of_fmap. by exists s.
  - apply report_hot_top.
  - exists sessionsOnly, ["alice"], 0. vm_compute. reflexivity.
Qed.

Lemma absent_stats_user_reported_witness :
  let report := LiveStats.buildReport sessionsOnly ["alice"] 0 in
  (∃ e, e ∈ gs_userStats report ∧ ul_username e = "alice" ∧ ul_totalWatchTime e = 0
        ∧ ul_favoriteChannels e ≠ [])
  ∧ gs_totalWatchTime report = 0
  ∧ sumDurations ((scannedSessions sessionsOnly ["alice"]).*2) = 120.
Proof.
  intros report.
  destruct (absent_stats_user_reported sessionsOnly ["alice"] 0 "alice")
    as ((e & He & Hname & Hz & _ & _ & _ & Hfav) & Htotal & _).
  - apply elem_of_cons. by left.
  - reflexivity.
  - vm_compute. discriminate.
  - split; [by exists e|]. split; [|reflexivity].
    etrans; [exact Htotal|]. reflexivity.
Defined.

(** * Further properties of the handlers *)

(** ** Requests that are refused *)

Lemma POST_refused_unchanged username body now clock db :
  (Heartbeat.POST username body now clock db).1 ≠ Success →
  (Heartbeat.POST username body now clock db).2 = db.
Proof.
  unfold Heartbeat.POST. destruct (_ || _); [done|].
  destruct (watching db !! _) as [lastState|]; [|done].
  by case_bool_decide.
Qed.

Lemma end_POST_refused_unchanged username sessionId now clock db :
  (HeartbeatEnd.POST username sessionId now clock db).1 ≠ Success →
  (HeartbeatEnd.POST username sessionId now clock db).2 = db.
Proof.
  unfold HeartbeatEnd.POST. destruct (Heartbeat.falsy sessionId); [done|].
  by destruct (watching db !! _).
Qed.

(** X1.  A request that is not answered with status 200 (local-storage
    mode, no username, missing fields, no administrator rights) leaves the
    whole store as it was; the report handler then returns no report.  The
    storage-mode test comes first: in local-storage mode, or with the
    variable unset or empty, the answer is 400 whoever asks. *)
Theorem refused_requests_change_nothing
    (storageEnv ownerEnv : option string) (authInfo : option AuthInfo)
    (body : LiveHeartbeatRequest) (sessionId : string) (users : list UserEntry)
    (refresh : option string) (now clock : Z) (db : Store) :
  let hb := Route.heartbeatPOST storageEnv authInfo body now clock db in
  let en := Route.heartbeatEndPOST storageEnv authInfo sessionId now clock db in
  let st := Route.liveStatsGET storageEnv ownerEnv authInfo users refresh now db in
  (hb.1 ≠ Http200 → hb.2 = db)
  ∧ (en.1 ≠ Http200 → en.2 = db)
  ∧ (st.1.1 ≠ Http200 → st.2 = db ∧ st.1.2 = None)
  ∧ (storageEnv = None ∨ storageEnv = Some EmptyString ∨ storageEnv = Some "localstorage" →
     hb.1 = Http400 ∧ en.1 = Http400 ∧ st.1.1 = Http400).
Proof.
  intros hb en st. unfold hb, en, st, Route.heartbeatPOST, Route.heartbeatEndPOST,
    Route.liveStatsGET.
  split_and!.
  - case_bool_decide; [done|]. destruct authInfo as [info|]; [|done].
    destruct (Heartbeat.falsy (ai_username info)); [done|]. simpl.
    intros Hs. apply POST_refused_unchanged.
    by destruct (Heartbeat.POST (ai_username info) body now clock db).1.
  - case_bool_decide; [done|]. destruct authInfo as [info|]; [|done].
    destruct (Heartbeat.falsy (ai_username info)); [done|]. simpl.
    intros Hs. apply end_POST_refused_unchanged.
    by destruct (HeartbeatEnd.POST (ai_username info) sessionId now clock db).1.
  - case_bool_decide; [done|]. destruct authInfo as [info|]; [|done].
    destruct (Heartbeat.falsy (ai_username info)); [done|].
    by destruct (Route.isAdmin ownerEnv users (ai_username info)).
  - intros Hmode.
    assert (Hl : Route.storageType storageEnv = "localstorage")
      by (by destruct Hmode as [->|[->| ->]]).
    by rewrite !bool_decide_eq_true_2 by done.
Qed.

Lemma refused_requests_change_nothing_witness :
  (Route.heartbeatPOST (Some "redis") (Some (mkAuthInfo "")) newsBody 0 0 watchingNews).2
  = watchingNews
  ∧ (Route.liveStatsGET (Some "redis") None (Some (mkAuthInfo "bob")) adminDirectory
       (Some "true") 0 rankStore).2 = rankStore
  ∧ (Route.heartbeatEndPOST None (Some (mkAuthInfo "alice")) "tab1" 0 0 watchingNews).1
    = Http400.
Proof.
  pose proof (refused_requests_change_nothing (Some "redis") None (Some (mkAuthInfo ""))
                newsBody "tab1" adminDirectory None 0 0 watchingNews) as (H1 & _).
  pose proof (refused_requests_change_nothing (Some "redis") None (Some (mkAuthInfo "bob"))
                newsBody "tab1" adminDirectory (Some "true") 0 0 rankStore)
    as (_ & _ & H3 & _).
  pose proof (refused_requests_change_nothing None None (Some (mkAuthInfo "alice"))
                newsBody "tab1" adminDirectory None 0 0 watchingNews) as (_ & _ & _ & H4).
  split; [apply H1; discriminate|]. split; [apply H3; discriminate|].
  apply H4. by left.
Defined.

(** ** What a successful heartbeat leaves behind *)

(** X2.  After a heartbeat answered with success, the key of (user, tab)
    holds a state for the incoming channelId whose lastHeartbeat is [now]:
    either a fresh one (count 1, startTime [now]) or the previous state of
    the same channel with the count raised by one and startTime kept.  No
    other watch key and not the cached report is touched. *)
Theorem heartbeat_success_state username body now clock db :
  let key := watchKey username (hb_sessionId body) in
  let out := Heartbeat.POST username body now clock db in
  out.1 = Success →
  (∃ st, watching out.2 !! key = Some st
         ∧ ws_channelId st = hb_channelId body
         ∧ ws_lastHeartbeat st = now
         ∧ ((ws_heartbeatCount st = 1 ∧ ws_startTime st = now)
            ∨ ∃ last, watching db !! key = Some last
                      ∧ ws_channelId last = hb_channelId body
                      ∧ ws_heartbeatCount st = ws_heartbeatCount last + 1
                      ∧ ws_startTime st = ws_startTime last))
  ∧ (∀ k, k ≠ key → watching out.2 !! k = watching db !! k)
  ∧ globalStats out.2 = globalStats db.
Proof.
  intros key out. unfold out, Heartbeat.POST. fold key.
  destruct (_ || _); [done|]. intros _.
  destruct (watching db !! key) as [lastState|] eqn:Hk.
  - case_bool_decide as Hsw; simpl.
    + split_and!.
      * eexists. rewrite lookup_insert_eq. split; [done|]. simpl. split_and!; try done.
        by left.
      * intros k Hne. rewrite lookup_insert_ne by done. by rewrite settle_watching.
      * destruct (decide (inWindow (ws_heartbeatCount lastState
                                    * Heartbeat.HEARTBEAT_INTERVAL))) as [Hw|Hw].
        -- by rewrite settle_in_window.
        -- by rewrite settle_out_of_window.
    + split_and!.
      * eexists. rewrite lookup_insert_eq. split; [done|]. simpl. split_and!; try done.
        right. by exists lastState.
      * intros k Hne. by rewrite lookup_insert_ne.
      * done.
  - simpl. split_and!.
    + eexists. rewrite lookup_insert_eq. split; [done|]. simpl. split_and!; try done.
      by left.
    + intros k Hne. by rewrite lookup_insert_ne.
    + done.
Qed.

Lemma heartbeat_success_state_witness :
  (ws_heartbeatCount
     <$> watching (Heartbeat.POST "alice" newsBody 120000 120000 watchingNews).2
         !! watchKey "alice" "tab1") = Some 5.
Proof.
  destruct (heartbeat_success_state "alice" newsBody 120000 120000 watchingNews)
    as ((st & Hst & _ & _ & Hcase) & _); [reflexivity|].
  etrans; [exact (f_equal (fmap ws_heartbeatCount) Hst)|]. simpl. f_equal.
  destruct Hcase as [[_ Hstart]|(last & Hlast & _ & Hc & _)].
  - exfalso. vm_compute in Hst. injection Hst as <-. discriminate Hstart.
  - rewrite Hc. vm_compute in Hlast. by injection Hlast as <-.
Defined.

(** ** Tabs and keys *)

(** X3.  Requests and expiries on other keys never change the watch state
    stored under a key: whatever else happens in between, the state of a
    tab is the one its own last request left. *)
Theorem other_keys_leave_state (k : string) (trace : list Event) (db : Store) :
  Forall (λ ev, eventKey ev ≠ k) trace →
  watching (run trace db) !! k = watching db !! k.
Proof.
  intros Htrace. revert db. induction Htrace as [|ev trace Hev _ IH]; intros db; [done|].
  unfold run. simpl. fold (run trace (step db ev)).
  rewrite IH. by apply step_other_key.
Qed.

Lemma other_keys_leave_state_witness :
  watching (run [ EvHeartbeat "bob" sportBody 10 10; EvEndWatch "bob" "tab1" 20 20;
                  EvExpire (watchKey "carol" "tab1") ] watchingNews)
    !! watchKey "alice" "tab1"
  = Some (newsState 4).
Proof.
  rewrite (other_keys_leave_state (watchKey "alice" "tab1")); [reflexivity|].
  repeat (apply Forall_cons; split; [intros Hk; by vm_compute in Hk|]).
  apply Forall_nil_2.
Defined.

Lemma watchKey_nil_l (s : string) : watchKey EmptyString s = String ":" s.
Proof. reflexivity. Qed.

Lemma watchKey_cons (c : ascii) (u s : string) :
  watchKey (String c u) s = String c (watchKey u s).
Proof. reflexivity. Qed.

(** X4.  Two (username, sessionId) pairs get the same watch key only if
    they are the same pair, provided neither username contains a colon.
    Without that proviso keys do collide: user [a] in tab [b:c] and user
    [a:b] in tab [c] share one key. *)
Theorem watchKey_injective (u u' s s' : string) :
  noColon u → noColon u' →
  watchKey u s = watchKey u' s' →
  (u = u' ∧ s = s') ∧ watchKey "a" "b:c" = watchKey "a:b" "c".
Proof.
  intros Hu Hu' Hk. split; [|reflexivity].
  revert u' Hu' Hk. induction u as [|c u IH]; intros [|c' u'] Hu' Hk.
  - rewrite !watchKey_nil_l in Hk. by simplify_eq.
  - rewrite watchKey_nil_l, watchKey_cons in Hk. destruct Hu' as [Hc _].
    by simplify_eq.
  - rewrite watchKey_nil_l, watchKey_cons in Hk. destruct Hu as [Hc _].
    by simplify_eq.
  - rewrite !watchKey_cons in Hk. destruct Hu as [_ Hu], Hu' as [_ Hu'].
    injection Hk as -> Hk. destruct (IH Hu u' Hu' Hk) as [-> ->]. done.
Qed.

Lemma watchKey_injective_witness :
  (String.append "ali" "ce" = "alice" ∧ String.append "tab" "1" = "tab1")
  ∧ watchKey "a" "b:c" = watchKey "a:b" "c".
Proof.
  refine (watchKey_injective (String.append "ali" "ce") "alice"
            (String.append "tab" "1") "tab1" _ _ _).
  - simpl. by split_and!.
  - simpl. by split_and!.
  - reflexivity.
Defined.

(** ** What a settlement leaves alone *)

(** X5.  A settlement writes under at most four keys: it never changes a
    watch state or the cached report, another user's session list or
    totals, the record of a day other than the one of its clock reading, or
    the record of a channel other than the settled one. *)
Theorem settlement_frame username state endTime clock db :
  let db' := Heartbeat.settleWatchSession username state endTime clock db in
  watching db' = watching db
  ∧ globalStats db' = globalStats db
  ∧ (∀ u, u ≠ username → sessions db' !! u = sessions db !! u ∧ stats db' !! u = stats db !! u)
  ∧ (∀ day, day ≠ toISODate clock → daily db' !! day = daily db !! day)
  ∧ (∀ cid, cid ≠ ws_channelId state → channel db' !! cid = channel db !! cid).
Proof.
  intros db'. unfold db'.
  destruct (decide (inWindow (ws_heartbeatCount state * Heartbeat.HEARTBEAT_INTERVAL)))
    as [Hw|Hw]; [|by rewrite settle_out_of_window].
  rewrite settle_in_window by exact Hw. simpl. split_and!; try done.
  - intros u Hu. by rewrite !lookup_insert_ne.
  - intros day Hday. by rewrite lookup_insert_ne.
  - intros cid Hcid. by rewrite lookup_insert_ne.
Qed.

Lemma settlement_frame_witness :
  let db' := Heartbeat.settleWatchSession "bob" (newsState 2) 500 500 rankStore in
  sessions db' !! "alice" = sessions rankStore !! "alice"
  ∧ channel db' !! "c2" = channel rankStore !! "c2".
Proof.
  destruct (settlement_frame "bob" (newsState 2) 500 500 rankStore)
    as (_ & _ & Hu & _ & Hc).
  split; [by apply Hu|by apply Hc].
Defined.

(** ** Watch time across channel switches *)

Lemma tabBeat_step (u sid : string) (db : Store) (ev : Event) (st : LiveWatchState) :
  tabBeat u sid ev →
  watching db !! watchKey u sid = Some st →
  1 ≤ ws_heartbeatCount st ≤ 960 →
  ∃ st', watching (step db ev) !! watchKey u sid = Some st'
         ∧ 1 ≤ ws_heartbeatCount st' ≤ ws_heartbeatCount st + 1
         ∧ totalWatchTimeOf (step db ev) u + 30 * ws_heartbeatCount st'
           = totalWatchTimeOf db u + 30 * ws_heartbeatCount st + 30.
Proof.
  destruct ev as [u' body now clock| |]; simpl; [|done..].
  intros (-> & <- & V1 & V2 & V3 & V4) Hst Hc.
  unfold Heartbeat.POST. rewrite valid_body_tests by assumption. rewrite Hst.
  case_bool_decide as Hsw; simpl.
  - assert (Hw : inWindow (ws_heartbeatCount st * Heartbeat.HEARTBEAT_INTERVAL)).
    { unfold inWindow, Heartbeat.HEARTBEAT_INTERVAL, Heartbeat.MIN_SESSION_DURATION,
        Heartbeat.MAX_SESSION_DURATION. lia. }
    eexists. rewrite lookup_insert_eq. split; [done|]. simpl. split; [lia|].
    change (totalWatchTimeOf (setWatching ?k ?v ?d) u) with (totalWatchTimeOf d u).
    rewrite settle_totalWatchTimeOf_same by exact Hw.
    unfold Heartbeat.HEARTBEAT_INTERVAL. lia.
  - eexists. rewrite lookup_insert_eq. split; [done|]. simpl. split; [lia|].
    change (totalWatchTimeOf (setWatching ?k ?v ?d) u) with (totalWatchTimeOf d u).
    lia.
Qed.

Lemma tabBeat_run (u sid : string) (trace : list Event) :
  Forall (tabBeat u sid) trace →
  ∀ db st,
    watching db !! watchKey u sid = Some st →
    1 ≤ ws_heartbeatCount st →
    ws_heartbeatCount st + Z.of_nat (length trace) ≤ 960 →
    ∃ st', watching (run trace db) !! watchKey u sid = Some st'
           ∧ 1 ≤ ws_heartbeatCount st' ≤ 960
           ∧ totalWatchTimeOf (run trace db) u + 30 * ws_heartbeatCount st'
             = totalWatchTimeOf db u + 30 * ws_heartbeatCount st
               + 30 * Z.of_nat (length trace).
Proof.
  induction 1 as [|ev trace Hev _ IH]; intros db st Hst H1 Hlen.
  - exists st. simpl in *. split; [done|]. split; lia.
  - rewrite length_cons, Nat2Z.inj_succ in Hlen.
    destruct (tabBeat_step u sid db ev st Hev Hst) as (st1 & Hst1 & Hc1 & Ht1); [lia|].
    destruct (IH (step db ev) st1 Hst1) as (st' & Hst' & Hc' & Ht'); [lia|lia|].
    exists st'. unfold run. simpl fold_left. fold (run trace (step db ev)).
    split; [done|]. split; [done|].
    rewrite length_cons, Nat2Z.inj_succ. lia.
Qed.

(** X6.  Watch time survives channel switches: when one tab sends n
    well-formed heartbeats (1 ≤ n ≤ 960), switching channels as often as it
    likes, and then ends, the user's totalWatchTime has grown by exactly
    [30 * n] seconds and the tab's watch state is gone. *)
Theorem switches_conserve_watch_time (u sid : string) (trace : list Event)
    (now clock : Z) (db : Store) :
  let n := Z.of_nat (length trace) in
  let db' := run (trace ++ [EvEndWatch u sid now clock]) db in
  Forall (tabBeat u sid) trace →
  watching db !! watchKey u sid = None →
  1 ≤ n ≤ 960 →
  totalWatchTimeOf db' u = totalWatchTimeOf db u + Heartbeat.HEARTBEAT_INTERVAL * n
  ∧ watching db' !! watchKey u sid = None.
Proof.
  intros n db' Htrace Hnone Hn. unfold db', n in *. clear db' n.
  destruct trace as [|ev trace]; [simpl in Hn; lia|].
  apply Forall_cons in Htrace as [Hev Htrace].
  rewrite length_cons, Nat2Z.inj_succ in Hn |- *.
  assert (Hsid : sid ≠ EmptyString).
  { destruct ev; simpl in Hev; try done. by destruct Hev as (_ & _ & ? & _). }
  assert (Hfirst : ∃ st, watching (step db ev) !! watchKey u sid = Some st
             ∧ ws_heartbeatCount st = 1
             ∧ totalWatchTimeOf (step db ev) u = totalWatchTimeOf db u).
  { destruct ev as [u' body now' clock'| |]; simpl in Hev; [|done..].
    destruct Hev as (-> & <- & V1 & V2 & V3 & V4). simpl.
    unfold Heartbeat.POST. rewrite valid_body_tests by assumption. rewrite Hnone.
    simpl. rewrite lookup_insert_eq. by eexists. }
  destruct Hfirst as (st1 & Hst1 & Hc1 & Ht1).
  destruct (tabBeat_run u sid trace Htrace (step db ev) st1 Hst1)
    as (st' & Hst' & Hc' & Ht'); [lia|lia|].
  unfold run. rewrite fold_left_app.
  change (fold_left step (ev :: trace) db) with (run trace (step db ev)).
  set (d := run trace (step db ev)) in *.
  cbn [fold_left step]. unfold HeartbeatEnd.POST.
  rewrite (bool_decide_eq_false_2 _ Hsid : Heartbeat.falsy sid = false).
  rewrite Hst'. simpl. rewrite HeartbeatEnd_settle_same. split.
  - change (totalWatchTimeOf (deleteWatching ?k ?v) u) with (totalWatchTimeOf v u).
    rewrite settle_totalWatchTimeOf_same.
    + unfold Heartbeat.HEARTBEAT_INTERVAL. lia.
    + unfold inWindow, Heartbeat.HEARTBEAT_INTERVAL, Heartbeat.MIN_SESSION_DURATION,
        Heartbeat.MAX_SESSION_DURATION. lia.
  - apply lookup_delete_eq.
Qed.

Lemma switches_conserve_watch_time_witness :
  let db' := run (zapTrace ++ [EvEndWatch "alice" "tab1" 160000 160000]) emptyStore in
  totalWatchTimeOf db' "alice" = 180
  ∧ (se_duration <$> sessionsOf db' "alice") = [30; 90; 60].
Proof.
  destruct (switches_conserve_watch_time "alice" "tab1" zapTrace 160000 160000 emptyStore)
    as [Ht _].
  - unfold zapTrace. repeat (apply Forall_cons; split; [simpl; by split_and!|]).
    apply Forall_nil_2.
  - reflexivity.
  - vm_compute. split; discriminate.
  - split; [exact Ht|reflexivity].
Defined.

(** ** Invariants of the aggregates *)

Lemma mapSum_empty {V} (f : V → Z) : mapSum f ∅ = 0.
Proof. unfold mapSum. by rewrite map_fold_empty. Qed.

Lemma mapSum_insert {V} (f : V → Z) (m : gmap string V) (k : string) (v : V) :
  mapSum f (<[k:=v]> m) = mapSum f m - from_option f 0 (m !! k) + f v.
Proof.
  assert (Hnew : ∀ m' : gmap string V, m' !! k = None →
            mapSum f (<[k:=v]> m') = f v + mapSum f m').
  { intros m' Hk. unfold mapSum. rewrite map_fold_insert_L; [done| |done].
    intros. lia. }
  destruct (m !! k) as [x|] eqn:Hk; simpl.
  - rewrite <- insert_delete_eq, Hnew by apply lookup_delete_eq.
    unfold mapSum at 2. rewrite (map_fold_delete_L _ _ k x m); [|intros; lia|done].
    fold (mapSum f (delete k m)). lia.
  - rewrite Hnew by done. lia.
Qed.

Lemma addUser_facts (x : string) (l : list string) :
  NoDup l →
  NoDup (Heartbeat.addUser x l)
  ∧ (1 ≤ length (Heartbeat.addUser x l))%nat
  ∧ (length (Heartbeat.addUser x l) ≤ S (length l))%nat
  ∧ ∀ y, y ∈ Heartbeat.addUser x l ↔ y = x ∨ y ∈ l.
Proof.
  intros Hnd. destruct (setAdd_spec x l Hnd) as [H1 H2].
  split; [exact H1|]. split; [|split; [|exact H2]].
  - destruct (Heartbeat.addUser x l) as [|y l'] eqn:Hl; [|simpl; lia].
    exfalso. assert (Hx : x ∈ Heartbeat.addUser x l) by (apply H2; by left).
    rewrite Hl in Hx. by apply elem_of_nil in Hx.
  - unfold Heartbeat.addUser. case_bool_decide; [lia|].
    rewrite length_app. simpl. lia.
Qed.

Section SettleKeeps.
Context (username : string) (state : LiveWatchState) (endTime clock : Z) (db : Store).
Let duration := ws_heartbeatCount state * Heartbeat.HEARTBEAT_INTERVAL.
Let db' := Heartbeat.settleWatchSession username state endTime clock db.

Lemma settle_stats_grow u : is_Some (stats db !! u) → is_Some (stats db' !! u).
Proof.
  unfold db'.
  destruct (decide (inWindow (ws_heartbeatCount state * Heartbeat.HEARTBEAT_INTERVAL)))
    as [Hw|Hw]; [|by rewrite settle_out_of_window].
  rewrite settle_in_window by exact Hw. simpl. rewrite lookup_insert.
  by case_decide.
Qed.

Lemma settle_SessionsOK :
  1 ≤ ws_heartbeatCount state → ws_channelId state ≠ EmptyString →
  ws_channelName state ≠ EmptyString → ws_sourceKey state ≠ EmptyString →
  SessionsOK db → SessionsOK db'.
Proof.
  intros H1 H2 H3 H4 Hdb. unfold db'.
  destruct (decide (inWindow (ws_heartbeatCount state * Heartbeat.HEARTBEAT_INTERVAL)))
    as [Hw|Hw]; [|by rewrite settle_out_of_window].
  intros u s Hs. destruct (decide (u = username)) as [->|Hu].
  - rewrite settle_sessionsOf_same in Hs by exact Hw.
    apply elem_of_cons in Hs as [->|Hs].
    + simpl. unfold inWindow, Heartbeat.HEARTBEAT_INTERVAL,
        Heartbeat.MAX_SESSION_DURATION in Hw. split_and!; try done; lia.
    + apply (Hdb username). eapply subseteq_take. exact Hs.
  - rewrite settle_sessionsOf_other in Hs by done. by apply (Hdb u).
Qed.

Lemma settle_StatsOK : StatsOK db → StatsOK db'.
Proof.
  intros Hdb. unfold db'.
  destruct (decide (inWindow (ws_heartbeatCount state * Heartbeat.HEARTBEAT_INTERVAL)))
    as [Hw|Hw]; [|by rewrite settle_out_of_window].
  intros u. specialize (Hdb u). rewrite settle_in_window by exact Hw. simpl.
  rewrite !lookup_insert. case_decide as Hu; [|exact Hdb]. subst u.
  rewrite pushSession_eq. split; [by eexists _, _|].
  unfold totalWatchTimeOf, totalSessionsOf. simpl.
  unfold inWindow in Hw. fold duration in Hw |- *.
  destruct (stats db !! username) as [st|]; simpl.
  - destruct Hdb as (_ & Hn & Hlo & Hhi). split_and!; lia.
  - unfold Heartbeat.MIN_SESSION_DURATION, Heartbeat.MAX_SESSION_DURATION in *.
    split_and!; lia.
Qed.

Lemma settle_DailyOK : DailyOK db → DailyOK db'.
Proof.
  intros Hdb.
  destruct (decide (inWindow (ws_heartbeatCount state * Heartbeat.HEARTBEAT_INTERVAL)))
    as [Hw|Hw]; [unfold db'|by unfold db'; rewrite settle_out_of_window].
  intros day d Hd.
  assert (Hgrow := settle_stats_grow). unfold db' in Hgrow.
  assert (Hself : is_Some (stats (Heartbeat.settleWatchSession username state endTime
                                    clock db) !! username)).
  { rewrite settle_in_window by exact Hw. simpl. by rewrite lookup_insert_eq. }
  rewrite settle_in_window in Hd by exact Hw. simpl in Hd.
  rewrite lookup_insert in Hd. case_decide as Hday.
  - injection Hd as <-. simpl. unfold dailyWatchTimeOf.
    unfold inWindow in Hw. fold duration in Hw |- *.
    destruct (daily db !! toISODate clock) as [d0|] eqn:Hd0; simpl.
    + destruct (Hdb _ _ Hd0) as (Hnd & Hlen & Hle & Hlo & Hhi & Hst).
      destruct (addUser_facts username (ds_users d0) Hnd) as (A1 & A2 & A3 & A4).
      split_and!; try done; try lia.
      intros u Hu. apply A4 in Hu as [->|Hu]; [done|]. by apply Hgrow, Hst.
    + destruct (addUser_facts username [] (NoDup_nil_2)) as (A1 & A2 & A3 & A4).
      unfold Heartbeat.MIN_SESSION_DURATION, Heartbeat.MAX_SESSION_DURATION in *.
      simpl in A3. split_and!; try done; try lia.
      intros u Hu. apply A4 in Hu as [->|Hu]; [done|]. by apply elem_of_nil in Hu.
  - destruct (Hdb _ _ Hd) as (Hnd & Hlen & Hle & Hlo & Hhi & Hst).
    split_and!; try done. intros u Hu. by apply Hgrow, Hst.
Qed.

Lemma settle_ChannelOK : ChannelOK db → ChannelOK db'.
Proof.
  intros Hdb.
  destruct (decide (inWindow (ws_heartbeatCount state * Heartbeat.HEARTBEAT_INTERVAL)))
    as [Hw|Hw]; [unfold db'|by unfold db'; rewrite settle_out_of_window].
  intros cid c Hc.
  assert (Hgrow := settle_stats_grow). unfold db' in Hgrow.
  assert (Hself : is_Some (stats (Heartbeat.settleWatchSession username state endTime
                                    clock db) !! username)).
  { rewrite settle_in_window by exact Hw. simpl. by rewrite lookup_insert_eq. }
  rewrite settle_in_window in Hc by exact Hw. simpl in Hc.
  rewrite lookup_insert in Hc. case_decide as Hcid.
  - injection Hc as <-. subst cid. simpl. unfold channelWatchTimeOf.
    unfold inWindow in Hw. fold duration in Hw |- *.
    destruct (channel db !! ws_channelId state) as [c0|] eqn:Hc0; simpl.
    + destruct (Hdb _ _ Hc0) as (Hid & Hnd & Hlen & Hle & Hlo & Hhi & Hst).
      destruct (addUser_facts username (cs_users c0) Hnd) as (A1 & A2 & A3 & A4).
      split_and!; try done; try lia.
      intros u Hu. apply A4 in Hu as [->|Hu]; [done|]. by apply Hgrow, Hst.
    + destruct (addUser_facts username [] (NoDup_nil_2)) as (A1 & A2 & A3 & A4).
      unfold Heartbeat.MIN_SESSION_DURATION, Heartbeat.MAX_SESSION_DURATION in *.
      simpl in A3. split_and!; try done; try lia.
      intros u Hu. apply A4 in Hu as [->|Hu]; [done|]. by apply elem_of_nil in Hu.
  - destruct (Hdb _ _ Hc) as (Hid & Hnd & Hlen & Hle & Hlo & Hhi & Hst).
    split_and!; try done. intros u Hu. by apply Hgrow, Hst.
Qed.

Lemma settle_Balanced : Balanced db → Balanced db'.
Proof.
  intros (B1 & B2 & B3 & B4). unfold db'.
  destruct (decide (inWindow (ws_heartbeatCount state * Heartbeat.HEARTBEAT_INTERVAL)))
    as [Hw|Hw]; [|by rewrite settle_out_of_window].
  rewrite settle_in_window by exact Hw. unfold Balanced. simpl.
  rewrite !mapSum_insert. simpl.
  unfold totalWatchTimeOf, totalSessionsOf, dailyWatchTimeOf, channelWatchTimeOf.
  split_and!; lia.
Qed.
End SettleKeeps.

Lemma newState_valid body now :
  hb_channelId body ≠ EmptyString → hb_channelName body ≠ EmptyString →
  hb_sourceKey body ≠ EmptyString →
  1 ≤ ws_heartbeatCount (Heartbeat.newState body now)
  ∧ ws_channelId (Heartbeat.newState body now) ≠ EmptyString
  ∧ ws_channelName (Heartbeat.newState body now) ≠ EmptyString
  ∧ ws_sourceKey (Heartbeat.newState body now) ≠ EmptyString.
Proof. intros. simpl. split_and!; [lia|done..]. Qed.

Lemma valid_body_fields (body : LiveHeartbeatRequest) :
  Heartbeat.falsy (hb_sessionId body) || Heartbeat.falsy (hb_channelId body)
  || Heartbeat.falsy (hb_channelName body) || Heartbeat.falsy (hb_sourceKey body) = false →
  hb_sessionId body ≠ EmptyString ∧ hb_channelId body ≠ EmptyString
  ∧ hb_channelName body ≠ EmptyString ∧ hb_sourceKey body ≠ EmptyString.
Proof.
  unfold Heartbeat.falsy. intros Hv.
  repeat (apply orb_false_elim in Hv as [Hv ?]).
  split_and!; eapply bool_decide_eq_false_1; eassumption.
Qed.

Lemma step_keeps_books db ev :
  WatchOK db ∧ SessionsOK db ∧ StatsOK db ∧ DailyOK db ∧ ChannelOK db ∧ Balanced db →
  WatchOK (step db ev) ∧ SessionsOK (step db ev) ∧ StatsOK (step db ev)
  ∧ DailyOK (step db ev) ∧ ChannelOK (step db ev) ∧ Balanced (step db ev).
Proof.
  intros (HW & HS & HT & HD & HC & HB).
  destruct ev as [u body now clock|u sid now clock|key]; simpl.
  - unfold Heartbeat.POST.
    destruct (_ || _) eqn:Hv; [done|].
    apply valid_body_fields in Hv as (V1 & V2 & V3 & V4).
    destruct (watching db !! watchKey u (hb_sessionId body)) as [lastState|] eqn:Hk.
    + destruct (HW _ _ Hk) as (L1 & L2 & L3 & L4).
      case_bool_decide as Hsw; simpl.
      * split_and!.
        -- intros k st. simpl. rewrite lookup_insert, settle_watching.
           case_decide; [|by apply HW]. intros [= <-]. by apply newState_valid.
        -- by apply (settle_SessionsOK u lastState now clock db).
        -- by apply (settle_StatsOK u lastState now clock db).
        -- by apply (settle_DailyOK u lastState now clock db).
        -- by apply (settle_ChannelOK u lastState now clock db).
        -- by apply (settle_Balanced u lastState now clock db).
      * split_and!; try done.
        intros k st. simpl. rewrite lookup_insert.
        case_decide; [|by apply HW]. intros [= <-]. simpl. split_and!; [lia|done..].
    + simpl. split_and!; try done.
      intros k st. simpl. rewrite lookup_insert.
      case_decide; [|by apply HW]. intros [= <-]. by apply newState_valid.
  - unfold HeartbeatEnd.POST. destruct (Heartbeat.falsy sid); [done|].
    destruct (watching db !! watchKey u sid) as [state|] eqn:Hk; [|done].
    destruct (HW _ _ Hk) as (L1 & L2 & L3 & L4). simpl.
    rewrite HeartbeatEnd_settle_same. split_and!.
    + intros k st. simpl. rewrite lookup_delete, settle_watching.
      case_decide; [done|]. by apply HW.
    + by apply (settle_SessionsOK u state now clock db).
    + by apply (settle_StatsOK u state now clock db).
    + by apply (settle_DailyOK u state now clock db).
    + by apply (settle_ChannelOK u state now clock db).
    + by apply (settle_Balanced u state now clock db).
  - split_and!; try done.
    intros k st. simpl. rewrite lookup_delete. case_decide; [done|]. by apply HW.
Qed.

Lemma empty_keeps_books :
  WatchOK emptyStore ∧ SessionsOK emptyStore ∧ StatsOK emptyStore
  ∧ DailyOK emptyStore ∧ ChannelOK emptyStore ∧ Balanced emptyStore.
Proof.
  split_and!.
  - intros k st. simpl. by rewrite lookup_empty.
  - intros u s. unfold sessionsOf. simpl. rewrite lookup_empty. simpl.
    intros Hs. by apply elem_of_nil in Hs.
  - intros u. simpl. by rewrite !lookup_empty.
  - intros day d. simpl. by rewrite lookup_empty.
  - intros cid c. simpl. by rewrite lookup_empty.
  - unfold Balanced. simpl. by rewrite !mapSum_empty.
Qed.

Lemma run_keeps_books trace db :
  WatchOK db ∧ SessionsOK db ∧ StatsOK db ∧ DailyOK db ∧ ChannelOK db ∧ Balanced db →
  WatchOK (run trace db) ∧ SessionsOK (run trace db) ∧ StatsOK (run trace db)
  ∧ DailyOK (run trace db) ∧ ChannelOK (run trace db) ∧ Balanced (run trace db).
Proof.
  revert db. induction trace as [|ev trace IH]; intros db Hdb; [done|].
  apply IH. by apply step_keeps_books.
Qed.

(** X7.  In every store the handlers can reach from the empty one, each
    watch state has [heartbeatCount >= 1] and non-empty channelId,
    channelName and sourceKey, so the "too short" test of the settlement
    never fires on a stored state; each persisted session has between 1 and
    960 heartbeats and the same three fields non-empty. *)
Theorem reachable_states_valid (trace : list Event) :
  let db := run trace emptyStore in
  (∀ k st, watching db !! k = Some st →
     1 ≤ ws_heartbeatCount st
     ∧ (ws_heartbeatCount st * Heartbeat.HEARTBEAT_INTERVAL
        <? Heartbeat.MIN_SESSION_DURATION) = false
     ∧ ws_channelId st ≠ EmptyString
     ∧ ws_channelName st ≠ EmptyString
     ∧ ws_sourceKey st ≠ EmptyString)
  ∧ (∀ u s, s ∈ sessionsOf db u →
       1 ≤ se_heartbeatCount s ≤ 960
       ∧ se_channelId s ≠ EmptyString
       ∧ se_channelName s ≠ EmptyString
       ∧ se_sourceKey s ≠ EmptyString).
Proof.
  intros db.
  destruct (run_keeps_books trace emptyStore empty_keeps_books) as (HW & HS & _).
  split; [|exact HS]. intros k st Hst.
  destruct (HW k st Hst) as (H1 & H2 & H3 & H4). split_and!; try done.
  unfold Heartbeat.HEARTBEAT_INTERVAL, Heartbeat.MIN_SESSION_DURATION. lia.
Qed.

(** X8.  In every reachable store a user has a UserStats record exactly
    when the session list is stored and non-empty; then [lastWatchTime] is
    the [endTime] of the newest session, [totalSessions >= 1], and
    [totalWatchTime] lies between 30 and 28800 seconds per session. *)
Theorem reachable_user_stats (trace : list Event) (u : string) :
  let db := run trace emptyStore in
  (stats db !! u = None ↔ sessionsOf db u = [])
  ∧ (stats db !! u = None ↔ sessions db !! u = None)
  ∧ ∀ st, stats db !! u = Some st →
      Some (us_lastWatchTime st) = (se_endTime <$> head (sessionsOf db u))
      ∧ 1 ≤ us_totalSessions st
      ∧ Heartbeat.MIN_SESSION_DURATION * us_totalSessions st ≤ us_totalWatchTime st
      ∧ us_totalWatchTime st ≤ Heartbeat.MAX_SESSION_DURATION * us_totalSessions st.
Proof.
  intros db.
  destruct (run_keeps_books trace emptyStore empty_keeps_books) as (_ & _ & HT & _).
  specialize (HT u). fold db in HT. unfold sessionsOf.
  destruct (stats db !! u) as [st|].
  - destruct HT as ((s & rest & Hs & Hlast) & Hn & Hlo & Hhi). rewrite Hs. simpl.
    split_and!; try done.
    intros st' [= <-]. rewrite Hlast. done.
  - rewrite HT. simpl. split_and!; done.
Qed.

(** X9.  In every reachable store each daily record and each channel record
    lists pairwise distinct users, at least one and at most as many as it
    counts sessions, all of them users with a UserStats record; its watch
    time lies between 30 and 28800 seconds per session; a channel record
    carries the channelId of its key. *)
Theorem reachable_daily_channel (trace : list Event) :
  let db := run trace emptyStore in
  DailyOK db ∧ ChannelOK db.
Proof.
  intros db.
  by destruct (run_keeps_books trace emptyStore empty_keeps_books)
    as (_ & _ & _ & HD & HC & _).
Qed.

(** X10.  In every reachable store the three aggregates agree: the
    totalWatchTime of all users, the watchTime of all days and the
    totalWatchTime of all channels have the same sum, and so have the three
    session counts. *)
Theorem reachable_aggregates_balanced (trace : list Event) :
  let db := run trace emptyStore in
  mapSum us_totalWatchTime (stats db) = mapSum ds_watchTime (daily db)
  ∧ mapSum us_totalWatchTime (stats db) = mapSum cs_totalWatchTime (channel db)
  ∧ mapSum us_totalSessions (stats db) = mapSum ds_sessions (daily db)
  ∧ mapSum us_totalSessions (stats db) = mapSum cs_totalSessions (channel db).
Proof.
  intros db.
  by destruct (run_keeps_books trace emptyStore empty_keeps_books)
    as (_ & _ & _ & _ & _ & HB).
Qed.

(** ** The cached report *)

Lemma buildReport_setGlobalStats (report : GlobalLiveStats) (db : Store)
    (allUsers : list string) (now : Z) :
  LiveStats.buildReport (setGlobalStats report db) allUsers now
  = LiveStats.buildReport db allUsers now.
Proof. reflexivity. Qed.

Lemma buildReport_expireGlobalStats (db : Store) (allUsers : list string) (now : Z) :
  LiveStats.buildReport (expireGlobalStats db) allUsers now
  = LiveStats.buildReport db allUsers now.
Proof. reflexivity. Qed.

(** X11.  The report handler only writes the cache key: the watch states
    and the five aggregates are as before, so a report computed from the
    resulting store is the report that would have been computed before the
    call.  After a call the cache key holds the answer just given.  With
    refresh, with nothing cached, and on the next call once the store has
    dropped the expired cache key, the answer is computed from the
    aggregates. *)
Theorem report_cache_behaviour (allUsers : list string) (forceRefresh : bool)
    (now : Z) (db : Store) :
  let out := LiveStats.GET allUsers forceRefresh now db in
  (watching out.2 = watching db ∧ sessions out.2 = sessions db
   ∧ stats out.2 = stats db ∧ daily out.2 = daily db ∧ channel out.2 = channel db)
  ∧ globalStats out.2 = Some out.1
  ∧ (forceRefresh = true ∨ globalStats db = None →
     out.1 = LiveStats.buildReport db allUsers now)
  ∧ (∀ allUsers' now',
       LiveStats.buildReport out.2 allUsers' now'
       = LiveStats.buildReport db allUsers' now')
  ∧ (∀ allUsers' now',
       (LiveStats.GET allUsers' false now' (expireGlobalStats out.2)).1
       = LiveStats.buildReport db allUsers' now').
Proof.
  intros out.
  assert (Hcases : out = (LiveStats.buildReport db allUsers now,
                          setGlobalStats (LiveStats.buildReport db allUsers now) db)
                   ∨ (forceRefresh = false ∧ ∃ c, globalStats db = Some c ∧ out = (c, db))).
  { unfold out, LiveStats.GET. destruct forceRefresh; [by left|].
    destruct (globalStats db) as [c|]; [right|by left]. split; [done|]. by exists c. }
  destruct Hcases as [->|(Hf & c & Hc & ->)]; simpl.
  - split_and!; try done.
  - split_and!; try done.
    intros [Ht|Hn]; [by rewrite Hf in Ht|by rewrite Hc in Hn].
Qed.

Lemma settle_globalStats username state endTime clock db :
  globalStats (Heartbeat.settleWatchSession username state endTime clock db)
  = globalStats db.
Proof.
  destruct (decide (inWindow (ws_heartbeatCount state * Heartbeat.HEARTBEAT_INTERVAL)))
    as [Hw|Hw].
  - by rewrite settle_in_window.
  - by rewrite settle_out_of_window.
Qed.

Lemma step_globalStats (db : Store) (ev : Event) :
  globalStats (step db ev) = globalStats db.
Proof.
  destruct ev as [u body now clock|u sid now clock|key]; simpl; [| |done].
  - unfold Heartbeat.POST. destruct (_ || _); [done|].
    destruct (watching db !! _) as [lastState|]; [|done].
    case_bool_decide; simpl; [apply settle_globalStats|done].
  - unfold HeartbeatEnd.POST. destruct (Heartbeat.falsy sid); [done|].
    destruct (watching db !! _) as [state|]; [|done]. simpl.
    rewrite HeartbeatEnd_settle_same. apply settle_globalStats.
Qed.

Lemma run_globalStats (trace : list Event) (db : Store) :
  globalStats (run trace db) = globalStats db.
Proof.
  revert db. induction trace as [|ev trace IH]; intros db; [done|].
  unfold run. simpl. fold (run trace (step db ev)). rewrite IH.
  apply step_globalStats.
Qed.

(** X12.  Heartbeats, end requests and expiries never touch the cached
    report: once a report is cached, a call without refresh keeps returning
    it after any number of further settlements, although the aggregates it
    was computed from have moved on. *)
Theorem cached_report_goes_stale (trace : list Event) (allUsers : list string)
    (now : Z) (db : Store) (cached : GlobalLiveStats) :
  globalStats db = Some cached →
  LiveStats.GET allUsers false now (run trace db) = (cached, run trace db).
Proof.
  intros Hc. unfold LiveStats.GET. by rewrite run_globalStats, Hc.
Qed.

Lemma cached_report_goes_stale_witness :
  let db := (LiveStats.GET ["alice"] true 0 emptyStore).2 in
  let db' := run (zapTrace ++ [EvEndWatch "alice" "tab1" 160000 160000]) db in
  gs_totalWatchTime (LiveStats.GET ["alice"] false 200000 db').1 = 0
  ∧ gs_totalWatchTime (LiveStats.GET ["alice"] true 200000 db').1 = 180.
Proof.
  intros db db'. split; [|reflexivity].
  unfold db'.
  rewrite (cached_report_goes_stale _ ["alice"] 200000 db
             (LiveStats.buildReport emptyStore ["alice"] 0)); reflexivity.
Defined.

(** ** Consistency of a report *)

Lemma sum_perm {A} (f : A → Z) (l l' : list A) :
  l ≡ₚ l' → foldr (λ x acc, f x + acc) 0 l = foldr (λ x acc, f x + acc) 0 l'.
Proof. induction 1; simpl; lia. Qed.

Lemma sum_reported db (f : string → Z) (g : UserLiveStats → Z) (allUsers : list string) :
  (∀ u, g (userEntry db u) = f u) →
  (∀ u, ¬ reported db u → f u = 0) →
  foldr (λ e acc, g e + acc) 0 (userEntry db <$> filter (reported db) allUsers)
  = sumOver f allUsers.
Proof.
  intros Hg Hz. induction allUsers as [|u us IH]; [done|].
  rewrite filter_cons, sumOver_cons. destruct (decide (reported db u)) as [Hr|Hr].
  - rewrite fmap_cons. simpl. rewrite IH, Hg. done.
  - rewrite IH, (Hz u Hr). lia.
Qed.

Lemma not_reported_zero db u :
  ¬ reported db u → totalWatchTimeOf db u = 0 ∧ totalSessionsOf db u = 0.
Proof.
  intros Hr. apply dec_stable in Hr as [Hnone _].
  unfold totalWatchTimeOf, totalSessionsOf. by rewrite Hnone.
Qed.

(** X13.  A report is consistent with itself: [totalUsers] is the number of
    user entries, [totalWatchTime] and [totalSessions] are the sums over the
    entries, the entries are ranked by descending totalWatchTime with ties
    in directory order, every entry lists at most 10 recent sessions (the
    first 10 of the stored list), and [todayActiveUsers] is the user count
    of the last point of the daily trend. *)
Theorem report_self_consistent (db : Store) (allUsers : list string) (now : Z) :
  let report := LiveStats.buildReport db allUsers now in
  gs_totalUsers report = Z.of_nat (length (gs_userStats report))
  ∧ gs_totalWatchTime report
    = foldr (λ e acc, ul_totalWatchTime e + acc) 0 (gs_userStats report)
  ∧ gs_totalSessions report
    = foldr (λ e acc, ul_totalSessions e + acc) 0 (gs_userStats report)
  ∧ RankedDesc ul_totalWatchTime (userEntry db <$> filter (reported db) allUsers)
      (gs_userStats report)
  ∧ (∀ e, e ∈ gs_userStats report →
       ul_recentSessions e = take 10 (sessionsOf db (ul_username e))
       ∧ (length (ul_recentSessions e) ≤ 10)%nat)
  ∧ Some (gs_todayActiveUsers report) = (dt_users <$> last (gs_dailyTrend report)).
Proof.
  intros report. unfold report, LiveStats.buildReport. simpl. rewrite scanUsers_spec. simpl.
  split_and!.
  - done.
  - rewrite (sum_perm _ _ _ (jsSort_perm ul_totalWatchTime _)).
    symmetry. apply sum_reported; [done|]. intros u Hr. by apply not_reported_zero.
  - rewrite (sum_perm _ _ _ (jsSort_perm ul_totalWatchTime _)).
    symmetry. apply sum_reported; [done|]. intros u Hr. by apply not_reported_zero.
  - apply jsSort_ranked.
  - intros e He. rewrite (jsSort_perm ul_totalWatchTime) in He.
    apply list_elem_of_fmap in He as (u & -> & _). simpl.
    split; [done|]. rewrite length_take. lia.
  - unfold LiveStats.trendEntry. simpl. by rewrite Z.sub_0_r.
Qed.

(** ** Shape of the rankings *)

Lemma channelTotals_ids (l : list LiveWatchSession) :
  fc_channelId <$> channelTotals l = firstOccurrences (se_channelId <$> l).
Proof.
  unfold channelTotals. rewrite <- list_fmap_compose. apply list_fmap_id.
Qed.

Lemma hotTotals_ids (l : list (string * LiveWatchSession)) :
  hc_channelId <$> hotTotals l = firstOccurrences ((λ us, se_channelId us.2) <$> l).
Proof.
  unfold hotTotals. rewrite <- list_fmap_compose. apply list_fmap_id.
Qed.

Lemma top_ranked_shape {A} (n : nat) (key : A → Z) (id : A → string)
    (input result : list A) :
  TopRanked n key input result →
  NoDup (id <$> input) →
  (length result ≤ n)%nat ∧ NoDup (id <$> result) ∧ ∀ x, x ∈ result → x ∈ input.
Proof.
  intros (ranked & (Hp & _) & ->) Hnd. split_and!.
  - rewrite length_take. lia.
  - rewrite fmap_take. eapply sublist_NoDup; [|apply sublist_take].
    by rewrite Hp.
  - intros x Hx. rewrite <- Hp. eapply subseteq_take. exact Hx.
Qed.

Lemma size_list_to_set_bounds (l : list string) :
  (size (list_to_set l : gset string) ≤ length l)%nat
  ∧ (l ≠ [] → (1 ≤ size (list_to_set l : gset string))%nat).
Proof.
  induction l as [|x l [IH _]]; [done|].
  rewrite list_to_set_cons. split.
  - rewrite size_union_alt, size_singleton. simpl.
    assert (size (list_to_set l ∖ {[x]} : gset string) ≤ size (list_to_set l : gset string))%nat
      by (apply subseteq_size, subseteq_difference_l; reflexivity).
    lia.
  - intros _.
    assert (size ({[x]} : gset string) ≤ size ({[x]} ∪ list_to_set l : gset string))%nat
      by (apply subseteq_size, union_subseteq_l).
    rewrite size_singleton in *. lia.
Qed.

Lemma firstOccurrences_filter_nonempty {A} (key : A → string) (l : list A) (k : string) :
  k ∈ firstOccurrences (key <$> l) → filter (λ x, key x = k) l ≠ [].
Proof.
  rewrite firstOccurrences_elem. intros (x & -> & Hx)%list_elem_of_fmap Hnil.
  eapply (filter_nil_not_elem_of _ l x); [exact Hnil|done|done].
Qed.

(** X14.  The rankings of a report are well-formed lists: an entry has at
    most 5 favorite channels and the report at most 10 hot channels, no
    channelId occurs twice in either list (the page uses it as the row key),
    every favorite channel counts at least one session, and every hot
    channel has at least one user and at most as many users as sessions. *)
Theorem report_rankings_shape (db : Store) (allUsers : list string) (now : Z) :
  let report := LiveStats.buildReport db allUsers now in
  (∀ e, e ∈ gs_userStats report →
     (length (ul_favoriteChannels e) ≤ 5)%nat
     ∧ NoDup (fc_channelId <$> ul_favoriteChannels e)
     ∧ ∀ c, c ∈ ul_favoriteChannels e → 1 ≤ fc_watchCount c)
  ∧ (length (gs_hotChannels report) ≤ 10)%nat
  ∧ NoDup (hc_channelId <$> gs_hotChannels report)
  ∧ ∀ h, h ∈ gs_hotChannels report → 1 ≤ hc_totalUsers h ≤ hc_totalSessions h.
Proof.
  intros report. split; [|].
  - intros e He. apply report_entries in He as (u & _ & _ & ->). simpl.
    destruct (top_ranked_shape 5 fc_watchTime fc_channelId _ _
                (favoriteChannels_top (sessionsOf db u))) as (H1 & H2 & H3).
    { rewrite channelTotals_ids. apply firstOccurrences_NoDup. }
    split; [exact H1|]. split; [exact H2|].
    intros c Hc. apply H3 in Hc. unfold channelTotals in Hc.
    apply list_elem_of_fmap in Hc as (k & -> & Hk). simpl.
    apply firstOccurrences_filter_nonempty in Hk. unfold onChannel.
    destruct (filter _ (sessionsOf db u)); [done|]. simpl. lia.
  - destruct (top_ranked_shape 10 hc_totalWatchTime hc_channelId _ _
                (report_hot_top db allUsers now)) as (H1 & H2 & H3).
    { rewrite hotTotals_ids. apply firstOccurrences_NoDup. }
    split; [exact H1|]. split; [exact H2|].
    intros h Hh. apply H3 in Hh. unfold hotTotals in Hh.
    apply list_elem_of_fmap in Hh as (k & -> & Hk). simpl.
    apply firstOccurrences_filter_nonempty in Hk. unfold onChannel2.
    set (ss := filter _ (scannedSessions db allUsers)) in *.
    destruct (size_list_to_set_bounds (ss.*1)) as [Hle Hge].
    rewrite length_fmap in Hle.
    assert (Hne : ss.*1 ≠ []) by (by destruct ss).
    specialize (Hge Hne). lia.
Qed.

(** ** The report on a reachable store *)

Lemma scanned_sum db (allUsers : list string) :
  sumDurations ((scannedSessions db allUsers).*2)
  = sumOver (λ u, sumDurations (sessionsOf db u)) allUsers.
Proof.
  induction allUsers as [|u us IH]; [done|].
  rewrite scannedSessions_cons, fmap_app, sumOver_cons, <- IH.
  rewrite <- list_fmap_compose.
  change ((snd ∘ (λ s, (u, s))) <$> sessionsOf db u) with (id <$> sessionsOf db u).
  rewrite list_fmap_id.
  generalize (sessionsOf db u) ((scannedSessions db us).*2).
  intros l1 l2. induction l1 as [|s l1 IHl]; simpl; [done|].
  unfold sumDurations in *. simpl. rewrite IHl. lia.
Qed.

(** X15.  On a store the handlers have reached from the empty one, the
    report's totalWatchTime is never below the summed duration of the
    sessions the report scans, and the two are equal when no user of the
    directory has had more than 100 sessions. *)
Theorem reachable_report_total (trace : list Event) (allUsers : list string) (now : Z) :
  let db := run trace emptyStore in
  let report := LiveStats.buildReport db allUsers now in
  sumDurations ((scannedSessions db allUsers).*2) ≤ gs_totalWatchTime report
  ∧ ((∀ u, u ∈ allUsers → totalSessionsOf db u ≤ 100) →
     sumDurations ((scannedSessions db allUsers).*2) = gs_totalWatchTime report).
Proof.
  intros db report.
  assert (Ht : gs_totalWatchTime report = sumOver (totalWatchTimeOf db) allUsers).
  { unfold report, LiveStats.buildReport. simpl. by rewrite scanUsers_spec. }
  rewrite Ht, scanned_sum. clear Ht report.
  pose proof (run_consistent trace emptyStore consistent_empty) as Hc. fold db in Hc.
  induction allUsers as [|u us IH]; [simpl; split; [lia|done]|].
  rewrite !sumOver_cons. destruct (Hc u) as (_ & _ & Hle & Heq). destruct IH as [IH1 IH2].
  split; [lia|]. intros Hall.
  destruct Heq as [Heq _]; [apply Hall, elem_of_cons; by left|].
  rewrite IH2; [lia|]. intros v Hv. apply Hall, elem_of_cons. by right.
Qed.

Lemma reachable_report_total_witness :
  let db := run (zapTrace ++ [EvEndWatch "alice" "tab1" 160000 160000]) emptyStore in
  sumDurations ((scannedSessions db ["alice"; "bob"]).*2)
  = gs_totalWatchTime (LiveStats.buildReport db ["alice"; "bob"] 0).
Proof.
  intros db.
  apply (reachable_report_total
           (zapTrace ++ [EvEndWatch "alice" "tab1" 160000 160000]) ["alice"; "bob"] 0).
  intros u Hu. repeat (apply elem_of_cons in Hu as [->|Hu]; [by vm_compute|]).
  destruct (proj1 (elem_of_nil u) Hu).
Defined.

(** * The dashboard page *)

(** ** [formatDuration] *)

Lemma NoDup_fmap_inj_on {A B} (f : A → B) (l : list A) (x y : A) :
  NoDup (f <$> l) → x ∈ l → y ∈ l → f x = f y → x = y.
Proof.
  induction l as [|a l IH]; intros Hnd Hx Hy Hf; [by apply elem_of_nil in Hx|].
  rewrite fmap_cons in Hnd. apply NoDup_cons in Hnd as [Ha Hnd].
  apply elem_of_cons in Hx as [->|Hx]; apply elem_of_cons in Hy as [->|Hy].
  - done.
  - exfalso. apply Ha. rewrite Hf. apply list_elem_of_fmap. by exists y.
  - exfalso. apply Ha. rewrite <- Hf. apply list_elem_of_fmap. by exists x.
  - by apply IH.
Qed.

Lemma distinctb_NoDup (l : list string) : distinctb l = true → NoDup l.
Proof.
  induction l as [|x l IH]; [constructor|].
  simpl. intros [Hx Hl]%andb_prop. apply NoDup_cons. split; [|by apply IH].
  intros Hin. apply negb_true_iff in Hx.
  assert (Hex : existsb (String.eqb x) l = true); [|congruence].
  apply existsb_exists. exists x. split; [by apply list_elem_of_In|].
  apply String.eqb_refl.
Qed.

Lemma formatDuration_NoDup :
  NoDup (Page.formatDuration <$> seqZ 0 3600).
Proof. apply distinctb_NoDup. vm_compute. reflexivity. Qed.

(** X16.  Below one hour [formatDuration] is exact: two different numbers
    of seconds in [[0, 3600)] never get the same text.  Negative and
    sub-minute inputs print as plain seconds. *)
Theorem formatDuration_exact_below_hour (s s' : Z) :
  0 ≤ s < 3600 → 0 ≤ s' < 3600 →
  Page.formatDuration s = Page.formatDuration s' →
  s = s'.
Proof.
  intros Hs Hs' Hf.
  apply (NoDup_fmap_inj_on Page.formatDuration (seqZ 0 3600)).
  - exact formatDuration_NoDup.
  - apply elem_of_seqZ. lia.
  - apply elem_of_seqZ. lia.
  - exact Hf.
Qed.

Lemma formatDuration_exact_below_hour_witness :
  Page.formatDuration 120 = "2分钟" ∧ Page.formatDuration 150 = "2分30秒"
  ∧ Page.formatDuration 30 = "30秒"
  ∧ 2 * 60 = 120.
Proof.
  split; [reflexivity|]. split; [reflexivity|]. split; [reflexivity|].
  apply (formatDuration_exact_below_hour (2 * 60) 120); [lia|lia|reflexivity].
Defined.

(** X17.  From one hour on [formatDuration] shows whole hours and whole
    minutes only: the seconds are dropped, so a duration and the same
    duration rounded down to the minute print alike, and with zero minutes
    only the hours are printed. *)
Theorem formatDuration_drops_seconds (s : Z) :
  3600 ≤ s →
  Page.formatDuration s = Page.formatDuration (s - s mod 60)
  ∧ (s mod 3600 < 60 → Page.formatDuration s = String.append (pretty (s / 3600)) "小时").
Proof.
  intros Hs. unfold Page.formatDuration.
  assert (H1 : (s <? 60) = false) by lia.
  assert (H2 : (s <? 3600) = false) by lia.
  assert (H3 : (s - s mod 60 <? 60) = false) by (Z.to_euclidean_division_equations; lia).
  assert (H4 : (s - s mod 60 <? 3600) = false) by (Z.to_euclidean_division_equations; lia).
  rewrite H1, H2, H3, H4.
  assert (Hh : (s - s mod 60) / 3600 = s / 3600) by (Z.to_euclidean_division_equations; lia).
  assert (Hm : (s - s mod 60) mod 3600 / 60 = s mod 3600 / 60)
    by (Z.to_euclidean_division_equations; lia).
  rewrite Hh, Hm. split; [done|].
  intros Hlt.
  assert (H0 : (0 <? s mod 3600 / 60) = false) by (Z.to_euclidean_division_equations; lia).
  by rewrite H0.
Qed.

Lemma formatDuration_drops_seconds_witness :
  Page.formatDuration 3659 = Page.formatDuration 3600
  ∧ Page.formatDuration 3600 = "1小时"
  ∧ Page.formatDuration 28800 = "8小时"
  ∧ Page.formatDuration 5430 = "1小时30分".
Proof.
  destruct (formatDuration_drops_seconds 3659) as [H _]; [lia|].
  split; [exact H|]. by split_and!.
Defined.

(** ** [TrendChart] *)

(** X18.  The scale of the trend chart is at least 1 (so the bar height
    never divides by zero) and at least every point's watchTime; it is 1 or
    the watchTime of some point. *)
Theorem maxWatchTime_bounds (data : list DailyTrend) :
  1 ≤ Page.maxWatchTime data
  ∧ (∀ item, item ∈ data → dt_watchTime item ≤ Page.maxWatchTime data)
  ∧ (Page.maxWatchTime data = 1
     ∨ ∃ item, item ∈ data ∧ dt_watchTime item = Page.maxWatchTime data).
Proof.
  unfold Page.maxWatchTime. induction data as [|x data (IH1 & IH2 & IH3)].
  - simpl. split; [lia|]. split; [|by left]. intros item Hi. by apply elem_of_nil in Hi.
  - rewrite fmap_cons. cbn [foldr]. split; [lia|]. split.
    + intros item Hi. apply elem_of_cons in Hi as [->|Hi]; [lia|].
      specialize (IH2 item Hi). lia.
    + destruct (Z.max_spec (dt_watchTime x) (foldr Z.max 1 (dt_watchTime <$> data)))
        as [[_ Hm]|[_ Hm]]; rewrite Hm.
      * destruct IH3 as [?|(item & Hi & Hw)]; [by left|].
        right. exists item. split; [by apply elem_of_cons; right|done].
      * right. exists x. split; [by apply elem_of_cons; left|done].
Qed.

(** Month and day of [civilFromDays] are a calendar month and day. *)
Lemma civilFromDays_month_day (days : Z) :
  1 ≤ (civilFromDays days).1.2 ≤ 12 ∧ 1 ≤ (civilFromDays days).2 ≤ 31.
Proof.
  unfold civilFromDays. cbv zeta. cbn [fst snd].
  set (z := days + 719468). set (era := z / 146097). set (doe := z - era * 146097).
  assert (Hdoe : 0 ≤ doe ≤ 146096)
    by (unfold doe, era; Z.to_euclidean_division_equations; lia).
  clearbody doe. clear z era.
  set (yoe := (doe - doe / 1460 + doe / 36524 - doe / 146096) / 365).
  assert (Hyoe : 0 ≤ yoe ≤ 399) by (unfold yoe; Z.to_euclidean_division_equations; lia).
  set (doy := doe - (365 * yoe + yoe / 4 - yoe / 100)).
  assert (Hdoy : 0 ≤ doy ≤ 365)
    by (unfold doy, yoe; Z.to_euclidean_division_equations; lia).
  clearbody doy.
  set (mp := (5 * doy + 2) / 153).
  assert (Hmp : 0 ≤ mp ≤ 11) by (unfold mp; Z.to_euclidean_division_equations; lia).
  split.
  - destruct (mp <? 10) eqn:Hlt; lia.
  - unfold mp. Z.to_euclidean_division_equations; lia.
Qed.

(** The days 1970-01-01 to 9999-12-31 have four-digit years. *)
Lemma civilFromDays_year (days : Z) :
  0 ≤ days ≤ 2932896 → 1970 ≤ (civilFromDays days).1.1 ≤ 9999.
Proof.
  intros Hd. unfold civilFromDays. cbv zeta. cbn [fst snd].
  destruct (_ <? 10) eqn:Hlt; destruct (_ <=? 2) eqn:Hle;
    Z.to_euclidean_division_equations; lia.
Qed.

Lemma string_length_append (a b : string) :
  String.length (String.append a b) = (String.length a + String.length b)%nat.
Proof. induction a as [|c a IH]; simpl; [done|]. by rewrite IH. Qed.

Lemma padDigits_length (w : nat) (n : Z) : String.length (padDigits w n) = w.
Proof.
  revert n. induction w as [|w IH]; intros n; [done|].
  simpl. rewrite string_length_append, IH. simpl. lia.
Qed.

Lemma dayLabel_of_day (day : Z) (item : DailyTrend) :
  0 ≤ day ≤ 2932896 →
  dt_date item = isoDateOfDay day →
  Page.dayLabel item
  = String.append (padDigits 2 (civilFromDays day).1.2)
      (String.append "-" (padDigits 2 (civilFromDays day).2)).
Proof.
  intros Hday Hdate. unfold Page.dayLabel. rewrite Hdate. unfold isoDateOfDay.
  pose proof (civilFromDays_year day Hday) as Hy.
  destruct (civilFromDays day) as [[y m] d]. simpl in *.
  unfold isoYear.
  replace ((0 <=? y) && (y <=? 9999)) with true by (symmetry; apply andb_true_intro; lia).
  generalize (String.append (padDigits 2 m) (String.append "-" (padDigits 2 d))).
  intros rest.
  pose proof (padDigits_length 4 y) as Hlen.
  destruct (padDigits 4 y) as [|c1 [|c2 [|c3 [|c4 [|c5 r]]]]]; simpl in Hlen; try lia.
  reflexivity.
Qed.

(** X19.  For a report computed between 1970-01-07 and 9999-12-31, the
    label the trend chart prints under a bar, [date.slice(5)], is the
    two-digit month, a dash and the two-digit day of that bar's UTC day (a
    real calendar month and day), five characters long. *)
Theorem trend_day_labels (db : Store) (allUsers : list string) (now : Z)
    (item : DailyTrend) :
  6 * msPerDay ≤ now < 253402300800000 →
  item ∈ gs_dailyTrend (LiveStats.buildReport db allUsers now) →
  ∃ day, utcDay now - 6 ≤ day ≤ utcDay now
    ∧ dt_date item = isoDateOfDay day
    ∧ Page.dayLabel item
      = String.append (padDigits 2 (civilFromDays day).1.2)
          (String.append "-" (padDigits 2 (civilFromDays day).2))
    ∧ 1 ≤ (civilFromDays day).1.2 ≤ 12 ∧ 1 ≤ (civilFromDays day).2 ≤ 31
    ∧ String.length (Page.dayLabel item) = 5%nat.
Proof.
  intros Hnow Hitem.
  assert (Hrange : 6 ≤ utcDay now ≤ 2932896).
  { unfold utcDay, msPerDay in *. Z.to_euclidean_division_equations; lia. }
  change (gs_dailyTrend (LiveStats.buildReport db allUsers now))
    with (LiveStats.trendEntry db now <$> [6; 5; 4; 3; 2; 1; 0]) in Hitem.
  apply list_elem_of_fmap in Hitem as (i & -> & Hi).
  assert (Hi6 : 0 ≤ i ≤ 6).
  { repeat (apply elem_of_cons in Hi as [->|Hi]; [lia|]). by apply elem_of_nil in Hi. }
  exists (utcDay now - i).
  destruct (trendEntry_spec db now i) as (Hdate & _).
  assert (Hlabel := dayLabel_of_day (utcDay now - i) (LiveStats.trendEntry db now i)
                      ltac:(lia) Hdate).
  split; [lia|]. split; [exact Hdate|]. split; [exact Hlabel|].
  destruct (civilFromDays_month_day (utcDay now - i)) as [Hm Hd].
  split; [exact Hm|]. split; [exact Hd|].
  rewrite Hlabel, !string_length_append, !padDigits_length. reflexivity.
Qed.

Lemma trend_day_labels_witness :
  ∃ day, dt_date (mkDailyTrend "1970-01-07" 0 0 0) = isoDateOfDay day
    ∧ Page.dayLabel (mkDailyTrend "1970-01-07" 0 0 0) = "01-07".
Proof.
  destruct (trend_day_labels emptyStore [] (6 * msPerDay + 5)
              (mkDailyTrend "1970-01-07" 0 0 0))
    as (day & _ & Hdate & _).
  - vm_compute. split; [discriminate|reflexivity].
  - change (gs_dailyTrend (LiveStats.buildReport emptyStore [] (6 * msPerDay + 5)))
      with (LiveStats.trendEntry emptyStore (6 * msPerDay + 5) <$> [6; 5; 4; 3; 2; 1; 0]).
    apply list_elem_of_fmap. exists 0. split; [reflexivity|].
    do 6 (apply elem_of_cons; right). apply elem_of_cons. by left.
  - exists day. split; [exact Hdate|reflexivity].
Defined.

(** * The administrator test and the order of times *)

Lemma list_find_none_of {A} (P : A → Prop) `{∀ x, Decision (P x)} (Q : A → Prop)
    (l : list A) (i : nat) (x : A) :
  (∀ y, y ∈ l → P y → Q y) → list_find P l = Some (i, x) → Q x.
Proof.
  intros Hall Hfind. apply list_find_Some in Hfind as (Hi & Hx & _).
  apply Hall; [|done]. by eapply list_elem_of_lookup_2.
Qed.

(** X20.  With remote storage and a non-empty username, the report handler
    admits the account named by the USERNAME variable whatever the
    directory says, refuses with 403 (store untouched) everybody else who
    has no directory entry that is an unbanned admin, and when it admits,
    answers with the report of [GET] over the usernames of the directory. *)
Theorem report_admin_gate (storageEnv ownerEnv : option string) (username : string)
    (users : list UserEntry) (refresh : option string) (now : Z) (db : Store) :
  let out := Route.liveStatsGET storageEnv ownerEnv (Some (mkAuthInfo username)) users
               refresh now db in
  Route.storageType storageEnv ≠ "localstorage" → username ≠ EmptyString →
  (ownerEnv = Some username → out.1.1 = Http200)
  ∧ (ownerEnv ≠ Some username →
     (∀ e, e ∈ users → ue_username e = username →
        ue_role e ≠ "admin" ∨ ue_banned e = true) →
     out = (Http403, None, db))
  ∧ (out.1.1 = Http200 →
     out.1.2 = Some (LiveStats.GET (ue_username <$> users)
                       (bool_decide (refresh = Some "true")) now db).1
     ∧ out.2 = (LiveStats.GET (ue_username <$> users)
                  (bool_decide (refresh = Some "true")) now db).2).
Proof.
  intros out Hmode Hname. unfold out, Route.liveStatsGET.
  rewrite bool_decide_eq_false_2 by done. simpl.
  rewrite (bool_decide_eq_false_2 _ Hname : Heartbeat.falsy username = false).
  split_and!.
  - intros Howner. unfold Route.isAdmin. by rewrite bool_decide_eq_true_2.
  - intros Howner Hnone. unfold Route.isAdmin.
    rewrite bool_decide_eq_false_2 by done.
    destruct (list_find _ users) as [[i e]|] eqn:Hfind; [|done].
    assert (Hq : ue_role e ≠ "admin" ∨ ue_banned e = true).
    { eapply (list_find_none_of (λ u, ue_username u = username)
                (λ u, ue_role u ≠ "admin" ∨ ue_banned u = true)); [|exact Hfind].
      intros y Hy Hyn. by apply Hnone. }
    destruct Hq as [Hrole|Hban].
    + by rewrite bool_decide_eq_false_2.
    + rewrite Hban. by rewrite andb_false_r.
  - by destruct (Route.isAdmin ownerEnv users username).
Qed.

Lemma report_admin_gate_witness :
  (Route.liveStatsGET (Some "redis") (Some "root") (Some (mkAuthInfo "root"))
     adminDirectory None 0 rankStore).1.1 = Http200
  ∧ Route.liveStatsGET (Some "redis") (Some "root") (Some (mkAuthInfo "carol"))
      adminDirectory None 0 rankStore = (Http403, None, rankStore).
Proof.
  destruct (report_admin_gate (Some "redis") (Some "root") "root" adminDirectory None 0
              rankStore) as (H1 & _); [discriminate|discriminate|].
  destruct (report_admin_gate (Some "redis") (Some "root") "carol" adminDirectory None 0
              rankStore) as (_ & H2 & _); [discriminate|discriminate|].
  split; [by apply H1|]. apply H2; [discriminate|].
  intros e He Hn. unfold adminDirectory in He.
  repeat (apply elem_of_cons in He as [->|He]; [first [discriminate Hn | by right]|]).
  destruct (proj1 (elem_of_nil e) He).
Defined.

Lemma step_times (t now' : Z) (db : Store) (ev : Event) :
  eventNow ev = Some now' → t ≤ now' →
  (∀ k st, watching db !! k = Some st → ws_startTime st ≤ ws_lastHeartbeat st ≤ t) →
  (∀ u s, s ∈ sessionsOf db u → se_startTime s ≤ se_endTime s ≤ t) →
  (∀ k st, watching (step db ev) !! k = Some st →
     ws_startTime st ≤ ws_lastHeartbeat st ≤ now')
  ∧ (∀ u s, s ∈ sessionsOf (step db ev) u → se_startTime s ≤ se_endTime s ≤ now').
Proof.
  intros Hev Ht HW HS.
  assert (HW' : ∀ k st, watching db !! k = Some st →
            ws_startTime st ≤ ws_lastHeartbeat st ≤ now').
  { intros k st Hst. specialize (HW k st Hst). lia. }
  assert (HS' : ∀ u s, s ∈ sessionsOf db u → se_startTime s ≤ se_endTime s ≤ now').
  { intros u s Hs. specialize (HS u s Hs). lia. }
  assert (Hsettle : ∀ u state clock, (∃ k, watching db !! k = Some state) →
            ∀ v s, s ∈ sessionsOf (Heartbeat.settleWatchSession u state now' clock db) v →
                   se_startTime s ≤ se_endTime s ≤ now').
  { intros u state clock [k Hk] v s Hs.
    destruct (decide (inWindow (ws_heartbeatCount state * Heartbeat.HEARTBEAT_INTERVAL)))
      as [Hw|Hw]; [|rewrite settle_out_of_window in Hs by done; by apply (HS' v)].
    destruct (decide (v = u)) as [->|Hv].
    - rewrite settle_sessionsOf_same in Hs by exact Hw.
      apply elem_of_cons in Hs as [->|Hs].
      + simpl. specialize (HW k state Hk). lia.
      + apply (HS' u). eapply subseteq_take. exact Hs.
    - rewrite settle_sessionsOf_other in Hs by done. by apply (HS' v). }
  destruct ev as [u body now clock|u sid now clock|key]; simpl in Hev; [| |done];
    injection Hev as ->; simpl.
  - unfold Heartbeat.POST. destruct (_ || _); [done|].
    destruct (watching db !! watchKey u (hb_sessionId body)) as [lastState|] eqn:Hk.
    + case_bool_decide; simpl.
      * split.
        -- intros k st. rewrite lookup_insert, settle_watching.
           case_decide; [|by apply HW']. intros [= <-]. simpl. lia.
        -- apply (Hsettle u lastState clock). by eexists.
      * split; [|done]. intros k st. rewrite lookup_insert.
        case_decide; [|by apply HW']. intros [= <-]. simpl.
        specialize (HW _ _ Hk). lia.
    + simpl. split; [|done]. intros k st. rewrite lookup_insert.
      case_decide; [|by apply HW']. intros [= <-]. simpl. lia.
  - unfold HeartbeatEnd.POST. destruct (Heartbeat.falsy sid); [done|].
    destruct (watching db !! watchKey u sid) as [state|] eqn:Hk; [|done]. simpl.
    rewrite HeartbeatEnd_settle_same. split.
    + intros k st. rewrite lookup_delete, settle_watching.
      case_decide; [done|]. by apply HW'.
    + apply (Hsettle u state clock). by eexists.
Qed.

Lemma run_times (trace : list Event) :
  ∀ (t : Z) (db : Store),
    clockOrdered t trace →
    (∀ k st, watching db !! k = Some st → ws_startTime st ≤ ws_lastHeartbeat st ≤ t) →
    (∀ u s, s ∈ sessionsOf db u → se_startTime s ≤ se_endTime s ≤ t) →
    (∀ k st, watching (run trace db) !! k = Some st →
       ws_startTime st ≤ ws_lastHeartbeat st)
    ∧ (∀ u s, s ∈ sessionsOf (run trace db) u → se_startTime s ≤ se_endTime s).
Proof.
  induction trace as [|ev trace IH]; intros t db Hord HW HS.
  - simpl. split.
    + intros k st Hst. specialize (HW k st Hst). lia.
    + intros u s Hs. specialize (HS u s Hs). lia.
  - unfold run. simpl fold_left. fold (run trace (step db ev)).
    simpl in Hord. destruct (eventNow ev) as [now'|] eqn:Hev.
    + destruct Hord as [Ht Hord].
      destruct (step_times t now' db ev Hev Ht HW HS) as [HW1 HS1].
      by apply (IH now' (step db ev)).
    + destruct ev; simpl in Hev; try done. apply (IH t); [done| |done].
      intros k st. simpl. rewrite lookup_delete. case_decide; [done|]. by apply HW.
Qed.

(** X21.  When the clock values the requests read never go back, no stored
    watch state has its last heartbeat before its start, and no persisted
    session ends before it starts. *)
Theorem sessions_end_after_start (t : Z) (trace : list Event) :
  clockOrdered t trace →
  let db := run trace emptyStore in
  (∀ k st, watching db !! k = Some st → ws_startTime st ≤ ws_lastHeartbeat st)
  ∧ (∀ u s, s ∈ sessionsOf db u → se_startTime s ≤ se_endTime s).
Proof.
  intros Hord db. apply (run_times trace t emptyStore Hord).
  - intros k st. simpl. by rewrite lookup_empty.
  - intros u s. unfold sessionsOf. simpl. rewrite lookup_empty. simpl.
    intros Hs. by apply elem_of_nil in Hs.
Qed.

Lemma sessions_end_after_start_witness :
  let db := run (zapTrace ++ [EvEndWatch "alice" "tab1" 160000 160000]) emptyStore in
  ((λ s, (se_startTime s, se_endTime s)) <$> sessionsOf db "alice")
  = [(150000, 160000); (60000, 150000); (0, 60000)]
  ∧ Forall (λ s, se_startTime s ≤ se_endTime s) (sessionsOf db "alice").
Proof.
  intros db. split; [reflexivity|].
  destruct (sessions_end_after_start 0
              (zapTrace ++ [EvEndWatch "alice" "tab1" 160000 160000])) as [_ Hs].
  - simpl. split_and!; try done; lia.
  - apply Forall_forall. apply Hs.
Defined.

(** * The properties above on the sample traces *)

Lemma reachable_states_valid_witness :
  ∃ st, watching (run zapTrace emptyStore) !! watchKey "alice" "tab1" = Some st
        ∧ 1 ≤ ws_heartbeatCount st ∧ ws_channelId st ≠ EmptyString.
Proof.
  destruct (reachable_states_valid zapTrace) as [HW _].
  exists (mkLiveWatchState "c1" "News" "" "" "s1" "" 150000 150000 1).
  assert (Hst : watching (run zapTrace emptyStore) !! watchKey "alice" "tab1"
                = Some (mkLiveWatchState "c1" "News" "" "" "s1" "" 150000 150000 1))
    by reflexivity.
  split; [exact Hst|].
  destruct (HW _ _ Hst) as (H1 & _ & H2 & _). by split.
Defined.

Lemma reachable_user_stats_witness :
  let db := run (zapTrace ++ [EvEndWatch "alice" "tab1" 160000 160000]) emptyStore in
  stats db !! "alice" = Some (mkUserStats 180 3 160000)
  ∧ (se_endTime <$> head (sessionsOf db "alice")) = Some 160000
  ∧ stats db !! "bob" = None ∧ sessionsOf db "bob" = [].
Proof.
  intros db.
  destruct (reachable_user_stats (zapTrace ++ [EvEndWatch "alice" "tab1" 160000 160000])
              "alice") as (_ & _ & Hsome).
  destruct (reachable_user_stats (zapTrace ++ [EvEndWatch "alice" "tab1" 160000 160000])
              "bob") as (Hnone & _).
  destruct (Hsome (mkUserStats 180 3 160000) eq_refl) as (Hlast & _).
  split; [reflexivity|]. split; [symmetry; exact Hlast|].
  split; [reflexivity|]. by apply Hnone.
Defined.

Lemma reachable_daily_channel_witness :
  let db := run (zapTrace ++ [EvEndWatch "alice" "tab1" 160000 160000]) emptyStore in
  ∃ d, daily db !! "1970-01-01" = Some d
       ∧ NoDup (ds_users d) ∧ Z.of_nat (length (ds_users d)) ≤ ds_sessions d.
Proof.
  intros db.
  destruct (reachable_daily_channel
              (zapTrace ++ [EvEndWatch "alice" "tab1" 160000 160000])) as [HD _].
  exists (mkDailyStats 180 3 ["alice"]).
  assert (Hd : daily db !! "1970-01-01" = Some (mkDailyStats 180 3 ["alice"]))
    by reflexivity.
  split; [exact Hd|].
  destruct (HD _ _ Hd) as (H1 & _ & H3 & _). by split.
Defined.

Lemma reachable_aggregates_balanced_witness :
  let db := run (zapTrace ++ [EvEndWatch "alice" "tab1" 160000 160000]) emptyStore in
  mapSum us_totalWatchTime (stats db) = 180
  ∧ mapSum ds_watchTime (daily db) = 180
  ∧ mapSum cs_totalWatchTime (channel db) = 180.
Proof.
  intros db.
  destruct (reachable_aggregates_balanced
              (zapTrace ++ [EvEndWatch "alice" "tab1" 160000 160000])) as (H1 & H2 & _).
  fold db in H1, H2.
  assert (Hs : mapSum us_totalWatchTime (stats db) = 180) by (by vm_compute).
  split; [exact Hs|]. split; [by rewrite <- H1|by rewrite <- H2].
Defined.

Lemma report_cache_behaviour_witness :
  let out := LiveStats.GET ["alice"; "bob"] false 0 rankStore in
  out.1 = LiveStats.buildReport rankStore ["alice"; "bob"] 0
  ∧ stats out.2 = stats rankStore
  ∧ gs_todayActiveUsers out.1 = 2
  ∧ gs_todayActiveUsers
      (LiveStats.GET ["alice"; "bob"] false 86400000 (expireGlobalStats out.2)).1 = 0.
Proof.
  intros out.
  destruct (report_cache_behaviour ["alice"; "bob"] false 0 rankStore)
    as ((_ & _ & Hs & _) & _ & Hfresh & _ & Hexp).
  split; [apply Hfresh; by right|]. split; [exact Hs|]. split; [reflexivity|].
  etrans; [exact (f_equal gs_todayActiveUsers (Hexp ["alice"; "bob"] 86400000))|].
  reflexivity.
Defined.

Lemma report_self_consistent_witness :
  let report := LiveStats.buildReport rankStore ["bob"; "alice"; "carol"] 0 in
  gs_totalUsers report = 2
  ∧ (ul_username <$> gs_userStats report) = ["alice"; "bob"]
  ∧ gs_totalWatchTime report
    = foldr (λ e acc, ul_totalWatchTime e + acc) 0 (gs_userStats report)
  ∧ gs_totalWatchTime report = 360.
Proof.
  intros report.
  destruct (report_self_consistent rankStore ["bob"; "alice"; "carol"] 0)
    as (_ & Hsum & _).
  split; [reflexivity|]. split; [reflexivity|]. split; [exact Hsum|reflexivity].
Defined.

Lemma report_rankings_shape_witness :
  let report := LiveStats.buildReport rankStore ["alice"; "bob"] 0 in
  NoDup (hc_channelId <$> gs_hotChannels report)
  ∧ (hc_channelId <$> gs_hotChannels report) = ["c2"; "c1"].
Proof.
  intros report.
  destruct (report_rankings_shape rankStore ["alice"; "bob"] 0) as (_ & _ & Hnd & _).
  split; [exact Hnd|reflexivity].
Defined.

Lemma maxWatchTime_bounds_witness :
  Page.maxWatchTime [] = 1
  ∧ Page.maxWatchTime [mkDailyTrend "1970-01-01" 120 1 1; mkDailyTrend "1970-01-02" 0 0 0]
    = 120
  ∧ 1 ≤ Page.maxWatchTime [mkDailyTrend "1970-01-01" 0 0 0].
Proof.
  destruct (maxWatchTime_bounds [mkDailyTrend "1970-01-01" 0 0 0]) as (H1 & _).
  split; [reflexivity|]. split; [reflexivity|exact H1].
Defined.
